(** * figma_api: a shallow embedding of [figma_api.py] and its specification

    The service takes a Figma URL, fetches the document from the remote API,
    collects the top-level frames, asks the remote API to render them in
    batches of 100, downloads the rendered images into a per-session folder
    and serves them back.

    Python values are modelled as they are at run time: a [str] is a sequence
    of code points, a parsed JSON body is a dynamically typed tree, a [dict]
    with string keys is a finite map.  The outside world (the remote API, the
    file system, the log) is an explicit state threaded through a small
    state-and-exception monad. *)

From Stdlib Require Import ZArith NArith Ascii String DecimalString Lia.
From stdpp Require Import base option list gmap fin_maps.

Set Warnings "-register-all".
Set Default Proof Using "Type".

(** ** Python strings *)

(** A Python [str] is a sequence of Unicode code points, a [bytes] object a
    sequence of byte values. *)
Abbreviation str := (list N).
Abbreviation bytes := (list N).

(** [u "text"] is the [str] of an ASCII literal of the source. *)
Definition u (s : string) : str := N_of_ascii <$> list_ascii_of_string s.
Arguments u s%_string.

Definition ch (a : ascii) : N := N_of_ascii a.
Arguments ch a%_char.

Definition SEP : N := ch "/".
Definition NUL : N := 0%N.

Definition in_range (lo hi c : N) : bool := (lo <=? c)%N && (c <=? hi)%N.

Definition is_ascii_lower (c : N) : bool := in_range (ch "a") (ch "z") c.
Definition is_ascii_upper (c : N) : bool := in_range (ch "A") (ch "Z") c.
Definition is_ascii_digit (c : N) : bool := in_range (ch "0") (ch "9") c.
Definition is_ascii_alnum (c : N) : bool :=
  is_ascii_lower c || is_ascii_upper c || is_ascii_digit c.

(** [s.startswith(p)] *)
Fixpoint startswith (p s : str) : bool :=
  match p, s with
  | [], _ => true
  | _ :: _, [] => false
  | a :: p', b :: s' => (a =? b)%N && startswith p' s'
  end.

(** [s.endswith("/")] *)
Definition endswith_sep (s : str) : bool :=
  match last s with
  | Some c => (c =? SEP)%N
  | None => false
  end.

(** [needle in haystack] on two strings *)
Fixpoint str_contains (needle hay : str) : bool :=
  startswith needle hay ||
  match hay with
  | [] => false
  | _ :: hay' => str_contains needle hay'
  end.

(** [str(n)] for an [int] *)
Definition str_of_int (n : Z) : str := u (NilZero.string_of_int (Z.to_int n)).

(** ** Parsed JSON

    What [response.json()] and [request.get_json()] return: [None], [bool],
    numbers, [str], [list] and [dict] with string keys.  Numbers are kept as
    integers; the program only tests them for truth and never computes with
    them. *)
Inductive json : Type :=
| JNull
| JBool (b : bool)
| JNum (n : Z)
| JStr (s : str)
| JArr (l : list json)
| JObj (m : gmap str json).

(** Python truth value, as tested by [if x], [not x] and comprehension
    filters. *)
Definition truthy (v : json) : bool :=
  match v with
  | JNull => false
  | JBool b => b
  | JNum n => negb (n =? 0)%Z
  | JStr s => negb (bool_decide (s = []))
  | JArr l => match l with [] => false | _ => true end
  | JObj m => negb (bool_decide (m = ∅))
  end.

(** Values that can be used as a [dict] key: everything but [list] and
    [dict]. *)
Definition hashable (v : json) : bool :=
  match v with
  | JArr _ | JObj _ => false
  | _ => true
  end.

(** ** Exceptions

    The classes the program raises or meets.  [HTTPException] is what
    [flask.abort] raises (werkzeug); it derives from [Exception], like every
    other class here.  [RequestException] stands for
    [requests.RequestException] and its subclasses (connection errors,
    [MissingSchema], the JSON decoding error of [response.json()]). *)
Inductive exn : Type :=
| HTTPException (code : Z) (description : str)
| ValueError (msg : str)
| Exception (msg : str)
| RequestException (msg : str)
| TypeError
| AttributeError
| KeyError
| OSError.

Definition is_RequestException (e : exn) : bool :=
  match e with
  | RequestException _ => true
  | _ => false
  end.

(** The reason phrases werkzeug attaches to the status codes the program
    aborts with, and to the one [request.get_json()] may raise besides 400. *)
Definition http_name (code : Z) : str :=
  if (code =? 400)%Z then u "Bad Request"
  else if (code =? 404)%Z then u "Not Found"
  else if (code =? 415)%Z then u "Unsupported Media Type"
  else if (code =? 500)%Z then u "Internal Server Error"
  else u "Unknown Error".

Inductive result (A : Type) : Type :=
| Ok (a : A)
| Raise (e : exn).
Arguments Ok {A} a.
Arguments Raise {A} e.

(** ** Texts produced by the interpreter

    [str()] of a value that is not a string and [str()] of an exception
    raised by the interpreter itself are CPython's, and the message of the
    [MissingSchema] error is the [requests] library's; the program never
    inspects them, it only pastes them into messages.  They are parameters
    of the development.  So is the table of alphanumeric code points beyond
    ASCII that [\w] consults. *)
Record Interp : Type := {
  py_repr : json → str;
  builtin_text : exn → str;
  missing_schema_text : json → str;
  unicode_alnum : N → bool
}.

Section Strings.
Context (I : Interp).

(** [f"{v}"] *)
Definition format_value (v : json) : str :=
  match v with
  | JStr s => s
  | _ => py_repr I v
  end.

(** [str(e)] *)
Definition str_of_exn (e : exn) : str :=
  match e with
  | HTTPException code description =>
      str_of_int code ++ u " " ++ http_name code ++ u ": " ++ description
  | ValueError msg | Exception msg | RequestException msg => msg
  | _ => builtin_text I e
  end.

(** [\w] on a [str] pattern: alphanumeric or underscore. *)
Definition is_word (c : N) : bool :=
  ((c =? ch "_")%N) ||
  (if (c <? 128)%N then is_ascii_alnum c else unicode_alnum I c).

(** The character class [[\w\-_.]] whose complement the sanitizer
    replaces. *)
Definition is_safe (c : N) : bool :=
  is_word c || (c =? ch "-")%N || (c =? ch "_")%N || (c =? ch ".")%N.

(** [re.sub(r'[^\w\-_.]', '_', node_id)] *)
Definition sanitize (node_id : str) : str :=
  (λ c, if is_safe c then c else ch "_") <$> node_id.
End Strings.

(** ** [os.path.join] (posixpath) *)

Definition join2 (path b : str) : str :=
  if startswith [SEP] b then b
  else if bool_decide (path = []) || endswith_sep path then path ++ b
  else path ++ [SEP] ++ b.

Definition os_path_join (a : str) (p : list str) : str :=
  foldl join2 a p.

(** ** [re.search] for the two URL patterns

    Both patterns are a literal followed by the group [([a-zA-Z0-9_-]+)], so
    a match at a position is: one of the literals, then the longest
    non-empty run of key characters.  [re.search] returns the match at the
    leftmost position that has one. *)

Definition is_key_char (c : N) : bool :=
  is_ascii_lower c || is_ascii_upper c || is_ascii_digit c
  || (c =? ch "_")%N || (c =? ch "-")%N.

Fixpoint take_while (p : N → bool) (s : str) : str :=
  match s with
  | [] => []
  | c :: s' => if p c then c :: take_while p s' else []
  end.

(** The group captured by a match of [lit([a-zA-Z0-9_-]+)] anchored at the
    start of [s]. *)
Definition match_lit_key (lit s : str) : option str :=
  if startswith lit s then
    match take_while is_key_char (drop (length lit) s) with
    | [] => None
    | k => Some k
    end
  else None.

(** The alternatives are tried in order at the same position. *)
Fixpoint match_here (lits : list str) (s : str) : option str :=
  match lits with
  | [] => None
  | lit :: lits' =>
      match match_lit_key lit s with
      | Some k => Some k
      | None => match_here lits' s
      end
  end.

Fixpoint re_search (lits : list str) (s : str) : option str :=
  match match_here lits s with
  | Some k => Some k
  | None =>
      match s with
      | [] => None
      | _ :: s' => re_search lits s'
      end
  end.

(** [figma\.com/(?:file|design)/([a-zA-Z0-9_-]+)] *)
Definition pattern : list str :=
  [u "figma.com/file/"; u "figma.com/design/"].

(** [figma\.com/board/([a-zA-Z0-9_-]+)] *)
Definition board_pattern : list str := [u "figma.com/board/"].

Definition extract_file_key (figma_url : json) : result str :=
  match figma_url with
  | JStr url =>
      match re_search pattern url with
      | Some key => Ok key
      | None =>
          match re_search board_pattern url with
          | Some key => Ok key
          | None => Raise (ValueError (u "Invalid Figma URL"))
          end
      end
  | _ => Raise TypeError
  end.

(** ** The outside world *)

(** Configuration read from the process environment at start-up. *)
Record Config : Type := {
  BASE_URL : str;
  FIGMA_API_TOKEN : option str;
  UPLOAD_FOLDER : str
}.

(** One call of [requests.get]: the URL, the headers and the query
    parameters the program hands over. *)
Record HttpRequest : Type := {
  req_url : str;
  req_headers : list (str * option str);
  req_params : list (str * str)
}.

(** A [requests.Response]: [json_body] is what [response.json()] returns or
    raises. *)
Record Response : Type := {
  status_code : Z;
  text : str;
  content : bytes;
  json_body : result json
}.

(** What a call of [requests.get] comes to: the response it returns (the
    last one, when [requests] has followed redirects), or the
    [RequestException] it raises, with its message: a URL that [requests]
    cannot prepare or finds no adapter for (no scheme, no host), a
    transport failure (DNS, timeout, connection reset). *)
Inductive outcome : Type :=
| Responded (r : Response)
| Failed (msg : str).

(** The file system.  A path is identified by whether it is absolute and by
    its components, empty and ["."] components dropped; [".."] and symbolic
    links are not resolved, and permissions and capacity are not modelled. *)
Inductive fsnode : Type :=
| File (data : bytes)
| Dir.

Fixpoint split_sep (s : str) : list str :=
  match s with
  | [] => [[]]
  | c :: s' =>
      if (c =? SEP)%N then [] :: split_sep s'
      else match split_sep s' with
           | [] => [[c]]
           | w :: ws => (c :: w) :: ws
           end
  end.

Definition is_name (part : str) : bool :=
  negb (bool_decide (part = [])) && negb (bool_decide (part = u ".")).

Definition path_key (p : str) : bool * list str :=
  (startswith [SEP] p, filter (λ part, is_name part = true) (split_sep p)).

Inductive level : Type := DEBUG | INFO | WARNING | ERROR.

Record World : Type := {
  attempts : list HttpRequest;
  disk : gmap (bool * list str) fsnode;
  logged : list (level * str)
}.

Definition set_attempts (l : list HttpRequest) (w : World) : World :=
  {| attempts := l; disk := disk w; logged := logged w |}.
Definition set_disk (d : gmap (bool * list str) fsnode) (w : World) : World :=
  {| attempts := attempts w; disk := d; logged := logged w |}.
Definition set_logged (l : list (level * str)) (w : World) : World :=
  {| attempts := attempts w; disk := disk w; logged := l |}.

(** ** Computations: state and exceptions

    A raised exception keeps the effects performed before it. *)
Definition M (A : Type) : Type := World → result A * World.

#[global] Instance M_ret : MRet M := λ A a w, (Ok a, w).
#[global] Instance M_bind : MBind M := λ A B f m w,
  match m w with
  | (Ok a, w') => f a w'
  | (Raise e, w') => (Raise e, w')
  end.

Definition raise {A : Type} (e : exn) : M A := λ w, (Raise e, w).

(** [try: body  except C as e: handler e], where [catches] tells whether an
    exception is an instance of [C]. *)
Definition try_except {A : Type} (body : M A) (catches : exn → bool)
    (handler : exn → M A) : M A := λ w,
  match body w with
  | (Ok a, w') => (Ok a, w')
  | (Raise e, w') => if catches e then handler e w' else (Raise e, w')
  end.

(** A pure computation that may raise. *)
Definition lift {A : Type} (r : result A) : M A := λ w, (r, w).

#[global] Instance result_ret : MRet result := λ A a, Ok a.
#[global] Instance result_bind : MBind result := λ A B f r,
  match r with
  | Ok a => f a
  | Raise e => Raise e
  end.

(** ** Dynamic operations on JSON values *)

(** [obj.get(key, default)] *)
Definition py_get (obj : json) (key : str) (dflt : json) : result json :=
  match obj with
  | JObj m => Ok (default dflt (m !! key))
  | _ => Raise AttributeError
  end.

(** The elements [for x in v] runs over.  A [dict] yields its keys; their
    order is not kept by the finite map, and no caller depends on it. *)
Definition py_iter (v : json) : result (list json) :=
  match v with
  | JArr l => Ok l
  | JStr s => Ok ((λ c, JStr [c]) <$> s)
  | JObj m => Ok (JStr <$> (map_to_list m).*1)
  | _ => Raise TypeError
  end.

(** [v != "literal"] *)
Definition differs_from_str (v : json) (lit : str) : bool :=
  match v with
  | JStr s => negb (bool_decide (s = lit))
  | _ => true
  end.

(** [key in data] for a string [key] *)
Definition py_contains (data : json) (key : str) : result bool :=
  match data with
  | JObj m => Ok (bool_decide (is_Some (m !! key)))
  | JArr l => Ok (existsb (λ v, negb (differs_from_str v key)) l)
  | JStr s => Ok (str_contains key s)
  | _ => Raise TypeError
  end.

(** [data[key]] for a string [key], after [key in data] *)
Definition py_getitem (data : json) (key : str) : result json :=
  match data with
  | JObj m => match m !! key with Some v => Ok v | None => Raise KeyError end
  | _ => Raise TypeError
  end.

(** [",".join(items)] *)
Fixpoint comma_join (items : list json) : result str :=
  match items with
  | [] => Ok []
  | JStr s :: rest =>
      match rest with
      | [] => Ok s
      | _ => tl ← comma_join rest; Ok (s ++ u "," ++ tl)
      end
  | _ :: _ => Raise TypeError
  end.

(** [d.get(key, default)] on a [dict] with string keys and an arbitrary
    [key]: an unhashable key raises, a key that is not a string is absent. *)
Definition dict_get {V : Type} (d : gmap str V) (key : json) (dflt : V)
    : result V :=
  match key with
  | JStr k => Ok (default dflt (d !! k))
  | JArr _ | JObj _ => Raise TypeError
  | _ => Ok dflt
  end.

(** [key in d], same conventions. *)
Definition dict_contains {V : Type} (d : gmap str V) (key : json) : result bool :=
  match key with
  | JStr k => Ok (bool_decide (is_Some (d !! k)))
  | JArr _ | JObj _ => Raise TypeError
  | _ => Ok false
  end.

(** [d.update(other)]: entries of [other] replace those of [d].  The Figma
    API answers with an object.  [dict.update] would read a non-empty list
    or string as a sequence of key/value pairs; that reading is not
    modelled and is taken to raise, like the values that cannot be iterated
    at all. *)
Definition dict_update (d : gmap str json) (other : json)
    : result (gmap str json) :=
  match other with
  | JObj m => Ok (m ∪ d)
  | JArr [] | JStr [] => Ok d
  | JArr _ | JStr _ => Raise TypeError
  | _ => Raise TypeError
  end.

(** ** Loops and slices *)

(** [for x in items: acc = body(acc, x)], in any of the two monads. *)
Fixpoint for_each {T : Type → Type} `{MBind T, MRet T} {A S : Type}
    (body : S → A → T S) (items : list A) (acc : S) : T S :=
  match items with
  | [] => mret acc
  | x :: rest => acc' ← body acc x; for_each body rest acc'
  end.

(** [range(0, stop, step)]: count up from 0 while below [stop]. *)
Fixpoint range_from (fuel i stop step : nat) : list nat :=
  match fuel with
  | O => []
  | S fuel' =>
      if i <? stop then i :: range_from fuel' (i + step) stop step else []
  end.

Definition py_range (stop step : nat) : list nat := range_from stop 0 stop step.

(** [l[i:j]] for [0 <= i <= j] *)
Definition py_slice {A : Type} (l : list A) (i j : nat) : list A :=
  take (j - i) (drop i l).

(** ** The program *)

(** The [dict] built for each frame by [extract_frames]; [image_url] is the
    key added later by [process_figma]. *)
Record Frame : Type := {
  name : json;
  node_id : json;
  type_ : str;
  image_url : option json
}.

Definition set_image_url (url : json) (f : Frame) : Frame :=
  {| name := name f; node_id := node_id f; type_ := type_ f;
     image_url := Some url |}.

(** One entry of the ['images'] list of the result. *)
Record ImageEntry : Type := {
  entry_name : json;
  entry_node_id : json;
  entry_path : str
}.

Record ProcessResult : Type := {
  total_frames : nat;
  images : list ImageEntry;
  session_folder : str
}.

(** What a request comes to: the success envelope, an error response with
    its status and description, the response of [send_file], or an
    exception that no view has handled. *)
Inductive reply : Type :=
| Success (r : ProcessResult)
| ErrorReply (code : Z) (description : str)
| FileReply (data : bytes) (mimetype : str)
| Unhandled (e : exn).

Section Program.
Context (I : Interp) (cfg : Config).
(** What a call of [requests.get] comes to, given the calls made before
    it.  Everything the library does inside one call (preparing the URL,
    following redirects, talking to the network) is in this table; the
    program is verified against every such table. *)
Context (remote : list HttpRequest → HttpRequest → outcome).

(** *** Library calls *)

(** [requests.get(url, headers=..., params=...)].  [attempts] records the
    calls whose URL is a non-empty string, as the program makes them; it is
    a record of calls, not of what travels over the network, which is left
    to [remote].  A URL that is the empty string or no string at all (the
    text of [None], of a number, of a list) is one that [requests] cannot
    prepare: it raises a [RequestException] before anything else happens,
    and such a call is not recorded. *)
Definition requests_get (url : json)
    (headers : list (str * option str))
    (params : list (str * str)) : M Response := λ w,
  match url with
  | JStr (c :: rest) =>
      let req := {| req_url := c :: rest; req_headers := headers;
                    req_params := params |} in
      let w' := set_attempts (attempts w ++ [req]) w in
      match remote (attempts w) req with
      | Responded r => (Ok r, w')
      | Failed msg => (Raise (RequestException msg), w')
      end
  | _ => (Raise (RequestException (missing_schema_text I url)), w)
  end.

(** [logger.debug], [logger.warning], [logger.error]: every call is
    recorded with its level; the threshold of the handler is not applied. *)
Definition logger (lvl : level) (msg : str) : M unit := λ w,
  (Ok (), set_logged (logged w ++ [(lvl, msg)]) w).

Definition is_file (o : option fsnode) : bool :=
  match o with Some (File _) => true | _ => false end.
Definition is_dir (o : option fsnode) : bool :=
  match o with Some Dir => true | _ => false end.

(** The directories [os.makedirs] has to find or create: the path and its
    ancestors, outermost first. *)
Definition dir_chain (p : str) : list (bool * list str) :=
  (λ i, ((path_key p).1, take i (path_key p).2)) <$> seq 1 (length (path_key p).2).

(** The longest prefix of [l] whose elements satisfy [p]. *)
Fixpoint leading {A : Type} (p : A → bool) (l : list A) : list A :=
  match l with
  | [] => []
  | x :: l' => if p x then x :: leading p l' else []
  end.

(** The directories [os.makedirs] goes through before it meets the first
    component that holds a NUL, outermost first. *)
Definition nul_free_chain (p : str) : list (bool * list str) :=
  let clean := leading (λ part, negb (bool_decide (NUL ∈ part))) (path_key p).2 in
  (λ i, ((path_key p).1, take i clean)) <$> seq 1 (length clean).

(** [os.makedirs(p, exist_ok=True)]: raises on the empty path and when the
    path or one of its ancestors is a regular file; otherwise the
    directories that are missing are created.  On a path with an embedded
    NUL, the ancestors before the first component that holds the NUL are
    created like that, and then [mkdir] raises [ValueError]. *)
Definition os_makedirs (p : str) : M unit := λ w,
  if bool_decide (NUL ∈ p) then
    if existsb (λ k, is_file (disk w !! k)) (removelast (nul_free_chain p))
    then (Raise OSError, w)
    else (Raise (ValueError (u "embedded null byte")),
          set_disk (foldr (λ k d, if is_file (disk w !! k) then d
                                  else <[k := Dir]> d)
                      (disk w) (nul_free_chain p)) w)
  else if bool_decide (p = []) then (Raise OSError, w)
  else if existsb (λ k, is_file (disk w !! k)) (dir_chain p) then (Raise OSError, w)
  else (Ok (), set_disk (foldr (λ k d, <[k := Dir]> d) (disk w) (dir_chain p)) w).

(** [with open(p, 'wb') as f: f.write(data)]: the file is created or
    truncated, then holds exactly [data]. *)
Definition open_write (p : str) (data : bytes) : M unit := λ w,
  if bool_decide (NUL ∈ p) then (Raise (ValueError (u "embedded null byte")), w)
  else
    let k := path_key p in
    match k.2 with
    | [] => (Raise OSError, w)
    | _ :: _ =>
        let parent := (k.1, removelast k.2) in
        if bool_decide (parent.2 = []) || is_dir (disk w !! parent) then
          if is_dir (disk w !! k) then (Raise OSError, w)
          else (Ok (), set_disk (<[k := File data]> (disk w)) w)
        else (Raise OSError, w)
    end.

(** [os.path.exists(p)] *)
Definition os_path_exists (p : str) : M bool := λ w,
  if bool_decide (NUL ∈ p) || bool_decide (p = []) then (Ok false, w)
  else if bool_decide ((path_key p).2 = []) then (Ok true, w)
  else (Ok (bool_decide (is_Some (disk w !! path_key p))), w).

(** [send_file(p, mimetype=...)], for a request that carries no conditional
    and no range header: the response holds the whole file. *)
Definition send_file (p : str) (mimetype : str) : M reply := λ w,
  match disk w !! path_key p with
  | Some (File data) => (Ok (FileReply data mimetype), w)
  | _ => (Raise OSError, w)
  end.

(** [abort(code, description=...)] *)
Definition abort {A : Type} (code : Z) (description : str) : M A :=
  raise (HTTPException code description).

(** *** [fetch_figma_file] *)

Definition figma_headers : list (str * option str) :=
  [(u "X-Figma-Token", FIGMA_API_TOKEN cfg)].

Definition fetch_figma_file (file_key : str) : M json :=
  try_except
    (response ← requests_get (JStr (BASE_URL cfg ++ u "/files/" ++ file_key))
                   figma_headers [];
     if (status_code response =? 403)%Z then
       logger ERROR (u "403 Forbidden: " ++ text response);;
       raise (Exception (u "403 Forbidden: " ++ text response))
     else if negb (status_code response =? 200)%Z then
       logger ERROR (u "Figma API error (Status " ++ str_of_int (status_code response)
                       ++ u "): " ++ text response);;
       raise (Exception (u "Figma API error (Status " ++ str_of_int (status_code response)
                       ++ u "): " ++ text response))
     else lift (json_body response))
    is_RequestException
    (λ e,
       logger ERROR (u "Network error: " ++ str_of_exn I e);;
       raise (Exception (u "Network error: " ++ str_of_exn I e))).

(** *** [fetch_figma_frame_images] *)

Definition max_ids_per_request : nat := 100.

Definition render_params (ids : str) (scale : Z) (format : str)
    : list (str * str) :=
  [(u "ids", ids); (u "scale", str_of_int scale); (u "format", format);
   (u "use_absolute_bounds", u "true")].

(** The body of the loop, for the batch that starts at index [i]. *)
Definition render_batch (file_key : str) (frame_ids : list json)
    (scale : Z) (format : str)
    (image_urls : gmap str json) (i : nat) : M (gmap str json) :=
  let batch_ids := py_slice frame_ids i (i + max_ids_per_request) in
  ids ← lift (comma_join batch_ids);
  try_except
    (response ← requests_get (JStr (BASE_URL cfg ++ u "/images/" ++ file_key))
                   figma_headers (render_params ids scale format);
     if (status_code response =? 403)%Z then
       raise (Exception (u "Access denied: Check token permissions"))
     else if negb (status_code response =? 200)%Z then
       raise (Exception (u "Figma API error: " ++ text response))
     else
       data ← lift (json_body response);
       err ← lift (py_get data (u "err") JNull);
       if truthy err then
         raise (Exception (u "Image rendering error: " ++ format_value I err))
       else
         imgs ← lift (py_get data (u "images") (JObj ∅));
         lift (dict_update image_urls imgs))
    is_RequestException
    (λ e, raise (Exception (u "Network error: " ++ str_of_exn I e))).

Definition fetch_figma_frame_images (file_key : str) (frame_ids : list json)
    (scale : Z) (format : str) : M (gmap str json) :=
  for_each (render_batch file_key frame_ids scale format)
    (py_range (length frame_ids) max_ids_per_request) ∅.

(** *** [extract_frames] *)

Definition extract_child (acc : list Frame * list json) (frame : json)
    : result (list Frame * list json) :=
  ty ← py_get frame (u "type") JNull;
  if differs_from_str ty (u "FRAME") then Ok acc
  else
    nm ← py_get frame (u "name") (JStr (u "Unnamed Frame"));
    id ← py_get frame (u "id") (JStr (u ""));
    let frame_data :=
      {| name := nm; node_id := id; type_ := u "FRAME"; image_url := None |} in
    id' ← py_get frame (u "id") JNull;
    if truthy id' then Ok (acc.1 ++ [frame_data], acc.2 ++ [id'])
    else Ok (acc.1 ++ [frame_data], acc.2).

Definition extract_page (acc : list Frame * list json) (page : json)
    : result (list Frame * list json) :=
  children ← py_get page (u "children") (JArr []);
  children ← py_iter children;
  for_each extract_child children acc.

Definition extract_frames (file_data : json) : result (list Frame * list json) :=
  document ← py_get file_data (u "document") (JObj ∅);
  pages ← py_get document (u "children") (JArr []);
  pages ← py_iter pages;
  for_each extract_page pages ([], []).

(** *** [download_images] *)

Definition as_str (v : json) : result str :=
  match v with
  | JStr s => Ok s
  | _ => Raise TypeError
  end.

Definition download_frame (session_dir : str)
    (image_paths : gmap str str) (frame : Frame)
    : M (gmap str str) :=
  match image_url frame with
  | None => mret image_paths
  | Some url =>
      try_except
        (response ← requests_get url [] [];
         if negb (status_code response =? 200)%Z then
           logger WARNING (u "Failed to download image for frame '"
                             ++ format_value I (name frame) ++ u "': HTTP "
                             ++ str_of_int (status_code response));;
           mret image_paths
         else
           node ← lift (as_str (node_id frame));
           let safe_node_id := sanitize I node in
           let filename := os_path_join session_dir [safe_node_id ++ u ".png"] in
           open_write filename (content response);;
           logger DEBUG (u "Downloaded image for frame '"
                           ++ format_value I (name frame) ++ u "' to " ++ filename);;
           mret (<[node := filename]> image_paths))
        (λ _, true)
        (λ e,
           logger ERROR (u "Error downloading image for frame '"
                           ++ format_value I (name frame) ++ u "': "
                           ++ str_of_exn I e);;
           mret image_paths)
  end.

Definition download_images (frames : list Frame) (session_id : json)
    : M (gmap str str * str) :=
  let frame_folder := os_path_join (UPLOAD_FOLDER cfg) [u "frames"] in
  os_makedirs frame_folder;;
  sid ← lift (as_str session_id);
  let session_dir := os_path_join frame_folder [sid] in
  os_makedirs session_dir;;
  image_paths ← for_each (download_frame session_dir) frames ∅;
  mret (image_paths, session_dir).

(** *** [process_figma] *)

Definition annotate (image_urls : gmap str json) (acc : list Frame)
    (frame : Frame) : result (list Frame) :=
  url ← dict_get image_urls (node_id frame) (JStr (u ""));
  Ok (acc ++ [set_image_url url frame]).

Definition has_image_url (frame : Frame) : bool :=
  match image_url frame with
  | Some url => truthy url
  | None => false
  end.

Definition image_entry (image_paths : gmap str str)
    (acc : list ImageEntry) (frame : Frame) : result (list ImageEntry) :=
  listed ← dict_contains image_paths (node_id frame);
  if listed : bool then
    path ← dict_get image_paths (node_id frame) (u "");
    Ok (acc ++ [{| entry_name := name frame; entry_node_id := node_id frame;
                   entry_path := path |}])
  else Ok acc.

(** [body] is what [request.get_json()] returns or raises. *)
Definition process_figma (body : result json) : M reply :=
  try_except
    (data ← lift body;
     missing ←
       (if negb (truthy data) then mret true
        else
          has_url ← lift (py_contains data (u "figma_url"));
          if negb has_url : bool then mret true
          else
            has_sid ← lift (py_contains data (u "session_id"));
            mret (negb has_sid));
     (if missing : bool then abort 400 (u "Missing figma_url or session_id")
      else mret ());;
     figma_url ← lift (py_getitem data (u "figma_url"));
     session_id ← lift (py_getitem data (u "session_id"));
     file_key ← lift (extract_file_key figma_url);
     file_data ← fetch_figma_file file_key;
     '(frames, frame_ids) ← lift (extract_frames file_data);
     image_urls ← fetch_figma_frame_images file_key frame_ids 1 (u "png");
     frames ← lift (for_each (annotate image_urls) frames []);
     let total := length (filter (λ f, has_image_url f = true) frames) in
     '(image_paths, session_dir) ← download_images frames session_id;
     imgs ← lift (for_each (image_entry image_paths) frames []);
     mret (Success {| total_frames := total; images := imgs;
                      session_folder := session_dir |}))
    (λ _, true)
    (λ e,
       logger ERROR (u "Error processing Figma URL: " ++ str_of_exn I e);;
       abort 500 (str_of_exn I e)).

(** *** [get_image] *)

Definition image_path (session_id node_id : str) : str :=
  os_path_join (UPLOAD_FOLDER cfg)
    [u "frames"; session_id; sanitize I node_id ++ u ".png"].

Definition get_image (session_id node_id : str) : M reply :=
  found ← os_path_exists (image_path session_id node_id);
  (if negb found then abort 404 (u "Image not found") else mret ());;
  send_file (image_path session_id node_id) (u "image/png").

(** *** Flask

    An [HTTPException] that leaves a view becomes the response with its
    code and description.  Any other exception is Flask's to deal with
    (it logs the exception and answers with its own page for status 500,
    or lets the exception through in debug mode); that is not modelled, and
    [Unhandled] only names the exception. *)
Definition serve (view : M reply) (w : World) : reply * World :=
  match view w with
  | (Ok r, w') => (r, w')
  | (Raise (HTTPException code description), w') => (ErrorReply code description, w')
  | (Raise e, w') => (Unhandled e, w')
  end.
End Program.

(** * Specification vocabulary

    The notions the specification speaks in, stated independently of the
    way the program computes them. *)

(** ** URL shapes *)





(** ** Numerals *)

(** The three decimal digits of a number from 100 to 999, the range of an
    HTTP status. *)
Definition three_digits (z : Z) : str :=
  [Z.to_N (48 + z / 100)%Z; Z.to_N (48 + (z / 10) mod 10)%Z;
   Z.to_N (48 + z mod 10)%Z].

(** ** Files *)

(** The name of the image file of a node. *)
Definition file_name (I : Interp) (node_id : str) : str :=
  sanitize I node_id ++ u ".png".

Definition download_request (url : str) : HttpRequest :=
  {| req_url := url; req_headers := []; req_params := [] |}.

Definition is_ok {A : Type} (r : result A) : bool :=
  match r with Ok _ => true | Raise _ => false end.

(** ** Batches *)

(** [",".join] of strings *)
Fixpoint commas (items : list str) : str :=
  match items with
  | [] => []
  | s :: rest =>
      match rest with
      | [] => s
      | _ => s ++ u "," ++ commas rest
      end
  end.

(** The consecutive slices the renderer cuts the identifier list into. *)
Definition batches {A : Type} (ids : list A) : list (list A) :=
  (λ i, py_slice ids i (i + max_ids_per_request)) <$>
    py_range (length ids) max_ids_per_request.

(** The union of the per-chunk mappings; on a shared key the later chunk
    wins. *)
Definition merge (maps : list (gmap str json)) : gmap str json :=
  foldl (λ acc m, m ∪ acc) ∅ maps.

(** ** Document trees *)

(** The list under ["children"], empty when there is none. *)
Definition children_of (node : json) : list json :=
  match node with
  | JObj m => match m !! u "children" with Some (JArr l) => l | _ => [] end
  | _ => []
  end.

Definition is_frame (child : json) : bool :=
  match child with
  | JObj m =>
      match m !! u "type" with
      | Some (JStr s) => bool_decide (s = u "FRAME")
      | _ => false
      end
  | _ => false
  end.

(** The record of a frame node, with the defaults for a missing name and a
    missing identifier. *)
Definition frame_of (child : json) : Frame :=
  {| name := match child with
             | JObj m => default (JStr (u "Unnamed Frame")) (m !! u "name")
             | _ => JStr (u "Unnamed Frame")
             end;
     node_id := match child with
                | JObj m => default (JStr (u "")) (m !! u "id")
                | _ => JStr (u "")
                end;
     type_ := u "FRAME";
     image_url := None |}.

(** The frames of a document: the children of the pages whose kind is
    ["FRAME"], page by page, child by child, and nothing deeper. *)
Definition frames_of (file_data : json) : list Frame :=
  let document :=
    match file_data with
    | JObj top => default (JObj ∅) (top !! u "document")
    | _ => JObj ∅
    end in
  frame_of <$>
    filter (λ c, is_frame c = true) (concat (children_of <$> children_of document)).

(** The identifiers of the frames that have one, in the same order. *)
Definition ids_of (frames : list Frame) : list json :=
  node_id <$> filter (λ f, truthy (node_id f) = true) frames.

Definition is_obj (v : json) : bool :=
  match v with JObj _ => true | _ => false end.

(** An object whose ["children"], when present, is a list of objects. *)
Definition node_ok (node : json) : bool :=
  match node with
  | JObj m =>
      match m !! u "children" with
      | None => true
      | Some (JArr l) => forallb is_obj l
      | Some _ => false
      end
  | _ => false
  end.

(** The shape of a document tree: an object whose ["document"], when
    present, is such a node, and whose pages are such nodes. *)
Definition well_shaped (file_data : json) : bool :=
  match file_data with
  | JObj top =>
      let document := default (JObj ∅) (top !! u "document") in
      node_ok document && forallb node_ok (children_of document)
  | _ => false
  end.

(** ** The result of a run *)

(** [frame['image_url'] = image_urls.get(frame['node_id'], '')] *)
Definition annotated (image_urls : gmap str json) (f : Frame) : Frame :=
  set_image_url
    (match node_id f with
     | JStr k => default (JStr (u "")) (image_urls !! k)
     | _ => JStr (u "")
     end) f.

(** The node identifier of the frame is a key of the path mapping. *)
Definition listed (paths : gmap str str) (f : Frame) : bool :=
  match node_id f with
  | JStr k => bool_decide (is_Some (paths !! k))
  | _ => false
  end.

Definition entry_of (paths : gmap str str) (f : Frame) : ImageEntry :=
  {| entry_name := name f;
     entry_node_id := node_id f;
     entry_path := match node_id f with
                   | JStr k => default (u "") (paths !! k)
                   | _ => u ""
                   end |}.

(** A request body that lacks one of the two required fields. *)
Definition missing_fields (data : json) : Prop :=
  truthy data = false ∨
  ∃ m, data = JObj m ∧ (m !! u "figma_url" = None ∨ m !! u "session_id" = None).

Section Vocabulary.
Context (I : Interp) (cfg : Config).
Context (remote : list HttpRequest → HttpRequest → outcome).

(** *** Requests and their answers *)

(** The request for a document: the files endpoint, the token header, no
    parameter. *)
Definition file_request (file_key : str) : HttpRequest :=
  {| req_url := BASE_URL cfg ++ u "/files/" ++ file_key;
     req_headers := [(u "X-Figma-Token", FIGMA_API_TOKEN cfg)];
     req_params := [] |}.

(** The request for the images of one chunk: the images endpoint, the
    token header, the identifiers of the chunk joined by commas, the scale
    in decimal, the format, and the bounds flag. *)
Definition render_request (file_key : str) (scale : Z) (format : str)
    (batch : list str) : HttpRequest :=
  {| req_url := BASE_URL cfg ++ u "/images/" ++ file_key;
     req_headers := [(u "X-Figma-Token", FIGMA_API_TOKEN cfg)];
     req_params := [(u "ids", commas batch); (u "scale", str_of_int scale);
                    (u "format", format); (u "use_absolute_bounds", u "true")] |}.

(** The answers the network gives to [reqs] sent one after the other,
    after [hist]. *)
Fixpoint script (hist : list HttpRequest) (reqs : list HttpRequest) : list outcome :=
  match reqs with
  | [] => []
  | r :: rest => remote hist r :: script (hist ++ [r]) rest
  end.

(** A chunk succeeds: HTTP 200, a JSON object with no error (or an empty
    one), carrying the mapping [imgs] (empty when there is no ["images"]
    field). *)
Inductive chunk_succeeds : outcome → gmap str json → Prop :=
| succeeds_200 r d imgs :
    status_code r = 200%Z →
    json_body r = Ok (JObj d) →
    truthy (default JNull (d !! u "err")) = false →
    default (JObj ∅) (d !! u "images") = JObj imgs →
    chunk_succeeds (Responded r) imgs.

(** A chunk fails, and with which error: HTTP 403, another status than 200,
    HTTP 200 with a non-empty top-level error field, a transport failure. *)
Inductive chunk_fails : outcome → exn → Prop :=
| fails_403 r :
    status_code r = 403%Z →
    chunk_fails (Responded r) (Exception (u "Access denied: Check token permissions"))
| fails_status r :
    status_code r ≠ 200%Z → status_code r ≠ 403%Z →
    chunk_fails (Responded r) (Exception (u "Figma API error: " ++ text r))
| fails_err r d err :
    status_code r = 200%Z →
    json_body r = Ok (JObj d) →
    d !! u "err" = Some err → truthy err = true →
    chunk_fails (Responded r)
      (Exception (u "Image rendering error: " ++ format_value I err))
| fails_transport msg :
    chunk_fails (Failed msg) (Exception (u "Network error: " ++ msg)).

(** The world after the requests [reqs] were attempted. *)
Definition sent (reqs : list HttpRequest) (w : World) : World :=
  set_attempts (attempts w ++ reqs) w.

(** *** Downloads *)

Definition frame_folder : str := os_path_join (UPLOAD_FOLDER cfg) [u "frames"].
Definition session_dir (sid : str) : str := os_path_join frame_folder [sid].

(** The two directory creations the downloader starts with. *)
Definition download_dirs (sid : str) : M unit :=
  os_makedirs frame_folder;; os_makedirs (session_dir sid).

Definition can_write (p : str) (w : World) : bool :=
  is_ok (open_write p [] w).1.

(** The download of frame [f], started in world [w], succeeds and stores
    the body of response [r] under node identifier [n]: the frame has a
    URL, the server answers it with 200, and the file can be written. *)
Definition downloads (dir : str) (f : Frame) (w : World)
    (n : str) (r : Response) : Prop :=
  ∃ url, image_url f = Some (JStr url) ∧ url ≠ [] ∧
         remote (attempts w) (download_request url) = Responded r ∧
         status_code r = 200%Z ∧
         node_id f = JStr n ∧
         can_write (os_path_join dir [file_name I n]) w = true.

(** The world after that download. *)
Definition after_download (dir : str) (f : Frame) (n : str) (r : Response)
    (url : str) (w : World) : World :=
  let filename := os_path_join dir [file_name I n] in
  set_logged (logged w ++ [(DEBUG, u "Downloaded image for frame '"
                           ++ format_value I (name f) ++ u "' to " ++ filename)])
    (set_disk (<[path_key filename := File (content r)]> (disk w))
       (set_attempts (attempts w ++ [download_request url]) w)).

(** ["image_url" in frame] *)
Definition has_url_key (f : Frame) : bool :=
  match image_url f with Some _ => true | None => false end.

(** The world after a failed download: the request was attempted and one
    record was logged. *)
Definition after_failure (lvl : level) (msg : str) (url : str)
    (w : World) : World :=
  set_logged (logged w ++ [(lvl, msg)])
    (set_attempts (attempts w ++ [download_request url]) w).

(** The world in which the download of the [k]-th frame starts. *)
Definition world_before (dir : str) (frames : list Frame) (w : World)
    (k : nat) : World :=
  (for_each (download_frame I remote dir) (take k frames) ∅ w).2.

(** Every recorded path is the image path of its node and holds a file. *)
Definition stored (dir : str) (paths : gmap str str) (w : World)
    : Prop :=
  ∀ n p, paths !! n = Some p →
    p = os_path_join dir [file_name I n] ∧ (NUL ∉ p) ∧
    is_file (disk w !! path_key p) = true.
End Vocabulary.

(** ** Effects and failures

    Notions for what a run of the program does to the world and for the
    ways a request fails, used by the properties that go beyond the
    specification. *)

(** A call of [requests.get] that does not hand the API token to a foreign
    URL: it passes no header, or its URL is under [BASE_URL]. *)
Definition req_confined (cfg : Config) (req : HttpRequest) : Prop :=
  req_headers req = [] ∨ ∃ rest, req_url req = BASE_URL cfg ++ rest.

(** What a computation may do to the world: call [requests.get] with
    requests of the kind [ok], append log records, create directories and
    write files where no directory is.  Nothing is removed: a directory stays a directory, a
    file stays a file. *)
Definition extends (ok : HttpRequest → Prop) (w w' : World) : Prop :=
  (∃ reqs, attempts w' = attempts w ++ reqs ∧ Forall ok reqs) ∧
  (∃ logs, logged w' = logged w ++ logs) ∧
  (∀ k, is_dir (disk w !! k) = true → is_dir (disk w' !! k) = true) ∧
  (∀ k, is_file (disk w !! k) = true → is_file (disk w' !! k) = true).

(** Every run of [m] changes the world within [R]. *)
Definition keeps {A : Type} (R : World → World → Prop) (m : M A) : Prop :=
  ∀ w, R w (m w).2.

(** Every value [m] returns satisfies [P]. *)
Definition yields {A : Type} (P : A → Prop) (m : M A) : Prop :=
  ∀ w a w', m w = (Ok a, w') → P a.

(** A request of the batch renderer: the images endpoint of the file, the
    token header, and the four parameters. *)
Definition is_render_request (cfg : Config) (file_key : str) (scale : Z)
    (format : str) (req : HttpRequest) : Prop :=
  req_url req = BASE_URL cfg ++ u "/images/" ++ file_key ∧
  req_headers req = [(u "X-Figma-Token", FIGMA_API_TOKEN cfg)] ∧
  ∃ joined, req_params req =
              [(u "ids", joined); (u "scale", str_of_int scale);
               (u "format", format); (u "use_absolute_bounds", u "true")].

(** The recorded calls of [requests.get] the downloader makes for a frame:
    one for a URL that is a non-empty string, none otherwise. *)
Definition image_requests (f : Frame) : list HttpRequest :=
  match image_url f with
  | Some (JStr (c :: rest)) => [download_request (c :: rest)]
  | _ => []
  end.

(** A value [dict.update] cannot iterate over. *)
Definition not_iterable (v : json) : bool :=
  match v with
  | JNull | JBool _ | JNum _ => true
  | _ => false
  end.


(** [key in data] for a body that is no object: [key] is an element of
    the list, or a part of the string. *)
Definition names_field (data : json) (key : str) : Prop :=
  match data with
  | JArr l => JStr key ∈ l
  | JStr s => ∃ pre post, s = pre ++ key ++ post
  | _ => False
  end.

(** A body that is no object and that the check of the two fields turns
    away: it is empty, zero, [false] or [null], or it is a string or a list
    that does not name both fields. *)
Definition turned_away (data : json) : Prop :=
  truthy data = false ∨
  (((∃ s, data = JStr s) ∨ (∃ l, data = JArr l)) ∧
   ¬ (names_field data (u "figma_url") ∧ names_field data (u "session_id"))).

(** The download of frame [f], started in world [w], ends in an exception:
    [requests.get] refuses the URL or fails, or the answer has status 200
    and the node identifier is no string or the file cannot be written. *)
Definition download_raises (I : Interp)
    (remote : list HttpRequest → HttpRequest → outcome)
    (dir : str) (f : Frame) (w : World) : Prop :=
  ∃ url, image_url f = Some url ∧
    match url with
    | JStr (c :: rest) =>
        match remote (attempts w) (download_request (c :: rest)) with
        | Failed _ => True
        | Responded r =>
            status_code r = 200%Z ∧
            ∀ n, node_id f = JStr n →
                 can_write (os_path_join dir [file_name I n]) w = false
        end
    | _ => True
    end.

(** The level at which the downloader logs for a frame that has a URL key:
    DEBUG after a download, WARNING after an answer with another status
    than 200, ERROR after an exception. *)
Inductive download_level (I : Interp)
    (remote : list HttpRequest → HttpRequest → outcome)
    (dir : str) (f : Frame) (w : World) : level → Prop :=
| level_debug n r :
    downloads I remote dir f w n r →
    download_level I remote dir f w DEBUG
| level_warning url r :
    image_url f = Some (JStr url) → url ≠ [] →
    remote (attempts w) (download_request url) = Responded r →
    status_code r ≠ 200%Z →
    download_level I remote dir f w WARNING
| level_error :
    download_raises I remote dir f w →
    download_level I remote dir f w ERROR.

(** The record [process_figma] logs before it aborts with 500. *)
Definition failure_record (I : Interp) (e : exn) : level * str :=
  (ERROR, u "Error processing Figma URL: " ++ str_of_exn I e).

(** The world after [process_figma] caught [e] in world [w]. *)
Definition after_abort (I : Interp) (e : exn) (w : World) : World :=
  set_logged (logged w ++ [failure_record I e]) w.

(** The ways a request to [process_figma] fails once its body has the two
    fields, or has no readable body at all, with the error raised and the
    world the failing step leaves: reading the body, extracting the file
    key, fetching the file, extracting the frames, rendering, creating the
    download directories. *)
Inductive pipeline_fails (I : Interp) (cfg : Config)
    (remote : list HttpRequest → HttpRequest → outcome)
    (body : result json) (w : World) : exn → World → Prop :=
| fails_body e :
    body = Raise e →
    pipeline_fails I cfg remote body w e w
| fails_key m url e :
    body = Ok (JObj m) →
    m !! u "figma_url" = Some url → is_Some (m !! u "session_id") →
    extract_file_key url = Raise e →
    pipeline_fails I cfg remote body w e w
| fails_fetch m url file_key e w1 :
    body = Ok (JObj m) →
    m !! u "figma_url" = Some url → is_Some (m !! u "session_id") →
    extract_file_key url = Ok file_key →
    fetch_figma_file I cfg remote file_key w = (Raise e, w1) →
    pipeline_fails I cfg remote body w e w1
| fails_frames m url file_key file_data e w1 :
    body = Ok (JObj m) →
    m !! u "figma_url" = Some url → is_Some (m !! u "session_id") →
    extract_file_key url = Ok file_key →
    fetch_figma_file I cfg remote file_key w = (Ok file_data, w1) →
    extract_frames file_data = Raise e →
    pipeline_fails I cfg remote body w e w1
| fails_render m url file_key file_data frames ids e w1 w2 :
    body = Ok (JObj m) →
    m !! u "figma_url" = Some url → is_Some (m !! u "session_id") →
    extract_file_key url = Ok file_key →
    fetch_figma_file I cfg remote file_key w = (Ok file_data, w1) →
    extract_frames file_data = Ok (frames, ids) →
    fetch_figma_frame_images I cfg remote file_key ids 1 (u "png") w1
      = (Raise e, w2) →
    pipeline_fails I cfg remote body w e w2
| fails_download m url sid file_key file_data frames ids image_urls frames' e
    w1 w2 w3 :
    body = Ok (JObj m) →
    m !! u "figma_url" = Some url → m !! u "session_id" = Some sid →
    extract_file_key url = Ok file_key →
    fetch_figma_file I cfg remote file_key w = (Ok file_data, w1) →
    extract_frames file_data = Ok (frames, ids) →
    fetch_figma_frame_images I cfg remote file_key ids 1 (u "png") w1
      = (Ok image_urls, w2) →
    for_each (annotate image_urls) frames [] = Ok frames' →
    download_images I cfg remote frames' sid w2 = (Raise e, w3) →
    pipeline_fails I cfg remote body w e w3.

(** * A sample deployment

    A small interpreter table, configuration, remote server and document,
    on which the theorems below are exercised. *)

Open Scope string_scope.

Definition I0 : Interp :=
  {| py_repr := λ _, u "<value>";
     builtin_text := λ _, u "<error>";
     missing_schema_text := λ _, u "Invalid URL: No scheme supplied";
     unicode_alnum := λ c, in_range 192 591 c |}.

Definition cfg0 : Config :=
  {| BASE_URL := u "https://api.figma.com/v1";
     FIGMA_API_TOKEN := Some (u "figd_token");
     UPLOAD_FOLDER := u "/app/uploads" |}.

(** A JSON object from its fields. *)
Definition obj (fields : list (string * json)) : json :=
  JObj (list_to_map ((λ kv, (u kv.1, kv.2)) <$> fields)).

(** Two pages: a frame, a frame without identifier and a text node on the
    first; a frame without name on the second. *)
Definition doc0 : json :=
  obj [("name", JStr (u "Test"));
       ("document",
        obj [("id", JStr (u "0:0"));
             ("children",
              JArr [obj [("type", JStr (u "CANVAS"));
                         ("children",
                          JArr [obj [("type", JStr (u "FRAME")); ("id", JStr (u "1:1"));
                                     ("name", JStr (u "Hero"))];
                                obj [("type", JStr (u "FRAME")); ("name", JStr (u "Footer"))];
                                obj [("type", JStr (u "TEXT")); ("id", JStr (u "1:3"))]])];
                    obj [("type", JStr (u "CANVAS"));
                         ("children",
                          JArr [obj [("type", JStr (u "FRAME")); ("id", JStr (u "2:7"))]])]])])].

Definition ok_response (body : json) (data : bytes) : Response :=
  {| status_code := 200; text := []; content := data; json_body := Ok body |}.

Definition status_response (code : Z) (body : str) : Response :=
  {| status_code := code; text := body; content := body;
     json_body := Raise (RequestException (u "Expecting value")) |}.

(** The server renders ["1:1"] and fails to render ["2:7"]. *)
Definition remote0 (hist : list HttpRequest) (req : HttpRequest) : outcome :=
  if bool_decide (req_url req = u "https://api.figma.com/v1/files/ABC123") then
    Responded (ok_response doc0 [])
  else if bool_decide (req_url req = u "https://api.figma.com/v1/images/ABC123") then
    Responded (ok_response
                 (obj [("err", JNull);
                       ("images", obj [("1:1", JStr (u "https://img.example/1"));
                                       ("2:7", JNull)])]) [])
  else if bool_decide (req_url req = u "https://img.example/1") then
    Responded (ok_response JNull (u "PNGDATA"))
  else Failed (u "Connection refused").

(** A server that answers the [k]-th request with the [k]-th outcome. *)
Definition remote_by_turn (answers : list outcome)
    (hist : list HttpRequest) (req : HttpRequest) : outcome :=
  default (Failed (u "Connection refused")) (answers !! length hist).

Definition remote_forbidden (hist : list HttpRequest) (req : HttpRequest) : outcome :=
  Responded (status_response 403 (u "Invalid token")).

Definition remote_broken (hist : list HttpRequest) (req : HttpRequest) : outcome :=
  Responded (status_response 502 (u "Bad gateway")).

Definition remote_down (hist : list HttpRequest) (req : HttpRequest) : outcome :=
  Failed (u "Connection refused").

Definition w0 : World := {| attempts := []; disk := ∅; logged := [] |}.

Definition body0 : json :=
  obj [("figma_url", JStr (u "https://figma.com/file/ABC123/Test"));
       ("session_id", JStr (u "s1"))].

Definition body_without_session : json :=
  obj [("figma_url", JStr (u "https://figma.com/file/ABC123/Test"))].

Definition result0 : ProcessResult :=
  {| total_frames := 1;
     images := [{| entry_name := JStr (u "Hero"); entry_node_id := JStr (u "1:1");
                   entry_path := u "/app/uploads/frames/s1/1_1.png" |}];
     session_folder := u "/app/uploads/frames/s1" |}.

(** The world after the sample request was processed. *)
Definition world1 : World :=
  (serve (process_figma I0 cfg0 remote0 (Ok body0)) w0).2.

(** One frame with a reachable image and one frame without URL. *)
Definition hero7 : Frame :=
  {| name := JStr (u "Hero"); node_id := JStr (u "1:1"); type_ := u "FRAME";
     image_url := Some (JStr (u "https://img.example/1")) |}.

Definition footer7 : Frame :=
  {| name := JStr (u "Footer"); node_id := JStr (u "9:9"); type_ := u "FRAME";
     image_url := None |}.

Definition frames7 : list Frame := [hero7; footer7].


Definition ids250 : list str :=
  (λ i, (u "7:" ++ str_of_int (Z.of_nat i))%list) <$> seq 0 250.

Definition images_answer (err : json) (key url : string) : outcome :=
  Responded (ok_response (obj [("err", err); ("images", obj [(key, JStr (u url))])]) []).

Definition answers_ok : list outcome :=
  [images_answer JNull "7:0" "https://img.example/a";
   images_answer (JStr (u "")) "7:100" "https://img.example/b";
   images_answer JNull "7:0" "https://img.example/c"].

Definition maps_ok : list (gmap str json) :=
  [{[ u "7:0" := JStr (u "https://img.example/a") ]};
   {[ u "7:100" := JStr (u "https://img.example/b") ]};
   {[ u "7:0" := JStr (u "https://img.example/c") ]}].

Definition answers_403 : list outcome :=
  [images_answer JNull "7:0" "https://img.example/a";
   Responded (status_response 403 (u "Invalid token"));
   images_answer JNull "7:200" "https://img.example/c"].

Definition url_none : str := u "https://www.figma.com/community/ABC123".

(** A server that answers every request with a page that is not JSON. *)
Definition remote_html (hist : list HttpRequest) (req : HttpRequest) : outcome :=
  Responded (status_response 200 (u "<html>")).

(** A document without pages, a server that answers with it, and the world
    after it was processed for session ["s1"]: one request was made and the
    two directories exist. *)
Definition blank_doc : json := obj [("document", obj [("children", JArr [])])].

Definition remote_blank (hist : list HttpRequest) (req : HttpRequest) : outcome :=
  Responded (ok_response blank_doc []).

Definition world_blank : World :=
  (download_dirs cfg0 (u "s1") (sent [file_request cfg0 (u "ABC123")] w0)).2.

Definition body_bad_url : json :=
  obj [("figma_url", JStr url_none); ("session_id", JStr (u "s1"))].

(** The frame of the sample document that the sample server fails to
    render, as extracted and as annotated. *)
Definition extracted27 : Frame :=
  {| name := JStr (u "Unnamed Frame"); node_id := JStr (u "2:7");
     type_ := u "FRAME"; image_url := None |}.

Definition unrendered27 : Frame := set_image_url JNull extracted27.

Close Scope string_scope.

(** * Proofs *)

Arguments u : simpl never.
Arguments str_of_int : simpl never.
Arguments os_path_join : simpl never.
Arguments sanitize : simpl never.
Arguments format_value : simpl never.
Arguments str_of_exn : simpl never.
Arguments path_key : simpl never.

(** Identifies the bodies and the error fields of two readings of one
    response. *)
Ltac same_body :=
  repeat match goal with
  | H1 : json_body ?r = Ok _, H2 : json_body ?r = Ok _ |- _ =>
      rewrite H1 in H2; injection H2 as H2; subst
  | H1 : ?d !! u "err" = Some _, H2 : context [?d !! u "err"] |- _ =>
      rewrite H1 in H2; cbn in H2
  | H1 : ?d !! u "err" = Some _ |- context [?d !! u "err"] =>
      rewrite H1; cbn
  end.

(** ** Running computations *)

Lemma bind_inv {A B : Type} (m : M A) (f : A → M B) w b w' :
  (m ≫= f) w = (Ok b, w') → ∃ a w1, m w = (Ok a, w1) ∧ f a w1 = (Ok b, w').
Proof.
  unfold mbind, M_bind. destruct (m w) as [[a|e] w1]; [eauto|done].
Qed.

Lemma lift_inv {A : Type} (r : result A) w a w' :
  lift r w = (Ok a, w') → r = Ok a ∧ w' = w.
Proof. unfold lift. by intros [= -> ->]. Qed.

Lemma run_result {A B : Type} (run : A * B) (r : A) : run.1 = r → run = (r, run.2).
Proof. intros <-. by destruct run. Qed.

Lemma for_each_step {A S : Type} (body : S → A → M S) x rest acc w acc1 w1 :
  body acc x w = (Ok acc1, w1) →
  for_each body (x :: rest) acc w = for_each body rest acc1 w1.
Proof. intros H. cbn [for_each]. unfold mbind, M_bind. by rewrite H. Qed.

Lemma for_each_raise {A S : Type} (body : S → A → M S) x rest acc w e w1 :
  body acc x w = (Raise e, w1) →
  for_each body (x :: rest) acc w = (Raise e, w1).
Proof. intros H. cbn [for_each]. unfold mbind, M_bind. by rewrite H. Qed.

Lemma for_each_skip {A S : Type} (body : S → A → M S) (keep : A → bool) items :
  (∀ x acc w, keep x = false → body acc x w = (Ok acc, w)) →
  ∀ acc w, for_each body (List.filter keep items) acc w = for_each body items acc w.
Proof.
  intros Hskip. induction items as [|x items IH]; intros acc w; [done|].
  cbn [List.filter]. destruct (keep x) eqn:Hk.
  - cbn [for_each]. unfold mbind, M_bind.
    destruct (body acc x w) as [[acc1|e] w1]; [apply IH|done].
  - rewrite IH. symmetry. by apply for_each_step, Hskip.
Qed.

(** ** The URL identifier extractor *)

Lemma startswith_spec p s : startswith p s = true ↔ ∃ t, s = p ++ t.
Proof.
  revert s. induction p as [|a p IH]; intros s; simpl.
  - split; [eauto|done].
  - destruct s as [|b s].
    + split; [done|]. intros [t Ht]. discriminate.
    + rewrite andb_true_iff, N.eqb_eq, IH. split.
      * intros [-> [t ->]]. eauto.
      * intros [t Ht]. simplify_eq. eauto.
Qed.




















(** ** Sanitized file names and paths *)

Section Paths.
Context (I : Interp).

Lemma is_safe_underscore : is_safe I (ch "_") = true.
Proof. reflexivity. Qed.

Lemma is_safe_not_sep : is_safe I SEP = false.
Proof. reflexivity. Qed.

Lemma is_safe_not_nul : is_safe I NUL = false.
Proof. reflexivity. Qed.

Lemma sanitize_safe s : Forall (λ c, is_safe I c = true) (sanitize I s).
Proof.
  unfold sanitize. apply Forall_fmap, Forall_forall. intros c _. simpl.
  destruct (is_safe I c) eqn:Hc; [done|apply is_safe_underscore].
Qed.

Lemma sanitize_length s : length (sanitize I s) = length s.
Proof. unfold sanitize. by rewrite length_fmap. Qed.

Lemma safe_excludes c s :
  is_safe I c = false → Forall (λ c, is_safe I c = true) s → c ∉ s.
Proof.
  intros Hc Hs Hin. rewrite Forall_forall in Hs.
  specialize (Hs c Hin). congruence.
Qed.

Lemma file_name_no_sep n : SEP ∉ file_name I n.
Proof.
  unfold file_name. rewrite elem_of_app. intros [H|H].
  - revert H. apply safe_excludes; [apply is_safe_not_sep|apply sanitize_safe].
  - revert H. apply (bool_decide_unpack _). by vm_compute.
Qed.

Lemma file_name_no_nul n : NUL ∉ file_name I n.
Proof.
  unfold file_name. rewrite elem_of_app. intros [H|H].
  - revert H. apply safe_excludes; [apply is_safe_not_nul|apply sanitize_safe].
  - revert H. apply (bool_decide_unpack _). by vm_compute.
Qed.

Lemma file_name_length n : length (file_name I n) = length n + 4.
Proof. unfold file_name. rewrite length_app, sanitize_length. reflexivity. Qed.

Lemma file_name_is_name n : is_name (file_name I n) = true.
Proof.
  unfold is_name. pose proof (file_name_length n) as Hl.
  rewrite !bool_decide_eq_false_2; [done| |].
  - intros H. rewrite H in Hl. simpl in Hl. lia.
  - intros H. rewrite H in Hl. simpl in Hl. lia.
Qed.

Lemma file_name_not_dotdot n : file_name I n ≠ u "..".
Proof.
  intros H. pose proof (file_name_length n) as Hl. rewrite H in Hl.
  simpl in Hl. lia.
Qed.
End Paths.

Lemma split_sep_nonempty s : split_sep s ≠ [].
Proof.
  destruct s as [|c s]; simpl; [done|].
  destruct (c =? SEP)%N; [done|]. by destruct (split_sep s).
Qed.

Lemma split_sep_app a b :
  split_sep (a ++ SEP :: b) = split_sep a ++ split_sep b.
Proof.
  induction a as [|c a IH]; simpl.
  - reflexivity.
  - destruct (c =? SEP)%N; [by rewrite IH|].
    rewrite IH. pose proof (split_sep_nonempty a).
    by destruct (split_sep a).
Qed.

Lemma split_sep_name f : SEP ∉ f → split_sep f = [f].
Proof.
  induction f as [|c f IH]; [done|].
  intros Hc. apply not_elem_of_cons in Hc as [Hc Hf]. cbn [split_sep].
  destruct (c =? SEP)%N eqn:E; [apply N.eqb_eq in E; congruence|].
  by rewrite IH.
Qed.

Lemma endswith_sep_inv d : endswith_sep d = true → ∃ d', d = d' ++ [SEP].
Proof.
  unfold endswith_sep. destruct (last d) as [c|] eqn:Hl; [|done].
  intros ->%N.eqb_eq. apply last_Some in Hl as [d' ->]. eauto.
Qed.

Lemma startswith_sep_app d f :
  d ≠ [] → startswith [SEP] (d ++ f) = startswith [SEP] d.
Proof. by destruct d. Qed.

Lemma startswith_sep_name f : SEP ∉ f → startswith [SEP] f = false.
Proof.
  destruct f as [|c f]; [done|]. intros [Hc _]%not_elem_of_cons.
  cbn [startswith]. destruct (SEP =? c)%N eqn:E; [|done].
  apply N.eqb_eq in E. congruence.
Qed.

(** Joining a directory with a proper file name adds exactly one component. *)
Lemma path_key_join_name d f :
  SEP ∉ f → is_name f = true →
  path_key (join2 d f) = ((path_key d).1, (path_key d).2 ++ [f]).
Proof.
  intros Hsep Hname. unfold join2. rewrite (startswith_sep_name f Hsep).
  assert (filter (λ part, is_name part = true) [f] = [f]) as Hf.
  { rewrite filter_cons_True by done. done. }
  destruct (bool_decide (d = [])) eqn:Hd.
  - apply bool_decide_eq_true in Hd as ->. simpl.
    unfold path_key. rewrite (startswith_sep_name f Hsep), split_sep_name by done.
    by rewrite Hf.
  - apply bool_decide_eq_false in Hd. simpl.
    destruct (endswith_sep d) eqn:He.
    + apply endswith_sep_inv in He as [d' ->]. unfold path_key.
      rewrite startswith_sep_app by done. f_equal.
      rewrite <- app_assoc. simpl. rewrite !split_sep_app.
      rewrite (split_sep_name f) by done. simpl.
      rewrite !filter_app, Hf. f_equal.
      rewrite filter_cons_False by (by vm_compute). by rewrite filter_nil, app_nil_r.
    + unfold path_key. rewrite startswith_sep_app by done. f_equal.
      simpl. rewrite split_sep_app, (split_sep_name f) by done.
      by rewrite filter_app, Hf.
Qed.

(** ** The remote document fetcher and the batch renderer *)

Section Remote.
Context (I : Interp) (cfg : Config).
Context (remote : list HttpRequest → HttpRequest → outcome).

Lemma requests_get_str url headers params w :
  url ≠ [] →
  requests_get I remote (JStr url) headers params w =
    let req := {| req_url := url; req_headers := headers; req_params := params |} in
    match remote (attempts w) req with
    | Responded r => (Ok r, sent [req] w)
    | Failed msg => (Raise (RequestException msg), sent [req] w)
    end.
Proof. by destruct url. Qed.

Lemma api_url_nonempty (base lit key : str) : lit ≠ [] → base ++ lit ++ key ≠ [].
Proof. intros Hl H. apply app_eq_nil in H as [_ H]. by apply app_eq_nil in H as [H _]. Qed.

Lemma sent_sent r1 r2 w : sent r2 (sent r1 w) = sent (r1 ++ r2) w.
Proof. unfold sent, set_attempts. cbn. by rewrite app_assoc. Qed.

Lemma sent_nil w : sent [] w = w.
Proof. unfold sent, set_attempts. rewrite app_nil_r. by destruct w. Qed.

Lemma str_of_int_three_digits z :
  (100 ≤ z ≤ 999)%Z → str_of_int z = three_digits z.
Proof.
  assert (forallb (λ n, bool_decide (str_of_int (Z.of_nat n)
                                       = three_digits (Z.of_nat n)))
            (seq 100 900) = true) as Hall by (vm_compute; reflexivity).
  intros Hz. rewrite forallb_forall in Hall.
  specialize (Hall (Z.to_nat z)). rewrite Z2Nat.id in Hall by lia.
  apply (bool_decide_eq_true_1 _), Hall, in_seq. lia.
Qed.

(** C8.  The document fetch makes exactly one request attempt: the files
    endpoint of the document under [BASE_URL], with the token header and no
    parameter.  On status 200 it returns the parsed body as it is; on 403 it
    raises an error that carries the response body; on any other status an
    error that carries status and body, the status written with its three
    decimal digits; on a transport failure a network error that carries the
    underlying message. *)
Theorem fetch_figma_file_contract file_key w :
  let req := file_request cfg file_key in
  let run := fetch_figma_file I cfg remote file_key w in
  attempts run.2 = attempts w ++ [req] ∧
  (∀ r j, remote (attempts w) req = Responded r →
          status_code r = 200%Z → json_body r = Ok j →
          run = (Ok j, sent [req] w)) ∧
  (∀ r, remote (attempts w) req = Responded r → status_code r = 403%Z →
        run = (Raise (Exception (u "403 Forbidden: " ++ text r)),
               set_logged (logged w ++ [(ERROR, u "403 Forbidden: " ++ text r)])
                 (sent [req] w))) ∧
  (∀ r, remote (attempts w) req = Responded r →
        status_code r ≠ 200%Z → status_code r ≠ 403%Z →
        let msg := u "Figma API error (Status " ++ str_of_int (status_code r)
                     ++ u "): " ++ text r in
        run = (Raise (Exception msg),
               set_logged (logged w ++ [(ERROR, msg)]) (sent [req] w))) ∧
  (∀ msg, remote (attempts w) req = Failed msg →
          run = (Raise (Exception (u "Network error: " ++ msg)),
                 set_logged (logged w ++ [(ERROR, u "Network error: " ++ msg)])
                   (sent [req] w))) ∧
  req = {| req_url := BASE_URL cfg ++ u "/files/" ++ file_key;
           req_headers := [(u "X-Figma-Token", FIGMA_API_TOKEN cfg)];
           req_params := [] |} ∧
  (∀ r, remote (attempts w) req = Responded r →
        status_code r ≠ 200%Z → status_code r ≠ 403%Z →
        (100 ≤ status_code r ≤ 999)%Z →
        run.1 = Raise (Exception (u "Figma API error (Status "
                                    ++ three_digits (status_code r)
                                    ++ u "): " ++ text r))).
Proof.
  intros req run.
  assert (∀ r, remote (attempts w) req = Responded r →
            status_code r ≠ 200%Z → status_code r ≠ 403%Z →
            run = (Raise (Exception (u "Figma API error (Status "
                                       ++ str_of_int (status_code r)
                                       ++ u "): " ++ text r)),
                   set_logged
                     (logged w ++ [(ERROR, u "Figma API error (Status "
                                             ++ str_of_int (status_code r)
                                             ++ u "): " ++ text r)])
                     (sent [req] w)) →
            (100 ≤ status_code r ≤ 999)%Z →
            run.1 = Raise (Exception (u "Figma API error (Status "
                                        ++ three_digits (status_code r)
                                        ++ u "): " ++ text r))) as Hdigits.
  { intros r _ _ _ -> Hrange. cbn [fst].
    by rewrite (str_of_int_three_digits _ Hrange). }
  cut (attempts run.2 = attempts w ++ [req] ∧
       (∀ r j, remote (attempts w) req = Responded r →
               status_code r = 200%Z → json_body r = Ok j →
               run = (Ok j, sent [req] w)) ∧
       (∀ r, remote (attempts w) req = Responded r → status_code r = 403%Z →
             run = (Raise (Exception (u "403 Forbidden: " ++ text r)),
                    set_logged (logged w ++ [(ERROR, u "403 Forbidden: " ++ text r)])
                      (sent [req] w))) ∧
       (∀ r, remote (attempts w) req = Responded r →
             status_code r ≠ 200%Z → status_code r ≠ 403%Z →
             let msg := u "Figma API error (Status " ++ str_of_int (status_code r)
                          ++ u "): " ++ text r in
             run = (Raise (Exception msg),
                    set_logged (logged w ++ [(ERROR, msg)]) (sent [req] w))) ∧
       (∀ msg, remote (attempts w) req = Failed msg →
               run = (Raise (Exception (u "Network error: " ++ msg)),
                      set_logged (logged w ++ [(ERROR, u "Network error: " ++ msg)])
                        (sent [req] w)))).
  { intros (H1 & H2 & H3 & H4 & H5). split_and!; try done.
    intros r Hr H200 H403. apply (Hdigits r Hr H200 H403). by apply H4. }
  clear Hdigits.
  subst run. unfold fetch_figma_file, try_except, mbind, M_bind.
  rewrite requests_get_str by (by apply api_url_nonempty).
  unfold figma_headers. fold (file_request cfg file_key). fold req. cbn zeta.
  destruct (remote (attempts w) req) as [r|msg] eqn:Hr.
  2:{ cbn. split_and!; try done. by intros msg' [= <-]. }
  destruct (status_code r =? 403)%Z eqn:H403.
  { apply Z.eqb_eq in H403. cbn. split_and!; try done.
    - intros r' j [= <-] ?. congruence.
    - by intros r' [= <-] _.
    - intros r' [= <-] _ ?. congruence. }
  apply Z.eqb_neq in H403.
  destruct (status_code r =? 200)%Z eqn:H200; cbn.
  - apply Z.eqb_eq in H200. split_and!; try done.
    + unfold lift. by destruct (json_body r) as [j|[]]; cbn.
    + intros r' j [= <-] _ Hj. unfold lift. by rewrite Hj.
    + intros r' [= <-] ?. congruence.
    + intros r' [= <-] ?. congruence.
  - apply Z.eqb_neq in H200. split_and!; try done.
    + intros r' j [= <-] ?. congruence.
    + intros r' [= <-] ?. congruence.
    + by intros r' [= <-] _ _.
Qed.

Lemma comma_join_strs batch : comma_join (JStr <$> batch) = Ok (commas batch).
Proof.
  induction batch as [|s rest IH]; [done|].
  cbn [fmap list_fmap comma_join commas]. destruct rest as [|s' rest]; [done|].
  change (JStr s' :: list_fmap _ _ JStr rest) with (JStr <$> (s' :: rest)).
  rewrite IH. done.
Qed.

Lemma py_slice_fmap {A B : Type} (f : A → B) l i j :
  py_slice (f <$> l) i j = f <$> py_slice l i j.
Proof. unfold py_slice. by rewrite fmap_take, fmap_drop. Qed.

Lemma render_batch_run file_key ids scale format acc i w :
  let req := render_request cfg file_key scale format
               (py_slice ids i (i + max_ids_per_request)) in
  ∃ res,
    render_batch I cfg remote file_key (JStr <$> ids) scale format acc i w
      = (res, sent [req] w) ∧
    (∀ m, chunk_succeeds (remote (attempts w) req) m → res = Ok (m ∪ acc)) ∧
    (∀ e, chunk_fails I (remote (attempts w) req) e → res = Raise e).
Proof.
  intros req. unfold render_batch.
  rewrite py_slice_fmap, comma_join_strs.
  unfold try_except, mbind at 1, M_bind at 1, lift at 1. cbn iota beta.
  unfold mbind at 1. unfold M_bind at 1.
  rewrite requests_get_str by (by apply api_url_nonempty).
  unfold figma_headers, render_params.
  fold (render_request cfg file_key scale format
          (py_slice ids i (i + max_ids_per_request))). fold req. cbn zeta.
  destruct (remote (attempts w) req) as [r|msg] eqn:Hr.
  2:{ cbn. eexists. split; [done|]. split; intros ? H; by inversion H. }
  destruct (status_code r =? 403)%Z eqn:H403.
  { apply Z.eqb_eq in H403. cbn. eexists. split; [done|].
    split; intros ? H; inversion H; subst; try done; congruence. }
  apply Z.eqb_neq in H403.
  destruct (status_code r =? 200)%Z eqn:H200; cbn.
  2:{ apply Z.eqb_neq in H200. eexists. split; [done|].
      split; intros ? H; inversion H; subst; try done; congruence. }
  apply Z.eqb_eq in H200. unfold lift, mbind, M_bind.
  destruct (json_body r) as [data|e] eqn:Hj.
  2:{ destruct (is_RequestException e); eexists; (split; [done|]);
      split; intros ? H; inversion H; subst; congruence. }
  destruct data as [|b|z|s|l|d];
    try (cbn; eexists; split; [done|];
         split; intros ? H; inversion H; subst; congruence).
  cbn [py_get].
  destruct (truthy (default JNull (d !! u "err"))) eqn:Herr.
  { cbn. eexists. split; [done|].
    split; intros ? H; inversion H; subst; same_body; congruence. }
  destruct (default (JObj ∅) (d !! u "images")) as [|b|z|s|l|imgs] eqn:Himgs;
    [| | |destruct s|destruct l|];
    cbn; eexists; (split; [done|]);
    split; intros ? H; inversion H; subst; same_body; congruence.
Qed.

Section Loop.
Context (file_key : str) (ids : list str) (scale : Z) (format : str).

Local Abbreviation body :=
  (render_batch I cfg remote file_key (JStr <$> ids) scale format).
Local Abbreviation reqs idxs :=
  (render_request cfg file_key scale format <$>
     ((λ i, py_slice ids i (i + max_ids_per_request)) <$> idxs)).

Lemma render_loop_ok idxs acc w maps :
  Forall2 chunk_succeeds (script remote (attempts w) (reqs idxs)) maps →
  for_each body idxs acc w =
    (Ok (foldl (λ a m, m ∪ a) acc maps), sent (reqs idxs) w).
Proof.
  revert acc w maps. induction idxs as [|i idxs IH]; intros acc w maps Hall.
  - apply Forall2_nil_inv_l in Hall as ->. cbn. by rewrite sent_nil.
  - cbn in Hall. apply Forall2_cons_inv_l in Hall as (m & ms & Hm & Hms & ->).
    destruct (render_batch_run file_key ids scale format acc i w)
      as (res & Hrun & Hok & _).
    rewrite (Hok _ Hm) in Hrun.
    rewrite (for_each_step _ _ _ _ _ _ _ Hrun).
    rewrite (IH _ (sent [_] w) ms) by exact Hms.
    by rewrite sent_sent.
Qed.

Lemma render_loop_fail idxs acc w i o e :
  script remote (attempts w) (reqs idxs) !! i = Some o → chunk_fails I o e →
  ∃ e' j, j ≤ i ∧
    for_each body idxs acc w = (Raise e', sent (take (S j) (reqs idxs)) w).
Proof.
  revert acc w i. induction idxs as [|x idxs IH]; intros acc w i Hi Hf.
  - cbn in Hi. by destruct i.
  - destruct (render_batch_run file_key ids scale format acc x w)
      as (res & Hrun & _ & Hfail).
    destruct res as [acc1|e1].
    + destruct i as [|i].
      { cbn in Hi. simplify_eq. by specialize (Hfail _ Hf). }
      cbn in Hi. destruct (IH acc1 (sent [_] w) i Hi Hf) as (e' & j & Hj & Hloop).
      exists e', (S j). split; [lia|].
      rewrite (for_each_step _ _ _ _ _ _ _ Hrun), Hloop.
      by rewrite sent_sent.
    + exists e1, 0. split; [lia|].
      by rewrite (for_each_raise _ _ _ _ _ _ _ Hrun).
Qed.

Lemma render_loop_first_fail idxs acc w i o e maps :
  Forall2 chunk_succeeds (take i (script remote (attempts w) (reqs idxs))) maps →
  script remote (attempts w) (reqs idxs) !! i = Some o → chunk_fails I o e →
  for_each body idxs acc w = (Raise e, sent (take (S i) (reqs idxs)) w).
Proof.
  revert acc w i maps. induction idxs as [|x idxs IH]; intros acc w i maps Hall Hi Hf.
  - cbn in Hi. by destruct i.
  - destruct (render_batch_run file_key ids scale format acc x w)
      as (res & Hrun & Hok & Hfail).
    destruct i as [|i].
    + cbn in Hi. simplify_eq. rewrite (Hfail _ Hf) in Hrun.
      by rewrite (for_each_raise _ _ _ _ _ _ _ Hrun).
    + cbn in Hi, Hall.
      apply Forall2_cons_inv_l in Hall as (m & ms & Hm & Hms & ->).
      rewrite (Hok _ Hm) in Hrun.
      rewrite (for_each_step _ _ _ _ _ _ _ Hrun).
      rewrite (IH _ (sent [_] w) i ms) by done.
      by rewrite sent_sent.
Qed.
End Loop.

Lemma merge_from_dom (acc : gmap str json) maps k :
  k ∈ dom (foldl (λ a m, m ∪ a) acc maps) ↔
  k ∈ dom acc ∨ ∃ m, m ∈ maps ∧ k ∈ dom m.
Proof.
  revert acc. induction maps as [|m maps IH]; intros acc; cbn.
  - split; [by left|]. intros [?|(m & Hm & _)]; [done|]. by apply elem_of_nil in Hm.
  - rewrite IH, dom_union_L, elem_of_union. split.
    + intros [[?|?]|(m' & Hm' & ?)]; eauto.
      * right. exists m. split; [left|done].
      * right. exists m'. split; [by right|done].
    + intros [?|(m' & Hm' & ?)]; eauto.
      apply elem_of_cons in Hm' as [->|?]; eauto.
Qed.

Lemma merge_from_absent (acc : gmap str json) maps k :
  Forall (λ m, m !! k = None) maps →
  foldl (λ a m, m ∪ a) acc maps !! k = acc !! k.
Proof.
  revert acc. induction maps as [|m maps IH]; intros acc Hall; [done|].
  inversion_clear Hall as [|? ? Hm Hms]. cbn. rewrite IH by done.
  rewrite lookup_union_r; done.
Qed.

Lemma merge_last ms1 m ms2 k v :
  m !! k = Some v → Forall (λ m', m' !! k = None) ms2 →
  merge (ms1 ++ m :: ms2) !! k = Some v.
Proof.
  intros Hm Hms. unfold merge. rewrite foldl_app. cbn.
  rewrite merge_from_absent by done. by rewrite (lookup_union_Some_l _ _ _ v).
Qed.

Lemma merge_dom maps k :
  k ∈ dom (merge maps) ↔ ∃ m, m ∈ maps ∧ k ∈ dom m.
Proof.
  unfold merge. rewrite merge_from_dom, dom_empty_L.
  split; [intros [H|H]; [by apply not_elem_of_empty in H|done] | by right].
Qed.

(** [range(0, stop, step)] visits the slices of a list from left to right
    and leaves nothing out. *)
Lemma range_from_concat {A : Type} (l : list A) step fuel i :
  0 < step → length l - i ≤ fuel →
  concat ((λ j, py_slice l j (j + step)) <$> range_from fuel i (length l) step)
    = drop i l.
Proof.
  intros Hstep. revert i. induction fuel as [|fuel IH]; intros i Hfuel.
  - cbn. rewrite drop_ge; [done|lia].
  - cbn [range_from]. destruct (i <? length l) eqn:Hi.
    + cbn. rewrite IH by lia. unfold py_slice.
      replace (i + step - i) with step by lia.
      rewrite <- drop_drop. apply take_drop.
    + apply Nat.ltb_ge in Hi. cbn. rewrite drop_ge; [done|lia].
Qed.

Lemma range_from_slices {A : Type} (l : list A) step fuel i :
  0 < step →
  Forall (λ b, 0 < length b ≤ step)
    ((λ j, py_slice l j (j + step)) <$> range_from fuel i (length l) step).
Proof.
  intros Hstep. revert i. induction fuel as [|fuel IH]; intros i; [constructor|].
  cbn [range_from]. destruct (i <? length l) eqn:Hi; [|constructor].
  apply Nat.ltb_lt in Hi. cbn. constructor; [|apply IH].
  unfold py_slice. rewrite length_take, length_drop. lia.
Qed.

Lemma range_from_count stop step fuel i :
  0 < step → stop - i ≤ fuel →
  stop - i ≤ step * length (range_from fuel i stop step) < stop - i + step.
Proof.
  intros Hstep. revert i. induction fuel as [|fuel IH]; intros i Hfuel.
  - cbn. lia.
  - cbn [range_from]. destruct (i <? stop) eqn:Hi.
    + apply Nat.ltb_lt in Hi. cbn [length].
      specialize (IH (i + step) ltac:(lia)). rewrite Nat.mul_succ_r.
      destruct (length (range_from fuel (i + step) stop step)) as [|c].
      * rewrite Nat.mul_0_r in *. lia.
      * rewrite Nat.mul_succ_r in *. set (x := step * c) in *. lia.
    + apply Nat.ltb_ge in Hi. cbn. lia.
Qed.

Lemma batches_concat {A : Type} (ids : list A) : concat (batches ids) = ids.
Proof.
  unfold batches, py_range. rewrite range_from_concat; [done| |lia].
  unfold max_ids_per_request. lia.
Qed.

Lemma batches_sizes {A : Type} (ids : list A) :
  Forall (λ b, 0 < length b ≤ 100) (batches ids).
Proof. apply range_from_slices. unfold max_ids_per_request. lia. Qed.

Lemma batches_count {A : Type} (ids : list A) :
  length ids ≤ 100 * length (batches ids) < length ids + 100.
Proof.
  unfold batches. rewrite length_fmap.
  pose proof (range_from_count (length ids) max_ids_per_request (length ids) 0) as H.
  unfold max_ids_per_request in *. unfold py_range. lia.
Qed.

Lemma batches_250 {A : Type} (ids : list A) :
  length ids = 250 → length <$> batches ids = [100; 100; 50].
Proof.
  intros Hlen. unfold batches. rewrite Hlen.
  change (py_range 250 max_ids_per_request) with [0; 100; 200].
  cbn [fmap list_fmap]. unfold py_slice, max_ids_per_request.
  rewrite !length_take, !length_drop, Hlen. reflexivity.
Qed.

(** C2.  The identifier list is cut into consecutive chunks, in order,
    each of 1 to 100 identifiers, as few as possible; 250 identifiers give
    chunks of 100, 100 and 50.  The request of a chunk goes to the images
    endpoint of the file with the token header and carries the identifiers
    of that chunk, joined by commas, with the scale, the format and the
    bounds flag.  When every chunk's request succeeds, one request per
    chunk was made, in the order of the chunks, and the result is the union
    of the chunks' mappings: a key is in the result exactly when it is in
    some chunk's mapping, with the value of the last chunk that has it. *)
Theorem render_in_batches file_key (ids : list str) scale format w :
  let reqs := render_request cfg file_key scale format <$> batches ids in
  concat (batches ids) = ids ∧
  Forall (λ b, 0 < length b ≤ 100) (batches ids) ∧
  length ids ≤ 100 * length (batches ids) < length ids + 100 ∧
  (length ids = 250 → length <$> batches ids = [100; 100; 50]) ∧
  (∀ i batch,
     batches ids !! i = Some batch →
     reqs !! i = Some
       {| req_url := BASE_URL cfg ++ u "/images/" ++ file_key;
          req_headers := [(u "X-Figma-Token", FIGMA_API_TOKEN cfg)];
          req_params := [(u "ids", commas batch); (u "scale", str_of_int scale);
                         (u "format", format);
                         (u "use_absolute_bounds", u "true")] |}) ∧
  (∀ maps,
     Forall2 chunk_succeeds (script remote (attempts w) reqs) maps →
     fetch_figma_frame_images I cfg remote file_key (JStr <$> ids) scale format w
       = (Ok (merge maps), sent reqs w) ∧
     (∀ k, k ∈ dom (merge maps) ↔ ∃ m, m ∈ maps ∧ k ∈ dom m) ∧
     (∀ ms1 m ms2 k v,
        maps = ms1 ++ m :: ms2 → m !! k = Some v →
        Forall (λ m', m' !! k = None) ms2 → merge maps !! k = Some v)).
Proof.
  intros reqs. refine (conj _ (conj _ (conj _ (conj _ (conj _ _))))).
  - apply batches_concat.
  - apply batches_sizes.
  - apply batches_count.
  - apply batches_250.
  - intros i batch Hb. subst reqs. by rewrite list_lookup_fmap, Hb.
  - intros maps Hall. split_and!.
    + unfold fetch_figma_frame_images. rewrite length_fmap.
      by apply render_loop_ok.
    + apply merge_dom.
    + intros ms1 m ms2 k v ->. apply merge_last.
Qed.

(** C5.  If the request of some chunk fails (status 403, another status
    than 200, status 200 with a non-empty error field, or a transport
    failure), batch rendering raises an error and returns no mapping, and no
    request is made after the failing one; when the chunks before it
    succeeded, the error is that chunk's and their mappings are dropped. *)
Theorem render_all_or_nothing file_key (ids : list str) scale format w i o e :
  let reqs := render_request cfg file_key scale format <$> batches ids in
  let run := fetch_figma_frame_images I cfg remote file_key (JStr <$> ids)
               scale format w in
  script remote (attempts w) reqs !! i = Some o →
  chunk_fails I o e →
  (∃ e' j, j ≤ i ∧ run = (Raise e', sent (take (S j) reqs) w)) ∧
  (∀ maps,
     Forall2 chunk_succeeds (take i (script remote (attempts w) reqs)) maps →
     run = (Raise e, sent (take (S i) reqs) w)).
Proof.
  intros reqs run Hi Hf. subst run. unfold fetch_figma_frame_images.
  rewrite length_fmap. split.
  - by eapply render_loop_fail.
  - intros maps Hall. by eapply render_loop_first_fail.
Qed.
End Remote.

(** ** The frame extractor *)

Section Frames.
Lemma ids_of_app a b : ids_of (a ++ b) = ids_of a ++ ids_of b.
Proof. unfold ids_of. by rewrite filter_app, fmap_app. Qed.

Lemma ids_of_cons x l : ids_of (x :: l) = ids_of [x] ++ ids_of l.
Proof. apply (ids_of_app [x] l). Qed.

Lemma extract_child_obj acc m :
  extract_child acc (JObj m) =
    if is_frame (JObj m)
    then Ok (acc.1 ++ [frame_of (JObj m)], acc.2 ++ ids_of [frame_of (JObj m)])
    else Ok acc.
Proof.
  unfold extract_child, is_frame. cbn [py_get mbind result_bind].
  destruct (m !! u "type") as [[|b|z|s|l|d]|] eqn:Hty; cbn; try done.
  destruct (bool_decide (s = u "FRAME")) eqn:Hs; cbn; [|done].
  unfold ids_of, frame_of.
  destruct (m !! u "id") as [id|] eqn:Hid; cbn.
  - destruct (truthy id) eqn:Ht; cbn; case_decide; try done.
    by rewrite app_nil_r.
  - rewrite decide_False by (vm_compute; discriminate). by rewrite app_nil_r.
Qed.

Lemma extract_children children acc :
  forallb is_obj children = true →
  for_each extract_child children acc =
    Ok (acc.1 ++ (frame_of <$> filter (λ c, is_frame c = true) children),
        acc.2 ++ ids_of (frame_of <$> filter (λ c, is_frame c = true) children)).
Proof.
  revert acc. induction children as [|c children IH]; intros [fs ids] Hobj.
  - cbn. by rewrite !app_nil_r.
  - cbn in Hobj. apply andb_true_iff in Hobj as [Hc Hobj].
    destruct c as [|b|z|s|l|m]; try done.
    cbn [for_each]. rewrite extract_child_obj.
    destruct (is_frame (JObj m)) eqn:Hf; cbn [mbind result_bind].
    + rewrite IH by done. rewrite filter_cons_True by done.
      cbn [fst snd]. rewrite fmap_cons.
      rewrite (ids_of_cons (frame_of (JObj m)) (frame_of <$> _)).
      by rewrite <- !app_assoc.
    + rewrite IH by done. rewrite filter_cons_False by congruence. done.
Qed.

Lemma extract_page_node acc page :
  node_ok page = true →
  extract_page acc page =
    Ok (acc.1 ++ (frame_of <$> filter (λ c, is_frame c = true) (children_of page)),
        acc.2 ++ ids_of (frame_of <$> filter (λ c, is_frame c = true) (children_of page))).
Proof.
  unfold node_ok, extract_page, children_of.
  destruct page as [|b|z|s|l|m]; try done.
  cbn [py_get mbind result_bind].
  destruct (m !! u "children") as [[|b|z|s|l|d]|]; try done; cbn.
  - apply extract_children.
  - intros _. destruct acc as [fs ids]. unfold ids_of. cbn. by rewrite !app_nil_r.
Qed.

Lemma extract_pages pages acc :
  forallb node_ok pages = true →
  for_each extract_page pages acc =
    Ok (acc.1 ++ (frame_of <$> filter (λ c, is_frame c = true)
                                 (concat (children_of <$> pages))),
        acc.2 ++ ids_of (frame_of <$> filter (λ c, is_frame c = true)
                                        (concat (children_of <$> pages)))).
Proof.
  revert acc. induction pages as [|p pages IH]; intros [fs ids] Hok.
  - cbn. by rewrite !app_nil_r.
  - cbn in Hok. apply andb_true_iff in Hok as [Hp Hok].
    cbn [for_each]. rewrite extract_page_node by done.
    cbn [mbind result_bind]. rewrite IH by done. cbn [fst snd fmap list_fmap concat].
    rewrite filter_app, fmap_app, ids_of_app. by rewrite <- !app_assoc.
Qed.

(** C3, amended.  On a document tree of the expected shape (objects, with
    lists of objects under ["children"] where present) frame extraction
    raises no error and returns the children of the pages whose kind is
    ["FRAME"], in page-then-child order, with ["Unnamed Frame"] for a missing
    name and the empty string for a missing identifier, together with the
    identifiers of those frames that have a non-empty one, in the same
    order. *)
Theorem extract_frames_well_shaped file_data :
  well_shaped file_data = true →
  extract_frames file_data = Ok (frames_of file_data, ids_of (frames_of file_data)).
Proof.
  unfold well_shaped, extract_frames, frames_of.
  destruct file_data as [|b|z|s|l|top]; try done.
  cbn [py_get mbind result_bind].
  intros [Hdoc Hpages]%andb_true_iff.
  destruct (default (JObj ∅) (top !! u "document")) as [|b|z|s|l|doc]; try done.
  unfold node_ok in Hdoc. cbn [py_get mbind result_bind].
  change (children_of (JObj doc)) with
    (match doc !! u "children" with Some (JArr l) => l | _ => [] end) in *.
  destruct (doc !! u "children") as [[|b|z|s|l|d]|]; try done;
    cbn [default from_option id py_iter mbind result_bind].
  by rewrite extract_pages.
Qed.

End Frames.

(** ** The image downloader and the image server *)

Section Download.
Context (I : Interp) (cfg : Config).
Context (remote : list HttpRequest → HttpRequest → outcome).

Lemma open_write_ok p data w :
  can_write p w = true →
  open_write p data w = (Ok (), set_disk (<[path_key p := File data]> (disk w)) w).
Proof.
  unfold can_write, open_write.
  destruct (bool_decide (NUL ∈ p)); [done|].
  destruct (path_key p).2; [done|].
  destruct (_ || _); [|done]. by destruct (is_dir _).
Qed.

Lemma open_write_fail p data w :
  can_write p w = false → ∃ e, open_write p data w = (Raise e, w).
Proof.
  unfold can_write, open_write.
  destruct (bool_decide (NUL ∈ p)); [eauto|].
  destruct (path_key p).2; [eauto|].
  destruct (_ || _); [|eauto]. destruct (is_dir _); [eauto|done].
Qed.

Lemma can_write_ext p w w' : disk w = disk w' → can_write p w = can_write p w'.
Proof. unfold can_write, open_write. intros ->. by repeat case_match. Qed.

Lemma downloads_fun dir f w n r n' r' :
  downloads I remote dir f w n r → downloads I remote dir f w n' r' → n = n' ∧ r = r'.
Proof.
  intros (url & Hu & _ & Hr & _ & Hn & _) (url' & Hu' & _ & Hr' & _ & Hn' & _).
  split; congruence.
Qed.

Lemma download_frame_step dir acc f w :
  (∃ n r url, downloads I remote dir f w n r ∧ image_url f = Some (JStr url) ∧
     download_frame I remote dir acc f w =
       (Ok (<[n := os_path_join dir [file_name I n]]> acc),
        after_download I dir f n r url w)) ∨
  ((∀ n r, ¬ downloads I remote dir f w n r) ∧
   ∃ w', download_frame I remote dir acc f w = (Ok acc, w') ∧ disk w' = disk w).
Proof.
  unfold download_frame.
  destruct (image_url f) as [url|] eqn:Hurl.
  2:{ right. split; [|by eexists]. intros n r (url & ? & _). congruence. }
  unfold try_except, mbind, M_bind.
  destruct url as [|b|z|[|c url]|l|m]; cbn;
    try (right; split;
         [intros n r (url' & ? & ? & _); congruence | by eexists]).
  destruct (remote (attempts w) _) as [r|msg] eqn:Hr; cbn.
  2:{ right. split; [|by eexists].
      intros n r (url' & ? & _ & Hr' & _). simplify_eq.
      unfold download_request in Hr'. congruence. }
  destruct (status_code r =? 200)%Z eqn:Hs; cbn.
  2:{ right. split; [|by eexists].
      intros n r' (url' & ? & _ & Hr' & Hs' & _). simplify_eq.
      unfold download_request in Hr'. rewrite Hr in Hr'. simplify_eq.
      rewrite Hs' in Hs. done. }
  apply Z.eqb_eq in Hs.
  destruct (node_id f) as [|b|z|n|l|m] eqn:Hn; cbn;
    try (right; split;
         [intros n' r' (url' & ? & ? & _ & _ & ? & _); congruence | by eexists]).
  set (w1 := set_attempts _ w).
  destruct (can_write (os_path_join dir [sanitize I n ++ u ".png"]) w1) eqn:Hw.
  - left. exists n, r, (c :: url). split_and!; [|done|].
    + exists (c :: url). split_and!; try done.
      rewrite <- Hw. by apply can_write_ext.
    + by rewrite (open_write_ok _ _ _ Hw).
  - right. destruct (open_write_fail _ (content r) _ Hw) as [e ->]. cbn.
    split; [|by eexists].
    intros n' r' (url' & ? & _ & _ & _ & ? & Hcw). simplify_eq.
    rewrite (can_write_ext _ w w1) in Hcw by done.
    unfold file_name in Hcw. congruence.
Qed.

Lemma can_write_no_nul p w : can_write p w = true → NUL ∉ p.
Proof.
  unfold can_write, open_write. destruct (bool_decide (NUL ∈ p)) eqn:H; [done|].
  intros _. by apply bool_decide_eq_false in H.
Qed.

Lemma is_file_insert (d : gmap (bool * list str) fsnode) k k' data :
  is_file (d !! k') = true → is_file (<[k := File data]> d !! k') = true.
Proof.
  destruct (decide (k = k')) as [->|Hne].
  - by rewrite lookup_insert_eq.
  - by rewrite lookup_insert_ne.
Qed.

Lemma download_frame_stored dir acc f w acc' w' :
  stored I dir acc w →
  download_frame I remote dir acc f w = (Ok acc', w') →
  stored I dir acc' w'.
Proof.
  intros Hst Hrun.
  destruct (download_frame_step dir acc f w)
    as [(n & r & url & Hd & _ & Heq)|(_ & w2 & Heq & Hdisk)];
    rewrite Heq in Hrun; simplify_eq.
  - destruct Hd as (url' & _ & _ & _ & _ & _ & Hcw).
    intros n' p. rewrite lookup_insert. case_decide as Hn.
    + intros [= <-]. subst n'. split_and!; [done|by eapply can_write_no_nul|].
      cbn. by rewrite lookup_insert_eq.
    + intros Hp. destruct (Hst n' p Hp) as (-> & Hnul & Hfile).
      split_and!; [done..|]. cbn. by apply is_file_insert.
  - intros n p Hp. rewrite Hdisk. by apply Hst.
Qed.

Lemma download_frame_total dir acc f w :
  ∃ acc1 w1, download_frame I remote dir acc f w = (Ok acc1, w1).
Proof.
  destruct (download_frame_step dir acc f w)
    as [(n & r & url & _ & _ & Heq)|(_ & w1 & Heq & _)]; eauto.
Qed.

Lemma download_loop dir frames acc w :
  ∃ paths w',
    for_each (download_frame I remote dir) frames acc w = (Ok paths, w') ∧
    (stored I dir acc w → stored I dir paths w') ∧
    ∀ n, n ∈ dom paths ↔
         n ∈ dom acc ∨
         ∃ k f r, frames !! k = Some f ∧
           downloads I remote dir f
             (for_each (download_frame I remote dir) (take k frames) acc w).2 n r.
Proof.
  revert acc w. induction frames as [|f frames IH]; intros acc w.
  - exists acc, w. split_and!; [done..|]. intros n. split; [by left|].
    intros [?|(k & f & r & Hk & _)]; [done|]. by rewrite lookup_nil in Hk.
  - destruct (download_frame_total dir acc f w) as (acc1 & w1 & Heq).
    destruct (IH acc1 w1) as (paths & w' & Hrun & Hst & Hdom).
    exists paths, w'. split_and!.
    + by rewrite (for_each_step _ _ _ _ _ _ _ Heq).
    + intros H. eapply Hst, download_frame_stored; eauto.
    + intros n. rewrite Hdom. clear Hdom Hst Hrun IH.
      assert ((∃ k f0 r, (f :: frames) !! k = Some f0 ∧
                 downloads I remote dir f0
                   (for_each (download_frame I remote dir)
                      (take k (f :: frames)) acc w).2 n r) ↔
              (∃ r, downloads I remote dir f w n r) ∨
              (∃ k f0 r, frames !! k = Some f0 ∧
                 downloads I remote dir f0
                   (for_each (download_frame I remote dir)
                      (take k frames) acc1 w1).2 n r)) as ->.
      { split.
        - intros ([|k] & f0 & r & Hk & Hd).
          + left. cbn in Hk, Hd. simplify_eq. eauto.
          + right. cbn [take] in Hd.
            rewrite (for_each_step _ _ _ _ _ _ _ Heq) in Hd.
            exists k, f0, r. done.
        - intros [[r Hd]|(k & f0 & r & Hk & Hd)].
          + exists 0, f, r. done.
          + exists (S k), f0, r. split; [done|]. cbn [take].
            by rewrite (for_each_step _ _ _ _ _ _ _ Heq). }
      destruct (download_frame_step dir acc f w)
        as [(n0 & r0 & url & Hd0 & _ & Heq')|(Hno & w2 & Heq' & _)];
        rewrite Heq' in Heq; simplify_eq.
      * rewrite dom_insert_L, elem_of_union, elem_of_singleton.
        split.
        -- intros [[->|?]|?]; eauto.
        -- intros [?|[[r Hd]|?]]; eauto.
           destruct (downloads_fun _ _ _ _ _ _ _ Hd Hd0) as [-> _]. eauto.
      * split; [intros [?|?]; eauto|].
        intros [?|[[r Hd]|?]]; eauto. by destruct (Hno n r).
Qed.

Lemma image_path_eq s n :
  image_path I cfg s n = os_path_join (session_dir cfg s) [file_name I n].
Proof. reflexivity. Qed.

Lemma image_path_key s n :
  path_key (image_path I cfg s n) =
    ((path_key (session_dir cfg s)).1,
     (path_key (session_dir cfg s)).2 ++ [file_name I n]).
Proof.
  rewrite image_path_eq. apply path_key_join_name.
  - apply file_name_no_sep.
  - apply file_name_is_name.
Qed.

Lemma is_safe_cases c :
  is_safe I c = true → is_word I c = true ∨ c = ch "-" ∨ c = ch "_" ∨ c = ch ".".
Proof.
  unfold is_safe. rewrite !orb_true_iff, !N.eqb_eq. tauto.
Qed.

(** C10.  The sanitized identifier keeps the length of the identifier and
    holds only word characters, hyphens, underscores and periods, hence no
    path separator and no NUL; the file name built from it is never empty,
    ["."] or [".."], and the path built from a directory and that file name
    has exactly the components of the directory followed by the file name:
    the file is a direct child of the session directory, for the downloader
    and for the image server alike. *)
Theorem sanitize_direct_child node_id :
  Forall (λ c, is_word I c = true ∨ c = ch "-" ∨ c = ch "_" ∨ c = ch ".")
    (sanitize I node_id) ∧
  length (sanitize I node_id) = length node_id ∧
  (SEP ∉ sanitize I node_id) ∧
  (NUL ∉ sanitize I node_id) ∧
  file_name I node_id ≠ [] ∧
  file_name I node_id ≠ u "." ∧
  file_name I node_id ≠ u ".." ∧
  (∀ dir,
     path_key (os_path_join dir [file_name I node_id]) =
       ((path_key dir).1, (path_key dir).2 ++ [file_name I node_id])) ∧
  (∀ s,
     path_key (image_path I cfg s node_id) =
       ((path_key (session_dir cfg s)).1,
        (path_key (session_dir cfg s)).2 ++ [file_name I node_id])).
Proof.
  pose proof (file_name_is_name I node_id) as Hname.
  unfold is_name in Hname. apply andb_true_iff in Hname as [Hne Hdot].
  apply negb_true_iff, bool_decide_eq_false in Hne, Hdot.
  split_and!; try done.
  - eapply Forall_impl; [apply sanitize_safe|]. apply is_safe_cases.
  - apply sanitize_length.
  - apply safe_excludes with I; [apply is_safe_not_sep|apply sanitize_safe].
  - apply safe_excludes with I; [apply is_safe_not_nul|apply sanitize_safe].
  - apply file_name_not_dotdot.
  - intros dir. apply path_key_join_name.
    + apply file_name_no_sep.
    + apply file_name_is_name.
  - intros s. apply image_path_key.
Qed.

Lemma download_images_inv frames sid w paths dir w' :
  download_images I cfg remote frames (JStr sid) w = (Ok (paths, dir), w') →
  ∃ w1, download_dirs cfg sid w = (Ok (), w1) ∧ dir = session_dir cfg sid ∧
        for_each (download_frame I remote (session_dir cfg sid)) frames ∅ w1
          = (Ok paths, w').
Proof.
  unfold download_images, download_dirs, mbind, M_bind. cbn.
  fold (frame_folder cfg). fold (session_dir cfg sid).
  destruct (os_makedirs (frame_folder cfg) w) as [[[]|e] w0]; [|done].
  destruct (os_makedirs (session_dir cfg sid) w0) as [[[]|e] w1]; [|done].
  destruct (for_each (download_frame I remote (session_dir cfg sid)) frames ∅ w1)
    as [[paths'|e] w2] eqn:Hrun; [|done].
  intros [= <- <- <-]. eauto.
Qed.

Lemma download_images_run frames sid w w1 :
  download_dirs cfg sid w = (Ok (), w1) →
  download_images I cfg remote frames (JStr sid) w =
    match for_each (download_frame I remote (session_dir cfg sid)) frames ∅ w1 with
    | (Ok paths, w') => (Ok (paths, session_dir cfg sid), w')
    | (Raise e, w') => (Raise e, w')
    end.
Proof.
  unfold download_images, download_dirs, mbind, M_bind. cbn.
  fold (frame_folder cfg). fold (session_dir cfg sid).
  destruct (os_makedirs (frame_folder cfg) w) as [[[]|e] w0]; [|done].
  destruct (os_makedirs (session_dir cfg sid) w0) as [[[]|e] w2]; [|done].
  intros [= <-]. by destruct (for_each (download_frame I remote (session_dir cfg sid)) frames ∅ w2) as [[paths'|e] w3].
Qed.

Lemma download_frame_failure dir acc f w url :
  image_url f = Some (JStr url) → url ≠ [] →
  match remote (attempts w) (download_request url) with
  | Failed msg =>
      download_frame I remote dir acc f w =
        (Ok acc,
         after_failure ERROR
           (u "Error downloading image for frame '" ++ format_value I (name f)
              ++ u "': " ++ msg) url w)
  | Responded r =>
      status_code r ≠ 200%Z →
      download_frame I remote dir acc f w =
        (Ok acc,
         after_failure WARNING
           (u "Failed to download image for frame '" ++ format_value I (name f)
              ++ u "': HTTP " ++ str_of_int (status_code r)) url w)
  end.
Proof.
  intros Hu Hne. unfold download_frame. rewrite Hu.
  destruct url as [|c url]; [done|].
  unfold try_except, mbind, M_bind, download_request. cbn.
  destruct (remote (attempts w) _) as [r|msg]; [|done].
  intros Hs. apply Z.eqb_neq in Hs. by rewrite Hs.
Qed.

(** C7, amended.  Once the frames directory and the session directory can
    be created, the downloader returns a path mapping and the session
    directory whatever happens to the single frames: the mapping holds
    exactly the node identifiers of the frames whose own download succeeded;
    frames without URL leave no trace; a transport failure or a status other
    than 200 is logged and the frame is skipped. *)
Theorem download_images_per_item frames sid w w1 :
  download_dirs cfg sid w = (Ok (), w1) →
  ∃ paths w',
    download_images I cfg remote frames (JStr sid) w
      = (Ok (paths, session_dir cfg sid), w') ∧
    (∀ n, n ∈ dom paths ↔
          ∃ k f r, frames !! k = Some f ∧
            downloads I remote (session_dir cfg sid) f
              (world_before I remote (session_dir cfg sid) frames w1 k) n r) ∧
    download_images I cfg remote (List.filter has_url_key frames) (JStr sid) w
      = download_images I cfg remote frames (JStr sid) w ∧
    (∀ acc f w0 url,
       image_url f = Some (JStr url) → url ≠ [] →
       match remote (attempts w0) (download_request url) with
       | Failed msg =>
           download_frame I remote (session_dir cfg sid) acc f w0 =
             (Ok acc,
              after_failure ERROR
                (u "Error downloading image for frame '"
                   ++ format_value I (name f) ++ u "': " ++ msg) url w0)
       | Responded r =>
           status_code r ≠ 200%Z →
           download_frame I remote (session_dir cfg sid) acc f w0 =
             (Ok acc,
              after_failure WARNING
                (u "Failed to download image for frame '"
                   ++ format_value I (name f) ++ u "': HTTP "
                   ++ str_of_int (status_code r)) url w0)
       end).
Proof.
  intros Hdirs.
  destruct (download_loop (session_dir cfg sid) frames ∅ w1)
    as (paths & w' & Hrun & _ & Hdom).
  exists paths, w'. split_and!.
  - by rewrite (download_images_run _ _ _ _ Hdirs), Hrun.
  - intros n. rewrite Hdom, dom_empty_L. unfold world_before.
    split; [intros [?|?]; [set_solver|done] | by right].
  - rewrite !(download_images_run _ _ _ _ Hdirs).
    rewrite for_each_skip; [done|].
    intros f acc w0 Hf. unfold download_frame, has_url_key in *.
    by destruct (image_url f).
  - intros acc f w0 url. apply download_frame_failure.
Qed.

Lemma get_image_found s n w data :
  NUL ∉ image_path I cfg s n →
  disk w !! path_key (image_path I cfg s n) = Some (File data) →
  serve (get_image I cfg s n) w = (FileReply data (u "image/png"), w).
Proof.
  intros Hnul Hfile. unfold serve, get_image, mbind, M_bind, os_path_exists.
  rewrite (bool_decide_eq_false_2 _ Hnul).
  assert ((path_key (image_path I cfg s n)).2 ≠ []) as Hparts.
  { rewrite image_path_key. cbn. by destruct (path_key (session_dir cfg s)).2. }
  assert (image_path I cfg s n ≠ []) as Hp.
  { intros H. rewrite H in Hparts. by apply Hparts. }
  rewrite !bool_decide_eq_false_2 by done. cbn.
  rewrite bool_decide_eq_true_2 by (rewrite Hfile; eauto). cbn.
  unfold send_file. by rewrite Hfile.
Qed.


End Download.

(** ** The process endpoint *)

Section Process.
Context (I : Interp) (cfg : Config).
Context (remote : list HttpRequest → HttpRequest → outcome).

Lemma annotate_eq image_urls acc f :
  annotate image_urls acc f =
    if hashable (node_id f) then Ok (acc ++ [annotated image_urls f])
    else Raise TypeError.
Proof. unfold annotate, annotated, dict_get. by destruct (node_id f). Qed.

Lemma image_entry_eq paths acc f :
  image_entry paths acc f =
    if hashable (node_id f)
    then Ok (if listed paths f then acc ++ [entry_of paths f] else acc)
    else Raise TypeError.
Proof.
  unfold image_entry, entry_of, listed, dict_contains, dict_get.
  destruct (node_id f) as [|b|z|k|l|m]; try done.
  cbn. by destruct (bool_decide _).
Qed.

Lemma annotate_loop image_urls fs acc r :
  for_each (annotate image_urls) fs acc = Ok r →
  r = acc ++ (annotated image_urls <$> fs).
Proof.
  revert acc. induction fs as [|f fs IH]; intros acc; cbn [for_each].
  - intros [= <-]. by rewrite app_nil_r.
  - rewrite annotate_eq. destruct (hashable (node_id f)); [|done].
    cbn [mbind result_bind]. intros ->%IH. by rewrite <- app_assoc.
Qed.

Lemma entry_loop paths fs acc r :
  for_each (image_entry paths) fs acc = Ok r →
  r = acc ++ (entry_of paths <$> filter (λ f, listed paths f = true) fs).
Proof.
  revert acc. induction fs as [|f fs IH]; intros acc; cbn [for_each].
  - intros [= <-]. by rewrite app_nil_r.
  - rewrite image_entry_eq. destruct (hashable (node_id f)); [|done].
    cbn [mbind result_bind]. intros ->%IH.
    destruct (listed paths f) eqn:Hl.
    + rewrite filter_cons_True by done. by rewrite fmap_cons, <- app_assoc.
    + rewrite filter_cons_False by congruence. done.
Qed.

Lemma listed_rendered frames0 image_urls sid w paths dir w' f :
  download_images I cfg remote (annotated image_urls <$> frames0) (JStr sid) w
    = (Ok (paths, dir), w') →
  f ∈ annotated image_urls <$> frames0 →
  listed paths f = true → has_image_url f = true.
Proof.
  intros Hrun Hf Hl.
  apply download_images_inv in Hrun as (w1 & _ & _ & Hloop).
  destruct (download_loop I remote (session_dir cfg sid)
              (annotated image_urls <$> frames0) ∅ w1)
    as (paths' & w2 & Hrun & _ & Hdom).
  rewrite Hloop in Hrun. simplify_eq.
  unfold listed in Hl. destruct (node_id f) as [|b|z|n|l|m] eqn:Hn; try done.
  apply bool_decide_eq_true, elem_of_dom, Hdom in Hl as [Hl|Hl].
  { by apply not_elem_of_empty in Hl. }
  destruct Hl as (k & f' & r & Hk & url & Hu & Hne & _ & _ & Hn' & _).
  apply list_elem_of_lookup_2 in Hk.
  apply list_elem_of_fmap in Hf as (f0 & -> & _).
  apply list_elem_of_fmap in Hk as (f0' & -> & _).
  unfold annotated, has_image_url in *. cbn in *.
  rewrite Hn. rewrite Hn' in Hu. simplify_eq. cbn.
  rewrite Hu. cbn. by rewrite bool_decide_eq_false_2.
Qed.

(** C6.  In a successful run, [total_frames] counts the extracted frames
    whose rendered-image URL is non-empty, a number fixed before the
    download starts; [images] lists, in order, the frames whose node
    identifier is a key of the download path mapping; and a listed frame has
    a non-empty rendered-image URL. *)
Theorem process_figma_success body w r w' :
  serve (process_figma I cfg remote body) w = (Success r, w') →
  ∃ file_key file_data frames0 ids image_urls sid paths w1 w2,
    fetch_figma_file I cfg remote file_key w = (Ok file_data, w1) ∧
    extract_frames file_data = Ok (frames0, ids) ∧
    fetch_figma_frame_images I cfg remote file_key ids 1 (u "png") w1
      = (Ok image_urls, w2) ∧
    let frames := annotated image_urls <$> frames0 in
    download_images I cfg remote frames (JStr sid) w2
      = (Ok (paths, session_folder r), w') ∧
    total_frames r = length (filter (λ f, has_image_url f = true) frames) ∧
    images r = entry_of paths <$> filter (λ f, listed paths f = true) frames ∧
    (∀ f, f ∈ frames → listed paths f = true → has_image_url f = true).
Proof.
  unfold serve, process_figma, try_except.
  match goal with |- context [match ?b w with _ => _ end] =>
    destruct (b w) as [[rep|e] wB] eqn:HB end.
  2:{ cbn. done. }
  intros [= -> ->].
  apply bind_inv in HB as (data & w0 & Hdata & HB).
  apply bind_inv in HB as (missing & w0' & Hmissing & HB).
  apply bind_inv in HB as ([] & w0'' & Hgate & HB).
  apply bind_inv in HB as (figma_url & wa & Hurl & HB).
  apply bind_inv in HB as (session_id & wb & Hsid & HB).
  apply bind_inv in HB as (file_key & wc & Hkey & HB).
  apply bind_inv in HB as (file_data & w1 & Hfile & HB).
  apply bind_inv in HB as ([frames0 ids] & w1' & Hframes & HB).
  apply lift_inv in Hframes as [Hframes ->].
  apply bind_inv in HB as (image_urls & w2 & Himgs & HB).
  apply bind_inv in HB as (frames & w2' & Hann & HB).
  apply lift_inv in Hann as [Hann ->]. apply annotate_loop in Hann as ->.
  rewrite app_nil_l in HB.
  apply bind_inv in HB as ([paths dir] & w3 & Hdl & HB).
  apply bind_inv in HB as (imgs & w3' & Hentries & HB).
  apply lift_inv in Hentries as [Hentries ->]. apply entry_loop in Hentries as ->.
  injection HB as <- <-. cbn [total_frames images session_folder].
  assert (∃ sid, session_id = JStr sid) as [sid ->].
  { unfold download_images, mbind, M_bind in Hdl.
    destruct (os_makedirs _ w2) as [[[]|?] ?]; [|done].
    unfold lift, as_str in Hdl. destruct session_id; try done. eauto. }
  exists file_key, file_data, frames0, ids, image_urls, sid, paths, w1, w2.
  assert (wc = w) as ->.
  { apply lift_inv in Hdata as [_ ->], Hurl as [_ ->], Hsid as [_ ->],
      Hkey as [_ ->].
    destruct missing; [done|]. injection Hgate as ->.
    destruct (truthy data); cbn in Hmissing; [|by injection Hmissing].
    apply bind_inv in Hmissing as (has_url & wx & [_ ->]%lift_inv & Hmissing).
    destruct has_url; cbn in Hmissing; [|by injection Hmissing].
    by apply bind_inv in Hmissing as (has_sid & wy & [_ ->]%lift_inv & [= _ ->]). }
  split_and!; try done.
  intros f. by eapply listed_rendered.
Qed.

Lemma process_figma_missing data w :
  missing_fields data →
  serve (process_figma I cfg remote (Ok data)) w =
    (ErrorReply 500 (u "400 Bad Request: Missing figma_url or session_id"),
     set_logged
       (logged w ++
          [(ERROR, u "Error processing Figma URL: 400 Bad Request: Missing figma_url or session_id")])
       w).
Proof.
  intros Hmiss. unfold serve, process_figma, try_except.
  assert (∀ w0, (if negb (truthy data) then mret true
           else has_url ← lift (py_contains data (u "figma_url"));
                if negb has_url : bool then mret true
                else has_sid ← lift (py_contains data (u "session_id"));
                     mret (negb has_sid)) w0 = (Ok true, w0)) as Hgate.
  { intros w0. destruct Hmiss as [Hf|(m & -> & Hm)].
    - by rewrite Hf.
    - destruct (truthy (JObj m)); [|done]. cbn.
      destruct Hm as [Hm|Hm].
      + by rewrite Hm.
      + rewrite Hm. by destruct (m !! u "figma_url"). }
  unfold mbind at 1, M_bind at 1. cbn [lift].
  unfold mbind at 1, M_bind at 1. rewrite Hgate.
  reflexivity.
Qed.

(** C1 fails on the code.  A body without [session_id] is not answered with
    status 400: [abort(400)] raises inside the [try] block, the handler for
    [Exception] catches it and aborts with 500, and the description becomes
    the text of the caught exception.  No request is made and the disk is
    left alone. *)
Theorem missing_session_id_answers_500 w :
  serve (process_figma I cfg remote (Ok body_without_session)) w =
    (ErrorReply 500 (u "400 Bad Request: Missing figma_url or session_id"),
     set_logged
       (logged w ++
          [(ERROR, u "Error processing Figma URL: 400 Bad Request: Missing figma_url or session_id")])
       w).
Proof.
  apply process_figma_missing. right. eexists. split; [reflexivity|].
  right. vm_compute. reflexivity.
Qed.
End Process.

(** * Effects, failures and round trips

    Properties of the code that the specification does not state. *)

(** ** Running computations, forwards *)

Lemma bind_ok {A B : Type} (m : M A) (f : A → M B) w a w1 :
  m w = (Ok a, w1) → (m ≫= f) w = f a w1.
Proof. intros H. unfold mbind, M_bind. by rewrite H. Qed.

Lemma bind_raise {A B : Type} (m : M A) (f : A → M B) w e w1 :
  m w = (Raise e, w1) → (m ≫= f) w = (Raise e, w1).
Proof. intros H. unfold mbind, M_bind. by rewrite H. Qed.

Lemma lift_run {A : Type} (r : result A) w : lift r w = (r, w).
Proof. reflexivity. Qed.

Lemma mret_run {A : Type} (a : A) (w : World) : (mret a : M A) w = (Ok a, w).
Proof. reflexivity. Qed.

Lemma serve_world (view : M reply) w : (serve view w).2 = (view w).2.
Proof. unfold serve. by destruct (view w) as [[r|[]] w']. Qed.

Lemma yields_bind {A B : Type} (P : B → Prop) (m : M A) (f : A → M B) :
  (∀ a, yields P (f a)) → yields P (m ≫= f).
Proof.
  intros Hf w b w' (a & w1 & _ & Hrun)%bind_inv. by eapply Hf.
Qed.

Lemma yields_ret {A : Type} (P : A → Prop) (a : A) : P a → yields P (mret a).
Proof. intros Ha w b w' [= <- _]. exact Ha. Qed.

(** ** The identifier extractor, read backwards *)



(** ** The fetcher and the renderer on any answer and any identifiers *)

Lemma comma_join_non_string batch v :
  v ∈ batch → (∀ s, v ≠ JStr s) → comma_join batch = Raise TypeError.
Proof.
  intros Hin Hv. induction batch as [|x rest IH]; [by apply elem_of_nil in Hin|].
  destruct x as [|b|z|s|l|m]; try done.
  apply elem_of_cons in Hin as [->|Hin]; [by destruct (Hv s)|].
  cbn [comma_join]. rewrite (IH Hin). destruct rest; [|done].
  by apply elem_of_nil in Hin.
Qed.

Lemma for_each_must_raise {A S : Type} (body : S → A → M S) items i acc w :
  i ∈ items → (∀ acc w, ∃ e w', body acc i w = (Raise e, w')) →
  ∃ e w', for_each body items acc w = (Raise e, w').
Proof.
  intros Hin Hi. revert acc w. induction items as [|x items IH]; intros acc w.
  { by apply elem_of_nil in Hin. }
  destruct (body acc x w) as [[acc1|e] w1] eqn:Hx.
  - rewrite (for_each_step _ _ _ _ _ _ _ Hx).
    apply elem_of_cons in Hin as [->|Hin]; [|by apply IH].
    destruct (Hi acc w) as (e & w' & He). congruence.
  - rewrite (for_each_raise _ _ _ _ _ _ _ Hx). eauto.
Qed.

Section Calls.
Context (I : Interp) (cfg : Config).
Context (remote : list HttpRequest → HttpRequest → outcome).

Lemma fetch_figma_file_attempts file_key w :
  attempts (fetch_figma_file I cfg remote file_key w).2 =
    attempts w ++ [file_request cfg file_key].
Proof.
  unfold fetch_figma_file, try_except, mbind, M_bind.
  rewrite requests_get_str by (by apply api_url_nonempty).
  unfold figma_headers. fold (file_request cfg file_key). cbn zeta.
  destruct (remote (attempts w) (file_request cfg file_key)) as [r|msg]; [|done].
  destruct (status_code r =? 403)%Z; [done|].
  destruct (status_code r =? 200)%Z; [|done]. cbn. unfold lift.
  destruct (json_body r) as [j|e]; [done|].
  by destruct (is_RequestException e).
Qed.

(** X2.  A response with status 200 whose body cannot be parsed makes the
    document fetch fail after its one request.  When [response.json()]
    raises a [RequestException] (the JSON decoding error of [requests]), the
    handler for transport failures catches it: the fetch logs and raises
    ["Network error: ..."] with the text of the decoding error.  Any other
    exception leaves the function as it is, and nothing is logged. *)
Theorem fetch_figma_file_unparsed file_key w r e :
  let req := file_request cfg file_key in
  remote (attempts w) req = Responded r →
  status_code r = 200%Z → json_body r = Raise e →
  fetch_figma_file I cfg remote file_key w =
    if is_RequestException e
    then (Raise (Exception (u "Network error: " ++ str_of_exn I e)),
          set_logged (logged w ++ [(ERROR, u "Network error: " ++ str_of_exn I e)])
            (sent [req] w))
    else (Raise e, sent [req] w).
Proof.
  intros req Hr Hs Hj. unfold fetch_figma_file, try_except, mbind, M_bind.
  rewrite requests_get_str by (by apply api_url_nonempty).
  unfold figma_headers. fold (file_request cfg file_key). fold req. cbn zeta.
  rewrite Hr, Hs. cbn. unfold lift. rewrite Hj.
  by destruct (is_RequestException e).
Qed.

Lemma render_batch_effect file_key ids scale format acc i w :
  ∃ reqs,
    (render_batch I cfg remote file_key ids scale format acc i w).2 = sent reqs w ∧
    length reqs ≤ 1 ∧
    Forall (is_render_request cfg file_key scale format) reqs.
Proof.
  unfold render_batch.
  destruct (comma_join (py_slice ids i (i + max_ids_per_request)))
    as [joined|e] eqn:Hjoin.
  2:{ exists []. rewrite sent_nil. unfold mbind, M_bind, lift.
      split_and!; [done|cbn; lia|constructor]. }
  rewrite (bind_ok _ _ _ _ _ (lift_run _ _)).
  exists [{| req_url := BASE_URL cfg ++ u "/images/" ++ file_key;
             req_headers := figma_headers cfg;
             req_params := render_params joined scale format |}].
  split_and!; [|done|constructor; [|constructor]; split_and!; eauto].
  unfold try_except, mbind, M_bind.
  rewrite requests_get_str by (by apply api_url_nonempty). cbn zeta.
  destruct (remote _ _) as [r|msg]; [|done].
  destruct (status_code r =? 403)%Z; [done|].
  destruct (status_code r =? 200)%Z; [|done]. cbn. unfold lift.
  destruct (json_body r) as [data|e]; [|by destruct (is_RequestException e)].
  destruct (py_get data (u "err") JNull) as [err|e];
    [|by destruct (is_RequestException e)].
  destruct (truthy err); [done|].
  destruct (py_get data (u "images") (JObj ∅)) as [imgs|e];
    [|by destruct (is_RequestException e)].
  destruct (dict_update acc imgs) as [m|e]; [done|].
  by destruct (is_RequestException e).
Qed.

Lemma render_loop_effect file_key ids scale format idxs acc w :
  ∃ reqs,
    (for_each (render_batch I cfg remote file_key ids scale format) idxs acc w).2
      = sent reqs w ∧
    length reqs ≤ length idxs ∧
    Forall (is_render_request cfg file_key scale format) reqs.
Proof.
  revert acc w. induction idxs as [|i idxs IH]; intros acc w.
  - exists []. rewrite sent_nil. split_and!; [done|done|constructor].
  - destruct (render_batch_effect file_key ids scale format acc i w)
      as (r1 & Hw1 & Hlen1 & Hok1).
    destruct (render_batch I cfg remote file_key ids scale format acc i w)
      as [[acc1|e] w1] eqn:Hrun; cbn [snd] in Hw1; subst w1.
    + rewrite (for_each_step _ _ _ _ _ _ _ Hrun).
      destruct (IH acc1 (sent r1 w)) as (r2 & Hw2 & Hlen2 & Hok2).
      exists (r1 ++ r2). rewrite Hw2, sent_sent, length_app.
      split_and!; [done|cbn; lia|by apply Forall_app].
    + rewrite (for_each_raise _ _ _ _ _ _ _ Hrun).
      exists r1. split_and!; [done|cbn; lia|done].
Qed.

(** X3.  Whatever the identifiers are and whatever the server answers, the
    batch renderer does nothing but make requests: it writes no log record
    and leaves the disk alone, also when it fails.  It makes at most one
    request per chunk, and each goes to the images endpoint of the file with
    the token header and the parameters [ids], [scale], [format] and
    [use_absolute_bounds]. *)
Theorem render_only_requests file_key (ids : list json) scale format w :
  ∃ reqs,
    (fetch_figma_frame_images I cfg remote file_key ids scale format w).2
      = sent reqs w ∧
    length reqs ≤ length (batches ids) ∧
    Forall (is_render_request cfg file_key scale format) reqs.
Proof.
  unfold fetch_figma_frame_images, batches. rewrite length_fmap.
  apply render_loop_effect.
Qed.

Lemma render_batch_non_string file_key ids scale format acc i w v :
  v ∈ py_slice ids i (i + max_ids_per_request) → (∀ s, v ≠ JStr s) →
  render_batch I cfg remote file_key ids scale format acc i w = (Raise TypeError, w).
Proof.
  intros Hin Hv. unfold render_batch.
  by rewrite (comma_join_non_string _ _ Hin Hv).
Qed.

(** X4.  An identifier that is not a string (a frame whose ["id"] is a
    number, say) makes batch rendering fail: [",".join] raises [TypeError]
    for its chunk, so no mapping is ever returned.  When the identifier is
    among the first 100, the failure comes before any request is made and
    the world is left as it was. *)
Theorem render_rejects_non_strings file_key ids scale format w v :
  v ∈ ids → (∀ s, v ≠ JStr s) →
  ∃ e w',
    fetch_figma_frame_images I cfg remote file_key ids scale format w
      = (Raise e, w') ∧
    (v ∈ take max_ids_per_request ids → e = TypeError ∧ w' = w).
Proof.
  intros Hin Hv. unfold fetch_figma_frame_images.
  assert (∃ i, i ∈ py_range (length ids) max_ids_per_request ∧
               v ∈ py_slice ids i (i + max_ids_per_request)) as (i & Hi & Hvi).
  { rewrite <- (batches_concat ids) in Hin.
    apply list_elem_of_In, in_concat in Hin as (batch & Hb & Hvb).
    apply list_elem_of_In in Hb, Hvb.
    apply list_elem_of_fmap in Hb as (i & -> & Hi). eauto. }
  destruct (for_each_must_raise
              (render_batch I cfg remote file_key ids scale format) _ i ∅ w Hi)
    as (e & w' & Hrun).
  { intros acc w0. eexists _, _. by eapply render_batch_non_string. }
  exists e, w'. split; [done|]. intros Hfirst.
  destruct ids as [|x ids]; [by apply elem_of_nil in Hin|].
  change (py_range (length (x :: ids)) max_ids_per_request) with
    (0 :: range_from (length ids) (0 + max_ids_per_request) (length (x :: ids))
            max_ids_per_request) in Hrun.
  rewrite (for_each_raise _ _ _ _ _ TypeError w) in Hrun.
  - by injection Hrun as <- <-.
  - apply render_batch_non_string with v; [|done].
    unfold py_slice. by rewrite Nat.sub_0_r, drop_0.
Qed.

(** X18.  A rendering answer with status 200 whose body is JSON of the wrong
    kind is not reported as an API or network error: the error of the
    interpreter leaves the renderer as it is.  A body that is not an object
    gives [AttributeError] (it has no [get]); an object without error whose
    ["images"] is [null], a boolean or a number gives [TypeError] (it cannot
    be merged into the mapping).  The request was made, nothing is
    returned. *)
Theorem render_malformed_answer file_key (ids : list str) scale format w r v :
  let req := render_request cfg file_key scale format
               (take max_ids_per_request ids) in
  let run := fetch_figma_frame_images I cfg remote file_key (JStr <$> ids)
               scale format w in
  ids ≠ [] →
  remote (attempts w) req = Responded r →
  status_code r = 200%Z → json_body r = Ok v →
  match v with
  | JObj d =>
      truthy (default JNull (d !! u "err")) = false →
      not_iterable (default (JObj ∅) (d !! u "images")) = true →
      run = (Raise TypeError, sent [req] w)
  | _ => run = (Raise AttributeError, sent [req] w)
  end.
Proof.
  intros req run Hne Hr Hs Hj. subst run. unfold fetch_figma_frame_images.
  destruct ids as [|x ids]; [done|]. rewrite length_fmap.
  change (py_range (length (x :: ids)) max_ids_per_request) with
    (0 :: range_from (length ids) (0 + max_ids_per_request) (length (x :: ids))
            max_ids_per_request).
  set (ids' := x :: ids) in *.
  assert (py_slice ids' 0 (0 + max_ids_per_request) = take max_ids_per_request ids')
    as Hslice by (unfold py_slice; by rewrite Nat.sub_0_r, drop_0).
  assert (∀ e,
    (∀ acc,
       render_batch I cfg remote file_key (JStr <$> ids') scale format acc 0 w
         = (Raise e, sent [req] w)) →
    for_each (render_batch I cfg remote file_key (JStr <$> ids') scale format)
      (0 :: range_from (length ids) (0 + max_ids_per_request) (length ids')
              max_ids_per_request) ∅ w = (Raise e, sent [req] w)) as Hloop.
  { intros e He. by rewrite (for_each_raise _ _ _ _ _ _ _ (He ∅)). }
  assert (∀ acc,
    render_batch I cfg remote file_key (JStr <$> ids') scale format acc 0 w =
      try_except
        (data ← lift (Ok v);
         err ← lift (py_get data (u "err") JNull);
         if truthy err then
           raise (Exception (u "Image rendering error: " ++ format_value I err))
         else
           imgs ← lift (py_get data (u "images") (JObj ∅));
           lift (dict_update acc imgs))
        is_RequestException
        (λ e, raise (Exception (u "Network error: " ++ str_of_exn I e)))
        (sent [req] w)) as Hbatch.
  { intros acc. unfold render_batch.
    rewrite py_slice_fmap, comma_join_strs, Hslice.
    unfold try_except, mbind at 1, M_bind at 1, lift at 1. cbn iota beta.
    unfold mbind at 1. unfold M_bind at 1.
    rewrite requests_get_str by (by apply api_url_nonempty).
    unfold figma_headers, render_params.
    fold (render_request cfg file_key scale format
            (take max_ids_per_request ids')). fold req. cbn zeta.
    rewrite Hr, Hs, Hj. reflexivity. }
  destruct v as [|b|z|s|l|d]; try (apply Hloop; intros acc; by rewrite Hbatch).
  intros Herr Himgs. apply Hloop. intros acc. rewrite Hbatch.
  unfold try_except. rewrite (bind_ok _ _ _ _ _ (lift_run _ _)).
  cbn [py_get]. rewrite (bind_ok _ _ _ _ _ (lift_run _ _)), Herr.
  rewrite (bind_ok _ _ _ _ _ (lift_run _ _)).
  by destruct (default (JObj ∅) (d !! u "images")).
Qed.
End Calls.

(** ** The frame extractor on arbitrary JSON *)

Section Extracted.
Local Abbreviation fresh :=
  (Forall (λ f, type_ f = u "FRAME" ∧ image_url f = None)).

Lemma extract_child_inv acc c acc' :
  extract_child acc c = Ok acc' →
  ∃ new, acc' = (acc.1 ++ new, acc.2 ++ ids_of new) ∧ fresh new.
Proof.
  destruct c as [|b|z|s|l|m]; try done.
  rewrite extract_child_obj. destruct (is_frame (JObj m)); intros [= <-].
  - exists [frame_of (JObj m)]. split; [done|]. by constructor.
  - exists []. destruct acc. unfold ids_of. cbn. by rewrite !app_nil_r.
Qed.

Lemma extract_loop_inv {A : Type}
    (body : list Frame * list json → A → result (list Frame * list json))
    items acc acc' :
  (∀ acc x acc', body acc x = Ok acc' →
     ∃ new, acc' = (acc.1 ++ new, acc.2 ++ ids_of new) ∧ fresh new) →
  for_each body items acc = Ok acc' →
  ∃ new, acc' = (acc.1 ++ new, acc.2 ++ ids_of new) ∧ fresh new.
Proof.
  intros Hbody. revert acc. induction items as [|x items IH]; intros acc.
  - intros [= <-]. exists []. destruct acc. unfold ids_of. cbn.
    by rewrite !app_nil_r.
  - cbn [for_each]. destruct (body acc x) as [acc1|e] eqn:Hx; [|done].
    cbn [mbind result_bind]. intros Hrest.
    destruct (Hbody _ _ _ Hx) as (n1 & -> & H1).
    destruct (IH _ Hrest) as (n2 & -> & H2). cbn [fst snd].
    exists (n1 ++ n2). rewrite ids_of_app, <- !app_assoc. split; [done|].
    by apply Forall_app.
Qed.

Lemma extract_page_inv acc page acc' :
  extract_page acc page = Ok acc' →
  ∃ new, acc' = (acc.1 ++ new, acc.2 ++ ids_of new) ∧ fresh new.
Proof.
  unfold extract_page.
  destruct (py_get page (u "children") (JArr [])) as [children|e]; [|done].
  cbn [mbind result_bind].
  destruct (py_iter children) as [items|e]; [|done].
  cbn [mbind result_bind]. apply extract_loop_inv, extract_child_inv.
Qed.

Lemma extract_frames_inv file_data frames ids :
  extract_frames file_data = Ok (frames, ids) →
  ids = ids_of frames ∧ fresh frames.
Proof.
  unfold extract_frames.
  destruct (py_get file_data (u "document") (JObj ∅)) as [document|e]; [|done].
  cbn [mbind result_bind].
  destruct (py_get document (u "children") (JArr [])) as [pages|e]; [|done].
  cbn [mbind result_bind].
  destruct (py_iter pages) as [items|e]; [|done].
  cbn [mbind result_bind]. intros Hloop.
  apply (extract_loop_inv _ _ _ _ extract_page_inv) in Hloop
    as (new & [= -> ->] & Hnew).
  done.
Qed.

Lemma ids_of_length frames : length (ids_of frames) ≤ length frames.
Proof. unfold ids_of. rewrite length_fmap. apply length_filter. Qed.

(** X5.  Whatever JSON the extractor is given, when it returns, its two
    results fit together: the identifier list holds exactly the
    identifiers of the returned frames that are not empty, in the order of
    the frames, so it is never longer than the frame list; and every
    returned frame has the kind ["FRAME"] and no ["image_url"] key yet. *)
Theorem extract_frames_invariant file_data frames ids :
  extract_frames file_data = Ok (frames, ids) →
  ids = ids_of frames ∧
  Forall (λ f, type_ f = u "FRAME" ∧ image_url f = None) frames ∧
  length ids ≤ length frames.
Proof.
  intros [-> Hfresh]%extract_frames_inv. split_and!; [done|done|].
  apply ids_of_length.
Qed.
End Extracted.

(** ** The downloader and the image server, continued *)

Lemma os_makedirs_attempts p w : attempts (os_makedirs p w).2 = attempts w.
Proof.
  unfold os_makedirs. by repeat (case_match; try done).
Qed.

Lemma os_makedirs_logged p w : logged (os_makedirs p w).2 = logged w.
Proof.
  unfold os_makedirs. by repeat (case_match; try done).
Qed.

Lemma join2_absolute d rest : join2 d (SEP :: rest) = SEP :: rest.
Proof.
  unfold join2.
  assert (startswith [SEP] (SEP :: rest) = true) as ->; [|done].
  apply startswith_spec. by exists rest.
Qed.

Lemma for_each_snoc {A S : Type} (body : S → A → M S) items x acc w acc1 w1 :
  for_each body items acc w = (Ok acc1, w1) →
  (for_each body (items ++ [x]) acc w).2 = (body acc1 x w1).2.
Proof.
  revert acc w. induction items as [|y items IH]; intros acc w.
  - intros [= -> ->]. cbn [app for_each]. unfold mbind, M_bind.
    by destruct (body acc1 x w1) as [[a|e] w2].
  - intros H. rewrite <- app_comm_cons.
    destruct (body acc y w) as [[a|e] w2] eqn:Hy.
    + rewrite (for_each_step _ _ _ _ _ _ _ Hy) in H.
      rewrite (for_each_step _ _ _ _ _ _ _ Hy). by apply IH.
    + by rewrite (for_each_raise _ _ _ _ _ _ _ Hy) in H.
Qed.

Section Stored.
Context (I : Interp) (cfg : Config).
Context (remote : list HttpRequest → HttpRequest → outcome).

Lemma download_dirs_attempts sid w :
  attempts (download_dirs cfg sid w).2 = attempts w.
Proof.
  unfold download_dirs, mbind, M_bind.
  pose proof (os_makedirs_attempts (frame_folder cfg) w) as H1.
  destruct (os_makedirs (frame_folder cfg) w) as [[[]|e] w1]; [|done].
  by rewrite os_makedirs_attempts.
Qed.

Lemma download_frame_attempts dir acc f w :
  attempts (download_frame I remote dir acc f w).2 =
    attempts w ++ image_requests f.
Proof.
  unfold download_frame, image_requests.
  destruct (image_url f) as [url|]; [|by rewrite app_nil_r].
  unfold try_except, mbind, M_bind, requests_get.
  destruct url as [|b|z|[|c url]|l|m]; cbn; try by rewrite app_nil_r.
  destruct (remote (attempts w) _) as [r|msg]; cbn; [|done].
  destruct (status_code r =? 200)%Z; cbn; [|done].
  destruct (as_str (node_id f)) as [n|e]; cbn; [|done].
  set (w1 := set_attempts _ w).
  destruct (can_write (os_path_join dir [sanitize I n ++ u ".png"]) w1) eqn:Hw.
  - by rewrite (open_write_ok _ _ _ Hw).
  - by destruct (open_write_fail _ (content r) _ Hw) as [e ->].
Qed.

Lemma download_loop_attempts dir frames acc w :
  attempts (for_each (download_frame I remote dir) frames acc w).2 =
    attempts w ++ mjoin (image_requests <$> frames).
Proof.
  revert acc w. induction frames as [|f frames IH]; intros acc w.
  - cbn. by rewrite app_nil_r.
  - destruct (download_frame_total I remote dir acc f w) as (acc1 & w1 & Heq).
    rewrite (for_each_step _ _ _ _ _ _ _ Heq), IH.
    pose proof (download_frame_attempts dir acc f w) as H1.
    rewrite Heq in H1. cbn [snd] in H1. rewrite H1. cbn. by rewrite app_assoc.
Qed.

(** X6.  Once its two directories exist, the downloader calls
    [requests.get] with a URL that is a non-empty string exactly once for
    every frame whose ["image_url"] is such a string, in the order of the
    frames, handing over that URL and neither headers nor parameters; it
    makes no other such call: a failed download is not tried again, and a
    frame without URL costs none.  This counts the calls the downloader
    makes, not what [requests] sends: a URL that [requests] cannot prepare
    is refused inside the call, which [remote] answers with a failure. *)
Theorem download_images_requests frames sid w w1 :
  download_dirs cfg sid w = (Ok (), w1) →
  attempts (download_images I cfg remote frames (JStr sid) w).2 =
    attempts w ++ mjoin (image_requests <$> frames).
Proof.
  intros Hdirs. rewrite (download_images_run I cfg remote _ _ _ _ Hdirs).
  pose proof (download_loop_attempts (session_dir cfg sid) frames ∅ w1) as Hloop.
  pose proof (download_dirs_attempts sid w) as H1.
  rewrite Hdirs in H1. cbn [snd] in H1. rewrite <- H1, <- Hloop.
  by destruct (for_each (download_frame I remote (session_dir cfg sid)) frames ∅ w1)
    as [[paths|e] w2].
Qed.

Lemma download_dirs_logged sid w : logged (download_dirs cfg sid w).2 = logged w.
Proof.
  unfold download_dirs, mbind, M_bind.
  pose proof (os_makedirs_logged (frame_folder cfg) w) as H1.
  destruct (os_makedirs (frame_folder cfg) w) as [[[]|e] w1]; [|done].
  by rewrite os_makedirs_logged.
Qed.

Lemma download_frame_logged dir acc f w :
  ∃ logs,
    logged (download_frame I remote dir acc f w).2 = logged w ++ logs ∧
    length logs = if has_url_key f then 1 else 0.
Proof.
  unfold download_frame, has_url_key.
  destruct (image_url f) as [url|]; [|exists []; by rewrite app_nil_r].
  unfold try_except, mbind, M_bind, requests_get.
  destruct url as [|b|z|[|c url]|l|m]; cbn; try by eexists [_].
  destruct (remote (attempts w) _) as [r|msg]; cbn; [|by eexists [_]].
  destruct (status_code r =? 200)%Z; cbn; [|by eexists [_]].
  destruct (as_str (node_id f)) as [n|e]; cbn; [|by eexists [_]].
  set (w1 := set_attempts _ w).
  destruct (can_write (os_path_join dir [sanitize I n ++ u ".png"]) w1) eqn:Hw.
  - rewrite (open_write_ok _ _ _ Hw). by eexists [_].
  - destruct (open_write_fail _ (content r) _ Hw) as [e ->]. by eexists [_].
Qed.

Lemma download_loop_logged dir frames acc w :
  ∃ logs,
    logged (for_each (download_frame I remote dir) frames acc w).2
      = logged w ++ logs ∧
    length logs = length (filter (λ f, has_url_key f = true) frames).
Proof.
  revert acc w. induction frames as [|f frames IH]; intros acc w.
  - exists []. by rewrite app_nil_r.
  - destruct (download_frame_total I remote dir acc f w) as (acc1 & w1 & Heq).
    rewrite (for_each_step _ _ _ _ _ _ _ Heq).
    destruct (download_frame_logged dir acc f w) as (l1 & H1 & Hlen1).
    rewrite Heq in H1. cbn [snd] in H1.
    destruct (IH acc1 w1) as (l2 & H2 & Hlen2).
    exists (l1 ++ l2). rewrite H2, H1, app_assoc, length_app. split; [done|].
    destruct (has_url_key f) eqn:Hf.
    + rewrite filter_cons_True by done. cbn. lia.
    + rewrite filter_cons_False by congruence. lia.
Qed.

Lemma download_frame_level dir acc f w :
  match image_url f with
  | None => logged (download_frame I remote dir acc f w).2 = logged w
  | Some _ =>
      ∃ lvl msg,
        logged (download_frame I remote dir acc f w).2 = logged w ++ [(lvl, msg)] ∧
        download_level I remote dir f w lvl
  end.
Proof.
  unfold download_frame.
  destruct (image_url f) as [url|] eqn:Hurl; [|done].
  unfold try_except, mbind, M_bind, requests_get.
  destruct url as [|b|z|[|c url]|l|m]; cbn;
    try (eexists ERROR, _; split; [done|]; apply level_error;
         eexists; split; [exact Hurl|done]).
  destruct (remote (attempts w) _) as [r|msg] eqn:Hr; cbn.
  2:{ eexists ERROR, _. split; [done|]. apply level_error.
      eexists. split; [exact Hurl|]. cbv beta iota. unfold download_request. by rewrite Hr. }
  destruct (status_code r =? 200)%Z eqn:Hs; cbn.
  2:{ apply Z.eqb_neq in Hs. eexists WARNING, _. split; [done|].
      by eapply level_warning. }
  apply Z.eqb_eq in Hs.
  destruct (node_id f) as [|b|z|n|l|m] eqn:Hn; cbn;
    try (eexists ERROR, _; split; [done|]; apply level_error;
         eexists; split; [exact Hurl|];
         cbv beta iota; unfold download_request; rewrite Hr;
         (split; [done|]); intros n' Hn'; congruence).
  set (w1 := set_attempts _ w).
  destruct (can_write (os_path_join dir [sanitize I n ++ u ".png"]) w1) eqn:Hw.
  - rewrite (open_write_ok _ _ _ Hw). cbn. eexists DEBUG, _. split; [done|].
    apply level_debug with n r. exists (c :: url). split_and!; try done.
    rewrite <- Hw. by apply can_write_ext.
  - destruct (open_write_fail _ (content r) _ Hw) as [e ->]. cbn.
    eexists ERROR, _. split; [done|]. apply level_error.
    eexists. split; [exact Hurl|]. cbv beta iota. unfold download_request. rewrite Hr.
    split; [done|]. intros n' Hn'. rewrite Hn in Hn'. injection Hn' as <-.
    rewrite <- Hw. by apply can_write_ext.
Qed.

Lemma world_before_step dir frames w k f :
  frames !! k = Some f →
  ∃ acc,
    world_before I remote dir frames w (S k) =
      (download_frame I remote dir acc f (world_before I remote dir frames w k)).2.
Proof.
  intros Hk. unfold world_before. rewrite (take_S_r _ _ _ Hk).
  destruct (download_loop I remote dir (take k frames) ∅ w)
    as (acc & w' & Hrun & _).
  exists acc. rewrite (for_each_snoc _ _ _ _ _ _ _ Hrun). by rewrite Hrun.
Qed.

(** X19.  Once its two directories exist, the downloader calls the logger
    exactly once for every frame that has an ["image_url"] key and never
    for a frame without the key, and creating the directories logs nothing.
    The record of a frame is written at DEBUG when its image was downloaded
    and stored, at WARNING when the answer had another status than 200, and
    at ERROR when an exception was caught: the URL was refused, the
    transport failed, the node identifier is no string, or the file could
    not be written. *)
Theorem download_images_logs frames sid w w1 :
  download_dirs cfg sid w = (Ok (), w1) →
  let dir := session_dir cfg sid in
  let before := world_before I remote dir frames w1 in
  logged (before 0) = logged w ∧
  (download_images I cfg remote frames (JStr sid) w).2 = before (length frames) ∧
  (∀ k f, frames !! k = Some f →
     match image_url f with
     | None => logged (before (S k)) = logged (before k)
     | Some _ =>
         ∃ lvl msg,
           logged (before (S k)) = logged (before k) ++ [(lvl, msg)] ∧
           download_level I remote dir f (before k) lvl
     end) ∧
  ∃ logs,
    logged (download_images I cfg remote frames (JStr sid) w).2
      = logged w ++ logs ∧
    length logs = length (filter (λ f, has_url_key f = true) frames).
Proof.
  intros Hdirs dir before.
  pose proof (download_dirs_logged sid w) as H1.
  rewrite Hdirs in H1. cbn [snd] in H1.
  assert ((download_images I cfg remote frames (JStr sid) w).2
          = (for_each (download_frame I remote dir) frames ∅ w1).2) as Hrun.
  { rewrite (download_images_run I cfg remote _ _ _ _ Hdirs). subst dir.
    by destruct (for_each (download_frame I remote (session_dir cfg sid)) frames ∅ w1)
      as [[paths|e] w2]. }
  split_and!.
  - exact H1.
  - rewrite Hrun. subst before. unfold world_before. by rewrite firstn_all.
  - intros k f Hk. subst before.
    destruct (world_before_step dir frames w1 k f Hk) as (acc & ->).
    apply download_frame_level.
  - rewrite Hrun, <- H1.
    destruct (download_loop_logged dir frames ∅ w1) as (logs & Hl & Hlen).
    eauto.
Qed.

(** X7.  A frame that was not rendered is not skipped silently.  The
    annotation step of [process_figma] gives every frame an ["image_url"]
    key, so the test ["image_url" not in frame] of the downloader never
    holds for its frames.  For a frame whose URL is empty (no URL in the
    rendering answer, or [null]), [requests.get] refuses the URL before
    anything is sent; the downloader logs that error at level ERROR and goes
    on, the mapping and the disk unchanged. *)
Theorem unrendered_frame_logged image_urls frames0 frames f dir acc w :
  for_each (annotate image_urls) frames0 [] = Ok frames →
  f ∈ frames → has_image_url f = false →
  ∃ url,
    image_url f = Some url ∧
    download_frame I remote dir acc f w =
      (Ok acc,
       set_logged
         (logged w ++
            [(ERROR, u "Error downloading image for frame '"
                       ++ format_value I (name f) ++ u "': "
                       ++ missing_schema_text I url)]) w).
Proof.
  intros ->%annotate_loop Hf Hurl. rewrite app_nil_l in Hf.
  apply list_elem_of_fmap in Hf as (f0 & -> & _).
  unfold has_image_url in Hurl. unfold download_frame.
  destruct (image_url (annotated image_urls f0)) as [url|] eqn:Hu; [|done].
  exists url. split; [done|].
  unfold try_except, mbind, M_bind, requests_get.
  by destruct url as [|b|z|[|c s]|l|m].
Qed.

(** X8.  The session identifier goes into the path as it is.  When it
    starts with the path separator, [os.path.join] drops the upload folder:
    the session directory is the session identifier itself, the downloader
    returns it as the session folder and records every image directly under
    it, and the image server reads from there. *)
Theorem session_id_absolute rest :
  let sid := SEP :: rest in
  session_dir cfg sid = sid ∧
  (∀ n, image_path I cfg sid n = os_path_join sid [file_name I n]) ∧
  (∀ frames w paths dir w',
     download_images I cfg remote frames (JStr sid) w = (Ok (paths, dir), w') →
     dir = sid ∧
     ∀ n p, paths !! n = Some p → p = os_path_join sid [file_name I n]).
Proof.
  intros sid.
  assert (session_dir cfg sid = sid) as Hdir.
  { unfold session_dir, os_path_join. cbn [foldl]. apply join2_absolute. }
  split_and!; [done|..].
  - intros n. by rewrite image_path_eq, Hdir.
  - intros frames w paths dir w' Hrun.
    apply download_images_inv in Hrun as (w1 & _ & -> & Hloop).
    split; [done|]. intros n p Hp.
    destruct (download_loop I remote (session_dir cfg sid) frames ∅ w1)
      as (paths' & w2 & Hrun & Hst & _).
    rewrite Hloop in Hrun. simplify_eq.
    destruct (Hst ltac:(by intros ? ? ?) n p Hp) as (-> & _). by rewrite Hdir.
Qed.

Lemma sanitize_fixed s :
  Forall (λ c, is_safe I c = true) s → sanitize I s = s.
Proof.
  unfold sanitize. induction 1 as [|c s Hc _ IH]; [done|].
  cbn [fmap list_fmap]. rewrite Hc. f_equal. exact IH.
Qed.

(** X9.  Sanitizing twice is sanitizing once, and the identifiers the
    sanitizer leaves alone are exactly those made of word characters,
    hyphens, underscores and periods.  Hence a node identifier and its
    sanitized form share one image path in every session: two different
    identifiers can name the same file. *)
Theorem sanitize_idempotent node_id :
  sanitize I (sanitize I node_id) = sanitize I node_id ∧
  (sanitize I node_id = node_id ↔ Forall (λ c, is_safe I c = true) node_id) ∧
  (∀ s, image_path I cfg s (sanitize I node_id) = image_path I cfg s node_id).
Proof.
  pose proof (sanitize_fixed _ (sanitize_safe I node_id)) as Hidem.
  split_and!.
  - exact Hidem.
  - split; [|apply sanitize_fixed]. intros <-. apply sanitize_safe.
  - intros s. unfold image_path. by rewrite Hidem.
Qed.

(** X10.  The image server only reads.  The view [get_image] calls neither
    [requests.get] nor the logger and leaves the disk as it is, whatever it
    returns or raises.  For a request without conditional or range header,
    what it returns is the response of [send_file] for the file found at
    the image path, with the type ["image/png"].  It raises the 404 of
    [abort] with ["Image not found"] when the path holds a NUL or nothing is
    at the path, and lets the [OSError] of [send_file] through when a
    directory is at the path; it raises nothing else. *)
Theorem get_image_read_only s n w :
  let run := get_image I cfg s n w in
  run.2 = w ∧
  match run.1 with
  | Ok rep =>
      ∃ data,
        rep = FileReply data (u "image/png") ∧
        disk w !! path_key (image_path I cfg s n) = Some (File data)
  | Raise e =>
      (e = HTTPException 404 (u "Image not found") ∧
       ((NUL ∈ image_path I cfg s n) ∨
        disk w !! path_key (image_path I cfg s n) = None)) ∨
      (e = OSError ∧ disk w !! path_key (image_path I cfg s n) = Some Dir)
  end.
Proof.
  intros run. subst run.
  assert ((path_key (image_path I cfg s n)).2 ≠ []) as Hparts.
  { rewrite image_path_key. cbn. by destruct (path_key (session_dir cfg s)).2. }
  assert (image_path I cfg s n ≠ []) as Hp.
  { intros H. rewrite H in Hparts. by apply Hparts. }
  unfold get_image, mbind, M_bind, os_path_exists, send_file, abort, raise.
  destruct (decide (NUL ∈ image_path I cfg s n)) as [Hnul|Hnul].
  { rewrite (bool_decide_eq_true_2 _ Hnul). cbn. eauto. }
  rewrite (bool_decide_eq_false_2 _ Hnul), !bool_decide_eq_false_2 by done.
  destruct (disk w !! path_key (image_path I cfg s n)) as [[data|]|] eqn:Hd;
    cbn; rewrite ?Hd; (split; [done|cbn; eauto]).
Qed.
End Stored.

(** ** The process endpoint, step by step *)

Lemma str_contains_spec needle hay :
  str_contains needle hay = true ↔ ∃ pre post, hay = pre ++ needle ++ post.
Proof.
  induction hay as [|c hay IH]; cbn [str_contains]; rewrite orb_true_iff.
  - split.
    + intros [[t Ht]%startswith_spec|?]; [|done]. by exists [], t.
    + intros (pre & post & H). left. apply startswith_spec.
      symmetry in H. apply app_eq_nil in H as [-> H]. exists post. by rewrite H.
  - rewrite IH. split.
    + intros [[t Ht]%startswith_spec|(pre & post & ->)].
      * by exists [], t.
      * by exists (c :: pre), post.
    + intros ([|c' pre] & post & H).
      * left. apply startswith_spec. by exists post.
      * right. injection H as -> ->. by exists pre, post.
Qed.

Lemma list_contains_spec key l :
  existsb (λ v, negb (differs_from_str v key)) l = true ↔ JStr key ∈ l.
Proof.
  rewrite existsb_exists. split.
  - intros (v & Hin & Hv). apply list_elem_of_In in Hin.
    destruct v as [|b|z|s|l'|m]; try done. cbn in Hv.
    rewrite negb_involutive in Hv. by apply bool_decide_eq_true in Hv as ->.
  - intros Hin. exists (JStr key). split; [by apply list_elem_of_In|].
    cbn. rewrite negb_involutive. by apply bool_decide_eq_true.
Qed.

Lemma py_contains_names data key b :
  py_contains data key = Ok b → (∀ m, data ≠ JObj m) →
  (b = true ↔ names_field data key).
Proof.
  intros Hc Hobj. destruct data as [|x|z|s|l|m]; try done.
  - injection Hc as <-. apply str_contains_spec.
  - injection Hc as <-. apply list_contains_spec.
  - by destruct (Hobj m).
Qed.

Section Steps.
Context (I : Interp) (cfg : Config).
Context (remote : list HttpRequest → HttpRequest → outcome).

(** The check of the two required fields lets the request through. *)
Lemma fields_present m w :
  is_Some (m !! u "figma_url") → is_Some (m !! u "session_id") →
  (if negb (truthy (JObj m)) then mret true
   else
     has_url ← lift (py_contains (JObj m) (u "figma_url"));
     if negb has_url : bool then mret true
     else
       has_sid ← lift (py_contains (JObj m) (u "session_id"));
       mret (negb has_sid)) w = (Ok false, w).
Proof.
  intros Hurl Hsid. cbn [truthy].
  rewrite bool_decide_eq_false_2.
  2:{ intros ->. rewrite lookup_empty in Hurl. by destruct Hurl. }
  cbn. by rewrite !bool_decide_eq_true_2.
Qed.

Lemma process_figma_run body w :
  (∃ r w', process_figma I cfg remote body w = (Ok (Success r), w')) ∨
  (∃ e w1, process_figma I cfg remote body w =
             (Raise (HTTPException 500 (str_of_exn I e)), after_abort I e w1)).
Proof.
  unfold process_figma, try_except.
  match goal with |- context [match ?b w with _ => _ end] =>
    assert (yields (λ rep, ∃ r, rep = Success r) b) as Hy;
    [|destruct (b w) as [[rep|e] w1] eqn:HB] end.
  - repeat first
      [ apply yields_bind; intros ?
      | match goal with |- yields _ (let '(_, _) := ?x in _) => destruct x end ].
    apply yields_ret. eauto.
  - left. destruct (Hy _ _ _ HB) as [r ->]. eauto.
  - right. exists e, w1. reflexivity.
Qed.

(** X11.  Whatever the request body and whatever the servers do, the
    process endpoint answers in one of two ways: with the success envelope,
    or with status 500 whose description is the text of the exception that
    was caught, after logging ["Error processing Figma URL: ..."] with that
    text at level ERROR.  It never answers 400 or 404 and never lets an
    exception through to Flask. *)
Theorem process_figma_reply_kinds body w :
  let run := serve (process_figma I cfg remote body) w in
  (∃ r, run.1 = Success r) ∨
  (∃ e w1, run = (ErrorReply 500 (str_of_exn I e), after_abort I e w1)).
Proof.
  intros run. subst run. unfold serve.
  destruct (process_figma_run body w) as [(r & w' & ->)|(e & w1 & ->)].
  - left. eauto.
  - right. eauto.
Qed.

(** X12.  A failure of any step before the result is assembled is answered
    with status 500 and the text of that step's error: an unreadable request
    body (the 400 or 415 that [request.get_json()] raises is caught like
    everything else), a URL from which no file key can be extracted, a
    failed document fetch, a document tree the extractor cannot walk, a
    failed rendering, a download that cannot start.  The steps after the
    failing one do not run: the world is the one the failing step left,
    with one more ERROR record. *)
Theorem process_figma_failure body w e w' :
  pipeline_fails I cfg remote body w e w' →
  serve (process_figma I cfg remote body) w =
    (ErrorReply 500 (str_of_exn I e), after_abort I e w').
Proof.
  intros Hfail. unfold serve, process_figma, try_except.
  destruct Hfail as [e ->|m url e -> Hurl [sid Hsid] Hkey
    |m url file_key e w1 -> Hurl [sid Hsid] Hkey Hfetch
    |m url file_key file_data e w1 -> Hurl [sid Hsid] Hkey Hfetch Hframes
    |m url file_key file_data frames ids e w1 w2
       -> Hurl [sid Hsid] Hkey Hfetch Hframes Hrender
    |m url sid file_key file_data frames ids image_urls frames' e w1 w2 w3
       -> Hurl Hsid Hkey Hfetch Hframes Hrender Hann Hdl];
  [reflexivity|..];
  rewrite (bind_ok _ _ _ _ _ (lift_run _ _));
  rewrite (bind_ok _ _ _ _ _ (fields_present m w ltac:(eauto) ltac:(eauto)));
  rewrite (bind_ok _ _ _ _ _ (mret_run _ _));
  cbn [py_getitem]; rewrite Hurl, Hsid;
  rewrite !(bind_ok _ _ _ _ _ (lift_run _ _));
  rewrite Hkey.
  - reflexivity.
  - rewrite (bind_ok _ _ _ _ _ (lift_run _ _)).
    rewrite (bind_raise _ _ _ _ _ Hfetch). reflexivity.
  - rewrite (bind_ok _ _ _ _ _ (lift_run _ _)).
    rewrite (bind_ok _ _ _ _ _ Hfetch), Hframes. reflexivity.
  - rewrite (bind_ok _ _ _ _ _ (lift_run _ _)).
    rewrite (bind_ok _ _ _ _ _ Hfetch), Hframes.
    rewrite (bind_ok _ _ _ _ _ (lift_run _ _)).
    rewrite (bind_raise _ _ _ _ _ Hrender). reflexivity.
  - rewrite (bind_ok _ _ _ _ _ (lift_run _ _)).
    rewrite (bind_ok _ _ _ _ _ Hfetch), Hframes.
    rewrite (bind_ok _ _ _ _ _ (lift_run _ _)).
    rewrite (bind_ok _ _ _ _ _ Hrender), Hann.
    rewrite (bind_ok _ _ _ _ _ (lift_run _ _)).
    rewrite (bind_raise _ _ _ _ _ Hdl). reflexivity.
Qed.

Lemma fields_check_non_object data w :
  (∀ m, data ≠ JObj m) →
  let check :=
    (if negb (truthy data) then mret true
     else
       has_url ← lift (py_contains data (u "figma_url"));
       if negb has_url : bool then mret true
       else
         has_sid ← lift (py_contains data (u "session_id"));
         mret (negb has_sid)) w in
  (turned_away data → check = (Ok true, w)) ∧
  (¬ turned_away data →
   check = (Raise TypeError, w) ∨
   (check = (Ok false, w) ∧ py_getitem data (u "figma_url") = Raise TypeError)).
Proof.
  intros Hobj check. subst check.
  destruct (truthy data) eqn:Ht; cbn [negb].
  2:{ split; [done|]. intros Hno. destruct Hno. by left. }
  destruct (py_contains data (u "figma_url")) as [b1|e] eqn:H1.
  2:{ assert (e = TypeError ∧ (∀ s, data ≠ JStr s) ∧ ∀ l, data ≠ JArr l)
        as (-> & Hs & Hl).
      { destruct data as [|x|z|s|l|m]; try done; by injection H1 as <-. }
      split; [|by left].
      intros [?|[[[s ->]|[l ->]] _]]; [congruence|by destruct (Hs s)|by destruct (Hl l)]. }
  assert ((∃ s, data = JStr s) ∨ (∃ l, data = JArr l)) as Hkind.
  { destruct data as [|x|z|s|l|m]; try done; eauto. by destruct (Hobj m). }
  assert (py_getitem data (u "figma_url") = Raise TypeError) as Hget.
  { by destruct Hkind as [[s ->]|[l ->]]. }
  pose proof (py_contains_names _ _ _ H1 Hobj) as Hn1.
  rewrite (bind_ok _ _ _ _ _ (lift_run _ _)).
  destruct b1; cbn [negb].
  2:{ split; [done|]. intros Hno. destruct Hno. right. split; [done|].
      intros [Hu _]. by apply Hn1 in Hu. }
  destruct (py_contains data (u "session_id")) as [b2|e] eqn:H2.
  2:{ by destruct Hkind as [[s ->]|[l ->]]. }
  pose proof (py_contains_names _ _ _ H2 Hobj) as Hn2.
  rewrite (bind_ok _ _ _ _ _ (lift_run _ _)).
  destruct b2; cbn [negb].
  - split; [|by right]. intros [?|[_ Hno]]; [congruence|].
    destruct Hno. split; [by apply Hn1|by apply Hn2].
  - split; [done|]. intros Hno. destruct Hno. right. split; [done|].
    intros [_ Hs]. by apply Hn2 in Hs.
Qed.

(** X17.  The check of the two fields does not make the body an object,
    and a body that is JSON of another kind never gets as far as the
    extraction of the file key.  When the body is empty, zero, [false] or
    [null], or is a string or a list that does not name both fields (as a
    part of the string, as an element of the list), the check aborts with
    400 and the handler answers 500 with the text of that abort.  In every
    other case [TypeError] is raised (by the membership test on a number or
    on [true], by looking the field up in a string or a list that names
    both) and the handler answers 500 with its text.  Either way no request
    is made and the disk is left alone. *)
Theorem process_figma_non_object_body data w :
  (∀ m, data ≠ JObj m) →
  (turned_away data →
   serve (process_figma I cfg remote (Ok data)) w =
     (ErrorReply 500 (u "400 Bad Request: Missing figma_url or session_id"),
      set_logged
        (logged w ++
           [(ERROR, u "Error processing Figma URL: 400 Bad Request: Missing figma_url or session_id")])
        w)) ∧
  (¬ turned_away data →
   serve (process_figma I cfg remote (Ok data)) w =
     (ErrorReply 500 (str_of_exn I TypeError), after_abort I TypeError w)).
Proof.
  intros Hobj.
  destruct (fields_check_non_object data w Hobj) as [Haway Hpass].
  cbv zeta in Haway, Hpass.
  split; intros Hta; unfold serve, process_figma, try_except;
    rewrite (bind_ok _ _ _ _ _ (lift_run _ _)).
  - rewrite (bind_ok _ _ _ _ _ (Haway Hta)). reflexivity.
  - destruct (Hpass Hta) as [Hraise|[Hok Hget]].
    + rewrite (bind_raise _ _ _ _ _ Hraise). reflexivity.
    + rewrite (bind_ok _ _ _ _ _ Hok).
      rewrite (bind_ok _ _ _ _ _ (mret_run _ _)), Hget. reflexivity.
Qed.
(** X13.  A document in which the extractor finds no frame is a success,
    provided the session identifier of the body is a string and the two
    directories of the session can be created.  Then the endpoint makes the
    one call for the document and no other (the renderer has no chunk to
    ask for, the downloader no frame), creates the two directories, and
    answers with [total_frames] 0, an empty image list and the session
    directory. *)
Theorem process_figma_no_frames m url sid file_key file_data ids w w1 w2 :
  m !! u "figma_url" = Some url → m !! u "session_id" = Some (JStr sid) →
  extract_file_key url = Ok file_key →
  fetch_figma_file I cfg remote file_key w = (Ok file_data, w1) →
  extract_frames file_data = Ok ([], ids) →
  download_dirs cfg sid w1 = (Ok (), w2) →
  serve (process_figma I cfg remote (Ok (JObj m))) w =
    (Success {| total_frames := 0; images := [];
                session_folder := session_dir cfg sid |}, w2) ∧
  attempts w2 = attempts w ++ [file_request cfg file_key].
Proof.
  intros Hurl Hsid Hkey Hfetch Hframes Hdirs. split.
  - pose proof Hframes as [-> _]%extract_frames_inv.
    unfold serve, process_figma, try_except.
    rewrite (bind_ok _ _ _ _ _ (lift_run _ _)).
    rewrite (bind_ok _ _ _ _ _ (fields_present m w ltac:(eauto) ltac:(eauto))).
    rewrite (bind_ok _ _ _ _ _ (mret_run _ _)).
    cbn [py_getitem]. rewrite Hurl, Hsid.
    rewrite !(bind_ok _ _ _ _ _ (lift_run _ _)), Hkey.
    rewrite (bind_ok _ _ _ _ _ (lift_run _ _)).
    rewrite (bind_ok _ _ _ _ _ Hfetch), Hframes.
    rewrite (bind_ok _ _ _ _ _ (lift_run _ _)).
    change (ids_of []) with (@nil json).
    rewrite (bind_ok _ _ w1 ∅ w1) by reflexivity.
    rewrite (bind_ok _ _ w1 [] w1) by reflexivity.
    rewrite (bind_ok _ _ w1 (∅, session_dir cfg sid) w2);
      [reflexivity|].
    by rewrite (download_images_run I cfg remote _ _ _ _ Hdirs).
  - pose proof (download_dirs_attempts cfg sid w1) as H2.
    pose proof (fetch_figma_file_attempts I cfg remote file_key w) as H1.
    rewrite Hdirs in H2. rewrite Hfetch in H1. cbn in H1, H2. congruence.
Qed.
End Steps.

(** ** What a run may change *)

Section Keeps.
Context (R : World → World → Prop).
Context (R_refl : ∀ w, R w w) (R_trans : ∀ w1 w2 w3, R w1 w2 → R w2 w3 → R w1 w3).

Lemma keeps_ret {A : Type} (a : A) : keeps R (mret a).
Proof using R_refl. intros w. apply R_refl. Qed.

Lemma keeps_raise {A : Type} (e : exn) : keeps R (raise e : M A).
Proof using R_refl. intros w. apply R_refl. Qed.

Lemma keeps_lift {A : Type} (r : result A) : keeps R (lift r).
Proof using R_refl. intros w. apply R_refl. Qed.

Lemma keeps_bind {A B : Type} (m : M A) (f : A → M B) :
  keeps R m → (∀ a, keeps R (f a)) → keeps R (m ≫= f).
Proof using R_trans.
  intros Hm Hf w. unfold mbind, M_bind. specialize (Hm w).
  destruct (m w) as [[a|e] w1]; cbn in *; [|done].
  eapply R_trans; [exact Hm|apply Hf].
Qed.

Lemma keeps_try {A : Type} (body : M A) catches handler :
  keeps R body → (∀ e, keeps R (handler e)) →
  keeps R (try_except body catches handler).
Proof using R_trans.
  intros Hm Hh w. unfold try_except. specialize (Hm w).
  destruct (body w) as [[a|e] w1]; cbn in *; [done|].
  destruct (catches e); [|done]. eapply R_trans; [exact Hm|apply Hh].
Qed.

Lemma keeps_for_each {A S : Type} (body : S → A → M S) items acc :
  (∀ acc x, keeps R (body acc x)) → keeps R (for_each body items acc).
Proof using R_refl R_trans.
  intros Hb. revert acc. induction items as [|x items IH]; intros acc.
  - apply keeps_ret.
  - cbn [for_each]. apply keeps_bind; [apply Hb|apply IH].
Qed.
End Keeps.

Lemma extends_refl ok w : extends ok w w.
Proof.
  split_and!; [exists []|exists []|done|done]; by rewrite app_nil_r.
Qed.

Lemma extends_trans ok w1 w2 w3 :
  extends ok w1 w2 → extends ok w2 w3 → extends ok w1 w3.
Proof.
  intros ((r1 & Hr1 & Hok1) & (l1 & Hl1) & Hd1 & Hf1)
         ((r2 & Hr2 & Hok2) & (l2 & Hl2) & Hd2 & Hf2).
  split_and!.
  - exists (r1 ++ r2). rewrite Hr2, Hr1, app_assoc. split; [done|].
    by apply Forall_app.
  - exists (l1 ++ l2). by rewrite Hl2, Hl1, app_assoc.
  - eauto.
  - eauto.
Qed.

Lemma mkdirs_dir (d : gmap (bool * list str) fsnode) ds k :
  is_dir (d !! k) = true →
  is_dir (foldr (λ k d, <[k := Dir]> d) d ds !! k) = true.
Proof.
  intros Hk. induction ds as [|x ds IH]; [done|]. cbn [foldr].
  destruct (decide (x = k)) as [->|Hne].
  - by rewrite lookup_insert_eq.
  - by rewrite lookup_insert_ne.
Qed.

Lemma mkdirs_file (d : gmap (bool * list str) fsnode) ds k :
  existsb (λ k, is_file (d !! k)) ds = false →
  is_file (d !! k) = true →
  is_file (foldr (λ k d, <[k := Dir]> d) d ds !! k) = true.
Proof.
  intros Hfiles Hk. induction ds as [|x ds IH]; [done|]. cbn [foldr].
  cbn in Hfiles. apply orb_false_iff in Hfiles as [Hx Hfiles].
  destruct (decide (x = k)) as [->|Hne]; [congruence|].
  rewrite lookup_insert_ne by done. by apply IH.
Qed.

Lemma mkdirs_guarded_dir (d0 : gmap (bool * list str) fsnode) ds k :
  is_dir (d0 !! k) = true →
  is_dir (foldr (λ k d, if is_file (d0 !! k) then d else <[k := Dir]> d) d0 ds
            !! k) = true.
Proof.
  intros Hk. induction ds as [|x ds IH]; [done|]. cbn [foldr].
  destruct (is_file (d0 !! x)); [done|].
  destruct (decide (x = k)) as [->|Hne].
  - by rewrite lookup_insert_eq.
  - by rewrite lookup_insert_ne.
Qed.

Lemma mkdirs_guarded_file (d0 : gmap (bool * list str) fsnode) ds k :
  is_file (d0 !! k) = true →
  is_file (foldr (λ k d, if is_file (d0 !! k) then d else <[k := Dir]> d) d0 ds
             !! k) = true.
Proof.
  intros Hk. induction ds as [|x ds IH]; [done|]. cbn [foldr].
  destruct (is_file (d0 !! x)) eqn:Hx; [done|].
  destruct (decide (x = k)) as [->|Hne]; [congruence|].
  by rewrite lookup_insert_ne.
Qed.

Section Extends.
Context (I : Interp) (cfg : Config).
Context (remote : list HttpRequest → HttpRequest → outcome).
Context (ok : HttpRequest → Prop).

Lemma keeps_logger lvl msg : keeps (extends ok) (logger lvl msg).
Proof.
  intros w. cbn.
  split_and!; [exists []; by rewrite app_nil_r|by eexists|done|done].
Qed.

Lemma keeps_requests_get url headers params :
  (∀ s, url = JStr s →
        ok {| req_url := s; req_headers := headers; req_params := params |}) →
  keeps (extends ok) (requests_get I remote url headers params).
Proof.
  intros Hok w. unfold requests_get.
  destruct url as [|b|z|[|c s]|l|m]; try apply extends_refl.
  assert (extends ok w (set_attempts (attempts w ++
            [{| req_url := c :: s; req_headers := headers;
                req_params := params |}]) w)).
  { split_and!;
      [eexists; split; [done|]|exists []; by rewrite app_nil_r|done|done].
    constructor; [by apply Hok|constructor]. }
  by destruct (remote _ _).
Qed.

Lemma keeps_makedirs p : keeps (extends ok) (os_makedirs p).
Proof.
  intros w. unfold os_makedirs.
  destruct (bool_decide (NUL ∈ p)).
  { destruct (existsb _ _); [apply extends_refl|].
    unfold extends, set_disk; cbn.
    split_and!;
      [exists []; by rewrite app_nil_r|exists []; by rewrite app_nil_r| |].
    - intros k Hk. by apply mkdirs_guarded_dir.
    - intros k Hk. by apply mkdirs_guarded_file. }
  destruct (bool_decide (p = [])); [apply extends_refl|].
  destruct (existsb _ _) eqn:Hfiles; [apply extends_refl|].
  unfold extends, set_disk; cbn.
  split_and!; [exists []; by rewrite app_nil_r|exists []; by rewrite app_nil_r| |].
  - intros k Hk. by apply mkdirs_dir.
  - intros k Hk. by apply mkdirs_file.
Qed.

Lemma keeps_open_write p data : keeps (extends ok) (open_write p data).
Proof.
  intros w. unfold open_write.
  destruct (bool_decide (NUL ∈ p)); [apply extends_refl|].
  destruct (path_key p).2; [apply extends_refl|].
  destruct (_ || _); [|apply extends_refl].
  destruct (is_dir (disk w !! path_key p)) eqn:Hdir; [apply extends_refl|].
  unfold extends, set_disk; cbn.
  split_and!; [exists []; by rewrite app_nil_r|exists []; by rewrite app_nil_r| |].
  - intros k Hk. destruct (decide (path_key p = k)) as [<-|Hne].
    + congruence.
    + by rewrite lookup_insert_ne.
  - intros k Hk. destruct (decide (path_key p = k)) as [<-|Hne].
    + by rewrite lookup_insert_eq.
    + by rewrite lookup_insert_ne.
Qed.
End Extends.

(** Breaks a computation down to its library calls. *)
Ltac effects ok :=
  repeat first
    [ apply (keeps_ret _ (extends_refl ok))
    | apply (keeps_raise _ (extends_refl ok))
    | apply (keeps_lift _ (extends_refl ok))
    | apply keeps_logger
    | apply keeps_makedirs
    | apply keeps_open_write
    | apply (keeps_bind _ (extends_trans ok)); [|intros ?]
    | apply (keeps_try _ (extends_trans ok)); [|intros ?]
    | apply (keeps_for_each _ (extends_refl ok) (extends_trans ok)); intros ? ?
    | match goal with
      | |- keeps _ (if ?b then _ else _) => destruct b
      | |- keeps _ (match ?x with _ => _ end) => destruct x
      | |- keeps _ (let '(_, _) := ?x in _) => destruct x
      end ].

Section Confined.
Context (I : Interp) (cfg : Config).
Context (remote : list HttpRequest → HttpRequest → outcome).

Local Abbreviation safe := (extends (req_confined cfg)).

Lemma fetch_figma_file_keeps file_key :
  keeps safe (fetch_figma_file I cfg remote file_key).
Proof.
  unfold fetch_figma_file. effects (req_confined cfg).
  apply keeps_requests_get. intros s [= <-]. right. by eexists.
Qed.

Lemma render_batch_keeps file_key ids scale format acc i :
  keeps safe (render_batch I cfg remote file_key ids scale format acc i).
Proof.
  unfold render_batch. effects (req_confined cfg).
  apply keeps_requests_get. intros s [= <-]. right. by eexists.
Qed.

Lemma download_frame_keeps dir acc f :
  keeps safe (download_frame I remote dir acc f).
Proof.
  unfold download_frame. effects (req_confined cfg).
  apply keeps_requests_get. intros s _. by left.
Qed.

Lemma process_figma_keeps body :
  keeps safe (process_figma I cfg remote body).
Proof.
  unfold process_figma, fetch_figma_frame_images, download_images, abort.
  effects (req_confined cfg);
    first [ apply fetch_figma_file_keeps | apply render_batch_keeps
          | apply download_frame_keeps
          | apply keeps_requests_get; intros s [= <-]; right; by eexists ].
Qed.

(** X14.  The program hands the API token to [requests.get] only together
    with a URL under [BASE_URL].  Every recorded call of [requests.get] that
    the process endpoint makes, on any body and whatever the calls come to,
    either passes no header at all (the image downloads) or passes a URL
    that starts with [BASE_URL] (the document fetch and the rendering
    requests, the only calls that pass the [X-Figma-Token] header).  What
    [requests] does inside a call, such as following a redirect, is not
    modelled, so this is a property of the calls and not of the traffic. *)
Theorem process_figma_token_confined body w :
  ∃ reqs,
    attempts (serve (process_figma I cfg remote body) w).2 = attempts w ++ reqs ∧
    Forall (req_confined cfg) reqs.
Proof.
  rewrite serve_world.
  by destruct (process_figma_keeps body w) as [? _].
Qed.

(** X15.  The process endpoint removes nothing.  Whatever the request and
    whether it succeeds or fails, the log only grows, every directory that
    existed still exists, and every path that held a file still holds a
    file (an image file may have been overwritten by a new download). *)
Theorem process_figma_removes_nothing body w :
  let w' := (serve (process_figma I cfg remote body) w).2 in
  (∃ logs, logged w' = logged w ++ logs) ∧
  (∀ k, is_dir (disk w !! k) = true → is_dir (disk w' !! k) = true) ∧
  (∀ k, is_file (disk w !! k) = true → is_file (disk w' !! k) = true).
Proof.
  intros w'. subst w'. rewrite serve_world.
  by destruct (process_figma_keeps body w) as [_ ?].
Qed.
End Confined.

(** ** From the process endpoint to the image server *)

Section RoundTrip.
Context (I : Interp) (cfg : Config).
Context (remote : list HttpRequest → HttpRequest → outcome).

Lemma process_figma_ok_inv body w r w' :
  process_figma I cfg remote body w = (Ok (Success r), w') →
  ∃ data frames session_id paths w2,
    body = Ok data ∧
    py_getitem data (u "session_id") = Ok session_id ∧
    download_images I cfg remote frames session_id w2
      = (Ok (paths, session_folder r), w') ∧
    images r = entry_of paths <$> filter (λ f, listed paths f = true) frames.
Proof.
  unfold process_figma, try_except.
  match goal with |- context [match ?b w with _ => _ end] =>
    destruct (b w) as [[rep|e] wB] eqn:HB end; [|done].
  intros [= -> ->].
  apply bind_inv in HB as (data & w0 & [Hdata _]%lift_inv & HB).
  apply bind_inv in HB as (missing & w0' & _ & HB).
  apply bind_inv in HB as ([] & w0'' & _ & HB).
  apply bind_inv in HB as (figma_url & wa & _ & HB).
  apply bind_inv in HB as (session_id & wb & [Hsid _]%lift_inv & HB).
  apply bind_inv in HB as (file_key & wc & _ & HB).
  apply bind_inv in HB as (file_data & w1 & _ & HB).
  apply bind_inv in HB as ([frames0 ids] & w1' & _ & HB).
  apply bind_inv in HB as (image_urls & w2 & _ & HB).
  apply bind_inv in HB as (frames & w2' & _ & HB).
  apply bind_inv in HB as ([paths dir] & w3 & Hdl & HB).
  apply bind_inv in HB as (imgs & w3' & Hentries & HB).
  apply lift_inv in Hentries as [Hentries ->]. apply entry_loop in Hentries as ->.
  injection HB as <- <-. cbn [images session_folder].
  eexists _, _, _, _, _. split_and!; [exact Hdata|exact Hsid|exact Hdl|done].
Qed.

(** X16.  What the process endpoint lists, the image server serves.  After
    a successful request with session identifier [sid], the session folder
    of the response is the session directory of [sid], and every entry of
    the image list names a node [n] whose recorded path is the image path of
    [sid] and [n], and for which [GET /images/sid/n], asked right after,
    answers with a file of type ["image/png"]. *)
Theorem listed_images_served body w r w' :
  serve (process_figma I cfg remote body) w = (Success r, w') →
  ∃ m sid,
    body = Ok (JObj m) ∧ m !! u "session_id" = Some (JStr sid) ∧
    session_folder r = session_dir cfg sid ∧
    Forall (λ entry,
              ∃ n data,
                entry_node_id entry = JStr n ∧
                entry_path entry = image_path I cfg sid n ∧
                serve (get_image I cfg sid n) w'
                  = (FileReply data (u "image/png"), w'))
      (images r).
Proof.
  intros Hserve.
  assert (process_figma I cfg remote body w = (Ok (Success r), w')) as Hrun.
  { unfold serve in Hserve.
    destruct (process_figma_run I cfg remote body w)
      as [(r0 & w0 & Heq)|(e & w1 & Heq)]; rewrite Heq in Hserve; [|done].
    by injection Hserve as -> ->. }
  apply process_figma_ok_inv in Hrun
    as (data & frames & session_id & paths & w2 & -> & Hsid & Hdl & ->).
  assert (∃ sid, session_id = JStr sid) as [sid ->].
  { unfold download_images, mbind, M_bind in Hdl.
    destruct (os_makedirs _ w2) as [[[]|?] ?]; [|done].
    unfold lift, as_str in Hdl. destruct session_id; try done. eauto. }
  destruct data as [|b|z|s|l|m]; try done. cbn in Hsid.
  destruct (m !! u "session_id") as [v|] eqn:Hm; [|done]. injection Hsid as ->.
  exists m, sid.
  apply download_images_inv in Hdl as (w1 & _ & Hdir & Hloop).
  split_and!; [done..|].
  destruct (download_loop I remote (session_dir cfg sid) frames ∅ w1)
    as (paths' & w3 & Hrun & Hst & _).
  rewrite Hloop in Hrun. simplify_eq.
  specialize (Hst ltac:(by intros ? ? ?)).
  apply Forall_fmap, Forall_forall. intros f [Hl _]%list_elem_of_filter.
  unfold listed in Hl. cbn. unfold entry_of. cbn.
  destruct (node_id f) as [|b|z|n|l|d]; try done.
  apply bool_decide_eq_true in Hl as [p Hp].
  destruct (Hst n p Hp) as (-> & Hnul & Hfile). rewrite Hp. cbn.
  rewrite <- image_path_eq in *.
  destruct (disk w3 !! path_key (image_path I cfg sid n)) as [[data|]|] eqn:Hd;
    try done.
  exists n, data. split_and!; [done|done|]. by apply get_image_found.
Qed.
End RoundTrip.

(** * The theorems on the sample deployment *)


(** C8 on the sample server, a server that forbids, a broken gateway and an
    unreachable host. *)
Lemma fetch_figma_file_contract_witness :
  fetch_figma_file I0 cfg0 remote0 (u "ABC123") w0 =
    (Ok doc0,
     sent [{| req_url := u "https://api.figma.com/v1/files/ABC123";
              req_headers := [(u "X-Figma-Token", Some (u "figd_token"))];
              req_params := [] |}] w0) ∧
  (fetch_figma_file I0 cfg0 remote_forbidden (u "ABC123") w0).1 =
    Raise (Exception (u "403 Forbidden: Invalid token")) ∧
  (fetch_figma_file I0 cfg0 remote_broken (u "ABC123") w0).1 =
    Raise (Exception (u "Figma API error (Status 502): Bad gateway")) ∧
  (fetch_figma_file I0 cfg0 remote_down (u "ABC123") w0).1 =
    Raise (Exception (u "Network error: Connection refused")).
Proof.
  split_and!.
  - pose proof (fetch_figma_file_contract I0 cfg0 remote0 (u "ABC123") w0) as H.
    cbv zeta in H. destruct H as (_ & H & _).
    apply (H (ok_response doc0 [])); vm_compute; reflexivity.
  - pose proof (fetch_figma_file_contract I0 cfg0 remote_forbidden (u "ABC123") w0) as H.
    cbv zeta in H. destruct H as (_ & _ & H & _).
    by rewrite (H (status_response 403 (u "Invalid token")) eq_refl eq_refl).
  - pose proof (fetch_figma_file_contract I0 cfg0 remote_broken (u "ABC123") w0) as H.
    cbv zeta in H. destruct H as (_ & _ & _ & _ & _ & _ & H).
    apply (H (status_response 502 (u "Bad gateway")));
      [reflexivity|discriminate|discriminate|cbn; lia].
  - pose proof (fetch_figma_file_contract I0 cfg0 remote_down (u "ABC123") w0) as H.
    cbv zeta in H. destruct H as (_ & _ & _ & _ & H & _).
    by rewrite (H (u "Connection refused") eq_refl).
Defined.

(** C2 on 250 identifiers and three successful answers, the third of which
    maps a key of the first again, and on the two identifiers of the sample
    document, asked for in one request. *)
Lemma render_in_batches_witness :
  length <$> batches ids250 = [100; 100; 50] ∧
  fetch_figma_frame_images I0 cfg0 (remote_by_turn answers_ok) (u "ABC123")
      (JStr <$> ids250) 1 (u "png") w0
    = (Ok (merge maps_ok),
       sent (render_request cfg0 (u "ABC123") 1 (u "png") <$> batches ids250) w0) ∧
  merge maps_ok !! u "7:0" = Some (JStr (u "https://img.example/c")) ∧
  fetch_figma_frame_images I0 cfg0 remote0 (u "ABC123")
      [JStr (u "1:1"); JStr (u "2:7")] 1 (u "png") w0
    = (Ok (merge [{[ u "1:1" := JStr (u "https://img.example/1");
                     u "2:7" := JNull ]}]),
       sent [{| req_url := u "https://api.figma.com/v1/images/ABC123";
                req_headers := [(u "X-Figma-Token", Some (u "figd_token"))];
                req_params := [(u "ids", u "1:1,2:7"); (u "scale", u "1");
                               (u "format", u "png");
                               (u "use_absolute_bounds", u "true")] |}] w0).
Proof.
  pose proof (render_in_batches I0 cfg0 (remote_by_turn answers_ok) (u "ABC123")
                ids250 1 (u "png") w0) as H.
  cbv zeta in H. destruct H as (_ & _ & _ & H250 & _ & Hrun).
  split; [apply H250; vm_compute; reflexivity|].
  destruct (Hrun maps_ok) as (Hfetch & _ & Hlast).
  { replace (script (remote_by_turn answers_ok) (attempts w0)
               (render_request cfg0 (u "ABC123") 1 (u "png") <$> batches ids250))
      with answers_ok by (vm_compute; reflexivity).
    constructor; [|constructor; [|constructor; [|constructor]]];
      (eapply succeeds_200; [reflexivity | reflexivity | | ]; vm_compute; reflexivity). }
  split; [exact Hfetch|]. split.
  { apply (Hlast [{[ u "7:0" := JStr (u "https://img.example/a") ]};
                  {[ u "7:100" := JStr (u "https://img.example/b") ]}]
                 {[ u "7:0" := JStr (u "https://img.example/c") ]} [] (u "7:0"));
      [reflexivity | vm_compute; reflexivity | constructor]. }
  pose proof (render_in_batches I0 cfg0 remote0 (u "ABC123")
                [u "1:1"; u "2:7"] 1 (u "png") w0) as H2.
  cbv zeta in H2. destruct H2 as (_ & _ & _ & _ & _ & Hrun2).
  destruct (Hrun2 [{[ u "1:1" := JStr (u "https://img.example/1");
                      u "2:7" := JNull ]}]) as (Hfetch2 & _).
  { constructor; [|constructor].
    eapply succeeds_200; [reflexivity | reflexivity | | ]; vm_compute; reflexivity. }
  exact Hfetch2.
Defined.

(** C5 on 250 identifiers when the second chunk is answered with 403: the
    mapping of the first chunk is not returned and the third chunk is not
    requested. *)
Lemma render_all_or_nothing_witness :
  fetch_figma_frame_images I0 cfg0 (remote_by_turn answers_403) (u "ABC123")
      (JStr <$> ids250) 1 (u "png") w0
    = (Raise (Exception (u "Access denied: Check token permissions")),
       sent (take 2 (render_request cfg0 (u "ABC123") 1 (u "png") <$> batches ids250)) w0).
Proof.
  pose proof (render_all_or_nothing I0 cfg0 (remote_by_turn answers_403) (u "ABC123")
                ids250 1 (u "png") w0 1
                (Responded (status_response 403 (u "Invalid token")))
                (Exception (u "Access denied: Check token permissions"))) as H.
  cbv zeta in H. destruct H as [_ H].
  { vm_compute. reflexivity. }
  { by apply fails_403. }
  apply (H [{[ u "7:0" := JStr (u "https://img.example/a") ]}]).
  replace (take 1 (script (remote_by_turn answers_403) (attempts w0)
                     (render_request cfg0 (u "ABC123") 1 (u "png") <$> batches ids250)))
    with [images_answer JNull "7:0" "https://img.example/a"]
    by (vm_compute; reflexivity).
  constructor; [|constructor].
  eapply succeeds_200; [reflexivity | reflexivity | | ]; vm_compute; reflexivity.
Defined.

(** C3, amended, on the sample document. *)
Lemma extract_frames_well_shaped_witness :
  extract_frames doc0 = Ok (frames_of doc0, ids_of (frames_of doc0)) ∧
  name <$> frames_of doc0
    = [JStr (u "Hero"); JStr (u "Footer"); JStr (u "Unnamed Frame")] ∧
  ids_of (frames_of doc0) = [JStr (u "1:1"); JStr (u "2:7")].
Proof.
  split_and!.
  - apply extract_frames_well_shaped. vm_compute. reflexivity.
  - vm_compute. reflexivity.
  - vm_compute. reflexivity.
Defined.

(** C3 as stated fails: a tree whose ["document"] is [null] makes the
    extraction raise. *)
Lemma extract_frames_null_document :
  extract_frames (JObj {[ u "document" := JNull ]}) = Raise AttributeError.
Proof. vm_compute. reflexivity. Qed.

(** C7, amended, on one frame with a reachable image and one frame without
    URL. *)
Lemma download_images_per_item_witness :
  ∃ paths w',
    download_images I0 cfg0 remote0 frames7 (JStr (u "s1")) w0
      = (Ok (paths, session_dir cfg0 (u "s1")), w') ∧
    u "1:1" ∈ dom paths ∧ u "9:9" ∉ dom paths.
Proof.
  destruct (download_images_per_item I0 cfg0 remote0 frames7 (u "s1") w0
              (download_dirs cfg0 (u "s1") w0).2)
    as (paths & w' & Hrun & Hdom & _).
  { apply (run_result (download_dirs cfg0 (u "s1") w0)). vm_compute. reflexivity. }
  exists paths, w'. split_and!; [exact Hrun| |].
  - apply Hdom. exists 0, hero7, (ok_response JNull (u "PNGDATA")).
    split; [reflexivity|]. exists (u "https://img.example/1").
    split_and!; try (vm_compute; reflexivity).
    intros Hnil. vm_compute in Hnil. discriminate.
  - intros (k & f & r & Hk & url & Hu & _ & _ & _ & Hn & _)%Hdom.
    destruct k as [|[|k]].
    + injection Hk as <-. vm_compute in Hn. discriminate.
    + injection Hk as <-. discriminate Hu.
    + discriminate Hk.
Defined.

(** C7 as stated fails: after the sample request, a session identifier that
    names the image file written for it cannot become a directory, and the
    downloader raises. *)
Lemma download_images_blocked :
  (download_images I0 cfg0 remote0 [] (JStr (u "s1/1_1.png")) world1).1
    = Raise OSError.
Proof. vm_compute. reflexivity. Qed.


(** C6 on the sample request: one frame rendered and downloaded out of
    three. *)
Lemma process_figma_success_witness :
  serve (process_figma I0 cfg0 remote0 (Ok body0)) w0 = (Success result0, world1) ∧
  ∃ frames0 image_urls paths,
    total_frames result0 =
      length (filter (λ f, has_image_url f = true) (annotated image_urls <$> frames0)) ∧
    images result0 =
      entry_of paths <$>
        filter (λ f, listed paths f = true) (annotated image_urls <$> frames0).
Proof.
  assert (serve (process_figma I0 cfg0 remote0 (Ok body0)) w0
            = (Success result0, world1)) as Hrun.
  { apply (run_result (serve (process_figma I0 cfg0 remote0 (Ok body0)) w0)).
    vm_compute. reflexivity. }
  split; [exact Hrun|].
  pose proof (process_figma_success I0 cfg0 remote0 (Ok body0) w0 result0 world1 Hrun)
    as H.
  cbv zeta in H.
  destruct H as (fk & fd & frames0 & ids & image_urls & sid & paths & w1 & w2
                 & _ & _ & _ & _ & Htotal & Himgs & _).
  exists frames0, image_urls, paths. split; [exact Htotal|exact Himgs].
Defined.

(** X2 on a server that answers 200 with a page that is not JSON. *)
Lemma fetch_figma_file_unparsed_witness :
  fetch_figma_file I0 cfg0 remote_html (u "ABC123") w0 =
    (Raise (Exception (u "Network error: " ++ u "Expecting value")),
     set_logged [(ERROR, u "Network error: " ++ u "Expecting value")]
       (sent [file_request cfg0 (u "ABC123")] w0)).
Proof.
  exact (fetch_figma_file_unparsed I0 cfg0 remote_html (u "ABC123") w0
           (status_response 200 (u "<html>"))
           (RequestException (u "Expecting value")) eq_refl eq_refl eq_refl).
Defined.

(** X4 on a list whose second identifier is a number. *)
Lemma render_rejects_non_strings_witness :
  fetch_figma_frame_images I0 cfg0 remote0 (u "ABC123")
      [JStr (u "1:1"); JNum 7] 1 (u "png") w0
    = (Raise TypeError, w0).
Proof.
  destruct (render_rejects_non_strings I0 cfg0 remote0 (u "ABC123")
              [JStr (u "1:1"); JNum 7] 1 (u "png") w0 (JNum 7))
    as (e & w' & Hrun & Hfirst).
  - apply list_elem_of_In. right. left. reflexivity.
  - intros s. discriminate.
  - destruct Hfirst as [-> ->]; [|exact Hrun].
    apply list_elem_of_In. right. left. reflexivity.
Defined.

(** X5 on the sample document. *)
Lemma extract_frames_invariant_witness :
  extract_frames doc0 = Ok (frames_of doc0, [JStr (u "1:1"); JStr (u "2:7")]) ∧
  [JStr (u "1:1"); JStr (u "2:7")] = ids_of (frames_of doc0) ∧
  Forall (λ f, type_ f = u "FRAME" ∧ image_url f = None) (frames_of doc0).
Proof.
  assert (extract_frames doc0
            = Ok (frames_of doc0, [JStr (u "1:1"); JStr (u "2:7")])) as Hrun
    by (vm_compute; reflexivity).
  split; [exact Hrun|].
  destruct (extract_frames_invariant _ _ _ Hrun) as (Hids & Hfresh & _).
  split; [exact Hids|exact Hfresh].
Defined.

(** X6 on the two sample frames: one request, for the frame with a URL. *)
Lemma download_images_requests_witness :
  attempts (download_images I0 cfg0 remote0 frames7 (JStr (u "s1")) w0).2 =
    [download_request (u "https://img.example/1")].
Proof.
  exact (download_images_requests I0 cfg0 remote0 frames7 (u "s1") w0
           (download_dirs cfg0 (u "s1") w0).2
           (run_result (download_dirs cfg0 (u "s1") w0) (Ok ()) eq_refl)).
Defined.

(** X7 on the frame the sample server fails to render. *)
Lemma unrendered_frame_logged_witness :
  download_frame I0 remote0 (u "/app/uploads/frames/s1") ∅ unrendered27 w0 =
    (Ok ∅,
     set_logged
       [(ERROR, u "Error downloading image for frame '" ++ u "Unnamed Frame"
                  ++ u "': " ++ u "Invalid URL: No scheme supplied")] w0).
Proof.
  destruct (unrendered_frame_logged I0 remote0 {[ u "2:7" := JNull ]}
              [extracted27] [unrendered27] unrendered27
              (u "/app/uploads/frames/s1") ∅ w0)
    as (url & Hurl & Hrun).
  - vm_compute. reflexivity.
  - apply list_elem_of_In. left. reflexivity.
  - reflexivity.
  - injection Hurl as <-. exact Hrun.
Defined.

(** X12 on a URL that is no Figma URL, where nothing is requested, and on a
    server that forbids, where the error is logged by the fetcher and by the
    endpoint. *)
Lemma process_figma_failure_witness :
  serve (process_figma I0 cfg0 remote0 (Ok body_bad_url)) w0 =
    (ErrorReply 500 (u "Invalid Figma URL"),
     set_logged [(ERROR, u "Error processing Figma URL: " ++ u "Invalid Figma URL")]
       w0) ∧
  serve (process_figma I0 cfg0 remote_forbidden (Ok body0)) w0 =
    (ErrorReply 500 (u "403 Forbidden: " ++ u "Invalid token"),
     set_logged
       [(ERROR, u "403 Forbidden: " ++ u "Invalid token");
        (ERROR, u "Error processing Figma URL: "
                  ++ u "403 Forbidden: " ++ u "Invalid token")]
       (sent [file_request cfg0 (u "ABC123")] w0)).
Proof.
  split.
  - apply (process_figma_failure I0 cfg0 remote0 (Ok body_bad_url) w0
             (ValueError (u "Invalid Figma URL")) w0).
    eapply fails_key; [reflexivity| | |].
    + vm_compute. reflexivity.
    + eexists. vm_compute. reflexivity.
    + vm_compute. reflexivity.
  - apply (process_figma_failure I0 cfg0 remote_forbidden (Ok body0) w0
             (Exception (u "403 Forbidden: " ++ u "Invalid token"))
             (set_logged [(ERROR, u "403 Forbidden: " ++ u "Invalid token")]
                (sent [file_request cfg0 (u "ABC123")] w0))).
    eapply fails_fetch; [reflexivity| | | |].
    + vm_compute. reflexivity.
    + eexists. vm_compute. reflexivity.
    + vm_compute. reflexivity.
    + vm_compute. reflexivity.
Defined.

(** X13 on a document without pages. *)
Lemma process_figma_no_frames_witness :
  serve (process_figma I0 cfg0 remote_blank (Ok body0)) w0 =
    (Success {| total_frames := 0; images := [];
                session_folder := session_dir cfg0 (u "s1") |}, world_blank) ∧
  attempts world_blank = attempts w0 ++ [file_request cfg0 (u "ABC123")].
Proof.
  apply (process_figma_no_frames I0 cfg0 remote_blank _
           (JStr (u "https://figma.com/file/ABC123/Test")) (u "s1") (u "ABC123")
           blank_doc [] w0 (sent [file_request cfg0 (u "ABC123")] w0) world_blank).
  - vm_compute. reflexivity.
  - vm_compute. reflexivity.
  - vm_compute. reflexivity.
  - vm_compute. reflexivity.
  - vm_compute. reflexivity.
  - apply (run_result (download_dirs cfg0 (u "s1")
                         (sent [file_request cfg0 (u "ABC123")] w0))).
    vm_compute. reflexivity.
Defined.

(** X16 on the sample request: the image it lists is served. *)
Lemma listed_images_served_witness :
  ∃ data,
    serve (get_image I0 cfg0 (u "s1") (u "1:1")) world1
      = (FileReply data (u "image/png"), world1).
Proof.
  assert (serve (process_figma I0 cfg0 remote0 (Ok body0)) w0
            = (Success result0, world1)) as Hrun.
  { apply (run_result (serve (process_figma I0 cfg0 remote0 (Ok body0)) w0)).
    vm_compute. reflexivity. }
  destruct (listed_images_served I0 cfg0 remote0 (Ok body0) w0 result0 world1 Hrun)
    as (m & sid & Hbody & Hsid & _ & Hall).
  injection Hbody as <-. vm_compute in Hsid. injection Hsid as <-.
  apply Forall_cons in Hall as [(n & data & Hn & _ & Hget) _].
  injection Hn as <-. exists data. exact Hget.
Defined.

(** X17 on a body that is the list of the two field names, and on a body
    that is a string naming one of them. *)
Lemma process_figma_non_object_body_witness :
  serve (process_figma I0 cfg0 remote0
           (Ok (JArr [JStr (u "figma_url"); JStr (u "session_id")]))) w0 =
    (ErrorReply 500 (str_of_exn I0 TypeError), after_abort I0 TypeError w0) ∧
  serve (process_figma I0 cfg0 remote0 (Ok (JStr (u "figma_url")))) w0 =
    (ErrorReply 500 (u "400 Bad Request: Missing figma_url or session_id"),
     set_logged
       [(ERROR, u "Error processing Figma URL: 400 Bad Request: Missing figma_url or session_id")]
       w0).
Proof.
  split.
  - destruct (process_figma_non_object_body I0 cfg0 remote0
                (JArr [JStr (u "figma_url"); JStr (u "session_id")]) w0)
      as [_ Hpass].
    + intros m. discriminate.
    + apply Hpass. intros [Hfalsy|[_ Hno]]; [discriminate Hfalsy|].
      apply Hno. split; apply list_elem_of_In; cbn; auto.
  - destruct (process_figma_non_object_body I0 cfg0 remote0
                (JStr (u "figma_url")) w0) as [Haway _].
    + intros m. discriminate.
    + apply Haway. right. split; [left; by eexists|].
      intros [_ (pre & post & Heq)].
      apply (f_equal length) in Heq. rewrite !length_app in Heq.
      change (length (u "figma_url")) with 9 in Heq.
      change (length (u "session_id")) with 10 in Heq. lia.
Defined.

(** X18 on a server that answers the rendering request with a JSON list. *)
Lemma render_malformed_answer_witness :
  fetch_figma_frame_images I0 cfg0
      (remote_by_turn [Responded (ok_response (JArr []) [])]) (u "ABC123")
      [JStr (u "1:1")] 1 (u "png") w0
    = (Raise AttributeError,
       sent [render_request cfg0 (u "ABC123") 1 (u "png") [u "1:1"]] w0).
Proof.
  assert ([u "1:1"] ≠ []) as Hne by discriminate.
  exact (render_malformed_answer I0 cfg0
           (remote_by_turn [Responded (ok_response (JArr []) [])]) (u "ABC123")
           [u "1:1"] 1 (u "png") w0 (ok_response (JArr []) []) (JArr [])
           Hne eq_refl eq_refl eq_refl).
Defined.

(** X19 on the two sample frames: one record, at DEBUG, for the frame whose
    image is downloaded. *)
Lemma download_images_logs_witness :
  ∃ msg,
    logged (download_images I0 cfg0 remote0 frames7 (JStr (u "s1")) w0).2
      = [(DEBUG, msg)] ∧
    download_level I0 remote0 (session_dir cfg0 (u "s1")) hero7
      (world_before I0 remote0 (session_dir cfg0 (u "s1")) frames7
         (download_dirs cfg0 (u "s1") w0).2 0) DEBUG.
Proof.
  pose proof (download_images_logs I0 cfg0 remote0 frames7 (u "s1") w0
                (download_dirs cfg0 (u "s1") w0).2
                (run_result (download_dirs cfg0 (u "s1") w0) (Ok ()) eq_refl)) as H.
  cbv zeta in H. destruct H as (H0 & Hend & Hstep & _).
  destruct (Hstep 0 hero7 eq_refl) as (lvl & msg & Hlog & Hlvl).
  pose proof (Hstep 1 footer7 eq_refl) as Hlast. cbn in Hlast.
  rewrite H0 in Hlog.
  assert (lvl = DEBUG) as ->.
  { vm_compute in Hlog. by injection Hlog as <- _. }
  exists msg. split; [|exact Hlvl].
  rewrite Hend. change (length frames7) with 2. by rewrite Hlast, Hlog.
Defined.
